(** * Leiloeiros pipeline: scoring, classification, deduplication, extraction

    A shallow embedding of the record-processing core of the repository
    (the [processors] and [extractors] packages) together with the
    properties its specification states about it.

    Conventions of the embedding.
    - A Python [str] is a [string]: non-ASCII text is carried as its UTF-8
      bytes (the sentinel ['Não Identificado'] is compared byte for byte).
      The case functions ([lower], [upper], [capitalize], [title],
      [islower], [isupper], [istitle]) know the ASCII letters and the cased
      letters of the Latin-1 supplement (À to Þ, à to þ), the letters of
      Portuguese names; white space and digits are the ASCII ones, and for
      the classes of the regular expressions a byte of a non-ASCII
      character counts as part of a letter.  On the texts [Py.latin_text]
      describes the primitives are those of Python; other characters (ß,
      ÿ, the no-break space, bullets, other scripts) lie outside the
      embedding.
    - The dicts of [process_lista_final.py] and [rank_everyone.py] are
      records whose fields are read with [.get]: a text field is a str or
      [None], and [None] stands for both a missing key and a stored [None].
      For [tech_score], [None] is the missing key, which
      [get('tech_score', 0)] reads as 0; both [main]s store a number before
      they classify.  The cells of the data frame of [rank_final.py] also
      distinguish NaN.
    - A call that may raise returns an [outcome]; a page of a document is
      given by what rendering and recognition return for it.
    - [print] calls are not modelled: they do not influence any returned
      value. *)

From Stdlib Require Import ZArith Lia List Ascii String Bool.
From stdpp Require Import gmap strings list.
Import ListNotations.

Local Open Scope string_scope.
Local Open Scope Z_scope.

(** ** Python string primitives *)

Module Py.

Definition code (c : ascii) : N := N_of_ascii c.

Definition in_range (lo hi : N) (c : ascii) : bool :=
  ((lo <=? code c) && (code c <=? hi))%N.

Definition is_upper_char (c : ascii) : bool := in_range 65 90 c.
Definition is_lower_char (c : ascii) : bool := in_range 97 122 c.
Definition is_digit (c : ascii) : bool := in_range 48 57 c.
Definition is_alpha (c : ascii) : bool := is_upper_char c || is_lower_char c.

(** [str.isspace] on one character: TAB, LF, VT, FF, CR, FS, GS, RS, US
    and the space. *)
Definition is_space (c : ascii) : bool :=
  in_range 9 13 c || in_range 28 32 c.

Definition lower_char (c : ascii) : ascii :=
  if is_upper_char c then ascii_of_N (code c + 32) else c.

Definition upper_char (c : ascii) : ascii :=
  if is_lower_char c then ascii_of_N (code c - 32) else c.

Fixpoint forall_chars (p : ascii -> bool) (s : string) : bool :=
  match s with
  | EmptyString => true
  | String c s' => p c && forall_chars p s'
  end.

Fixpoint exists_chars (p : ascii -> bool) (s : string) : bool :=
  match s with
  | EmptyString => false
  | String c s' => p c || exists_chars p s'
  end.

(** The second byte of an upper-case (resp. lower-case) letter of the
    Latin-1 supplement, whose first byte is 195: À to Þ without the
    multiplication sign, à to þ without the division sign. *)
Definition is_latin_upper (d : ascii) : bool :=
  in_range 128 158 d && negb (N.eqb (code d) 151).
Definition is_latin_lower (d : ascii) : bool :=
  in_range 160 190 d && negb (N.eqb (code d) 183).

(** Text made of ASCII characters and of the cased letters of the Latin-1
    supplement.  On such text a byte is white space, a digit or a
    punctuation mark exactly when the character it belongs to is one, and
    the functions below are those of [str]. *)
Fixpoint latin_text (s : string) : bool :=
  match s with
  | EmptyString => true
  | String c s' =>
      if (code c <? 128)%N then latin_text s'
      else if N.eqb (code c) 195 then
        match s' with
        | String d s'' =>
            (is_latin_upper d || is_latin_lower d) && latin_text s''
        | EmptyString => false
        end
      else false
  end.

(** [s.lower()]: the ASCII letters and the accented letters of the Latin-1
    supplement. *)
Fixpoint lower (s : string) : string :=
  match s with
  | EmptyString => EmptyString
  | String c s' =>
      if N.eqb (code c) 195 then
        match s' with
        | String d s'' =>
            if is_latin_upper d
            then String c (String (ascii_of_N (code d + 32)) (lower s''))
            else String c (lower s')
        | EmptyString => String c EmptyString
        end
      else String (lower_char c) (lower s')
  end.

(** [s.upper()], likewise. *)
Fixpoint upper (s : string) : string :=
  match s with
  | EmptyString => EmptyString
  | String c s' =>
      if N.eqb (code c) 195 then
        match s' with
        | String d s'' =>
            if is_latin_lower d
            then String c (String (ascii_of_N (code d - 32)) (upper s''))
            else String c (upper s')
        | EmptyString => String c EmptyString
        end
      else String (upper_char c) (upper s')
  end.

(** [bool(s)] for a str. *)
Definition nonempty (s : string) : bool := negb (String.eqb s "").

(** [bool(v)] for a value that is a str or [None]. *)
Definition truthy (v : option string) : bool :=
  match v with
  | Some s => nonempty s
  | None => false
  end.

(** [s.startswith(p)]. *)
Definition startswith (s p : string) : bool := String.prefix p s.

(** [sub in s]. *)
Fixpoint contains (sub s : string) : bool :=
  String.prefix sub s ||
  match s with
  | EmptyString => false
  | String _ s' => contains sub s'
  end.

(** [s.endswith(suf)]: [suf] is one of the tails of [s]. *)
Fixpoint endswith (s suf : string) : bool :=
  String.eqb s suf ||
  match s with
  | EmptyString => false
  | String _ s' => endswith s' suf
  end.

(** [s.split(sep)] for a one-character separator: never the empty list. *)
Fixpoint split_on (sep : ascii) (s : string) : list string :=
  match s with
  | EmptyString => [EmptyString]
  | String c s' =>
      if Ascii.eqb c sep then EmptyString :: split_on sep s'
      else match split_on sep s' with
           | h :: t => String c h :: t
           | [] => [String c EmptyString]
           end
  end.

(** [l[-1]] on the result of a split. *)
Definition last_item (l : list string) : string := List.last l EmptyString.

(** [l[-n:]]. *)
Definition last_items {A : Type} (n : nat) (l : list A) : list A :=
  skipn (List.length l - n) l.

(** [sep.join(l)]. *)
Definition join (sep : string) (l : list string) : string :=
  String.concat sep l.

Fixpoint lstrip (s : string) : string :=
  match s with
  | EmptyString => EmptyString
  | String c s' => if is_space c then lstrip s' else s
  end.

Fixpoint rstrip (s : string) : string :=
  match s with
  | EmptyString => EmptyString
  | String c s' =>
      let r := rstrip s' in
      if String.eqb r "" && is_space c then EmptyString else String c r
  end.

(** [s.strip()]. *)
Definition strip (s : string) : string := rstrip (lstrip s).

(** [s.split()]: the maximal runs of non-space characters. *)
Fixpoint split_ws (s : string) : list string :=
  match s with
  | EmptyString => []
  | String c s' =>
      if is_space c then split_ws s'
      else match s' with
           | EmptyString => [String c EmptyString]
           | String d _ =>
               if is_space d then String c EmptyString :: split_ws s'
               else match split_ws s' with
                    | w :: ws => String c w :: ws
                    | [] => [String c EmptyString]
                    end
           end
  end.

(** Some letter of the Latin-1 supplement whose second byte satisfies [p]:
    the byte 195 only occurs as the first byte of such a letter. *)
Fixpoint exists_latin (p : ascii -> bool) (s : string) : bool :=
  match s with
  | EmptyString => false
  | String c s' =>
      (N.eqb (code c) 195
       && match s' with
          | String d _ => p d
          | EmptyString => false
          end)
      || exists_latin p s'
  end.

Definition has_lower (s : string) : bool :=
  exists_chars is_lower_char s || exists_latin is_latin_lower s.

Definition has_upper (s : string) : bool :=
  exists_chars is_upper_char s || exists_latin is_latin_upper s.

(** [s.islower()]: some cased character, and no upper-case one. *)
Definition islower (s : string) : bool := has_lower s && negb (has_upper s).

(** [s.isupper()]. *)
Definition isupper (s : string) : bool := has_upper s && negb (has_lower s).

(** [s.isspace()]. *)
Definition isspace (s : string) : bool :=
  nonempty s && forall_chars is_space s.

(** [s.capitalize()]: the first character in upper case, the others in
    lower case. *)
Definition capitalize (s : string) : string :=
  match s with
  | EmptyString => EmptyString
  | String c s' =>
      if N.eqb (code c) 195 then
        match s' with
        | String d s'' =>
            String c
              (String (if is_latin_lower d then ascii_of_N (code d - 32)
                       else d)
                 (lower s''))
        | EmptyString => String c EmptyString
        end
      else String (upper_char c) (lower s')
  end.

(** [s.istitle()]: upper-case letters only after uncased characters,
    lower-case letters only after cased ones, and some cased character. *)
Fixpoint istitle_from (previous_is_cased cased : bool) (s : string) : bool :=
  match s with
  | EmptyString => cased
  | String c s' =>
      if N.eqb (code c) 195 then
        match s' with
        | String d s'' =>
            if is_latin_upper d then
              if previous_is_cased then false else istitle_from true true s''
            else if is_latin_lower d then
              if previous_is_cased then istitle_from true true s'' else false
            else istitle_from false cased s''
        | EmptyString => cased
        end
      else if is_upper_char c then
        if previous_is_cased then false else istitle_from true true s'
      else if is_lower_char c then
        if previous_is_cased then istitle_from true true s' else false
      else istitle_from false cased s'
  end.

Definition istitle (s : string) : bool := istitle_from false false s.

(** [s.title()]. *)
Fixpoint title_from (previous_is_cased : bool) (s : string) : string :=
  match s with
  | EmptyString => EmptyString
  | String c s' =>
      if N.eqb (code c) 195 then
        match s' with
        | String d s'' =>
            if is_latin_upper d then
              String c
                (String (if previous_is_cased then ascii_of_N (code d + 32)
                         else d)
                   (title_from true s''))
            else if is_latin_lower d then
              String c
                (String (if previous_is_cased then d
                         else ascii_of_N (code d - 32))
                   (title_from true s''))
            else String c (String d (title_from false s''))
        | EmptyString => String c EmptyString
        end
      else
        String (if previous_is_cased then lower_char c else upper_char c)
               (title_from (is_alpha c) s')
  end.

Definition title (s : string) : string := title_from false s.

(** A byte that continues a UTF-8 encoded character. *)
Definition is_continuation (c : ascii) : bool := in_range 128 191 c.

(** [len(s)]: the number of characters, not of bytes. *)
Fixpoint len (s : string) : nat :=
  match s with
  | EmptyString => O
  | String c s' => if is_continuation c then len s' else S (len s')
  end.

(** [s[:n]], counted in characters. *)
Fixpoint prefix_chars (n : nat) (s : string) : string :=
  match s with
  | EmptyString => EmptyString
  | String c s' =>
      if is_continuation c then String c (prefix_chars n s')
      else match n with
           | O => EmptyString
           | S k => String c (prefix_chars k s')
           end
  end.

(** The first [n] bytes of [s] and the rest, for positions the matcher of
    [Re] returns. *)
Fixpoint take (n : nat) (s : string) : string :=
  match n, s with
  | S k, String c s' => String c (take k s')
  | _, _ => EmptyString
  end.

Fixpoint drop (n : nat) (s : string) : string :=
  match n, s with
  | S k, String _ s' => drop k s'
  | _, _ => s
  end.

End Py.

(** ** The fragment of [re] the extractors use

  Every pattern in the extractors is a sequence of character classes under
  a greedy quantifier, possibly anchored with [^] or [$].  The matcher
  below follows the backtracking order of [re]: each quantifier first takes
  the longest run it can and gives characters back one at a time. *)

Module Re.

Inductive item : Type :=
| Rep (cls : ascii -> bool) (lo : nat) (hi : option nat)
| Bol
| Eol.

Definition regex : Type := list item.

(** Quantifiers. *)
Definition plus (cls : ascii -> bool) : item := Rep cls 1 None.
Definition star (cls : ascii -> bool) : item := Rep cls 0 None.
Definition opt (cls : ascii -> bool) : item := Rep cls 0 (Some 1%nat).
Definition one (cls : ascii -> bool) : item := Rep cls 1 (Some 1%nat).
Definition at_least (n : nat) (cls : ascii -> bool) : item := Rep cls n None.

(** Character classes. *)
Definition chr (a : ascii) : ascii -> bool := Ascii.eqb a.
Definition any_of (l : string) : ascii -> bool :=
  fun c => Py.exists_chars (Ascii.eqb c) l.
Definition digit : ascii -> bool := Py.is_digit.
Definition space : ascii -> bool := Py.is_space.
(** [\w]: letters, digits and the underscore; a byte of a UTF-8 encoded
    non-ASCII character counts as part of a letter. *)
Definition word : ascii -> bool :=
  fun c => Py.is_alpha c || Py.is_digit c || Ascii.eqb c "_" ||
           (128 <=? Py.code c)%N.
Definition union (p q : ascii -> bool) : ascii -> bool :=
  fun c => p c || q c.
Definition compl (p : ascii -> bool) : ascii -> bool :=
  fun c => negb (p c).

(** Length of the longest prefix of [s] in [cls], at most [hi]. *)
Fixpoint run (cls : ascii -> bool) (hi : option nat) (s : string) : nat :=
  match hi with
  | Some O => O
  | _ =>
      match s with
      | String c s' =>
          if cls c then S (run cls (option_map Nat.pred hi) s') else O
      | EmptyString => O
      end
  end.

(** Try the counts [n], [n-1], ..., [lo] in this order. *)
Fixpoint backtrack (f : nat -> option nat) (lo n : nat) : option nat :=
  if (n <? lo)%nat then None
  else match f n with
       | Some r => Some r
       | None =>
           match n with
           | O => None
           | S n' => backtrack f lo n'
           end
       end.

(** [$]: at the end of the text, or just before a final line feed. *)
Definition at_end (s : string) : bool :=
  String.eqb s "" || String.eqb s (String "010" "").

(** [match_here r bol s]: length of the match of [r] at the start of [s],
    where [bol] tells whether [s] starts the whole text. *)
Fixpoint match_here (r : regex) (bol : bool) (s : string) : option nat :=
  match r with
  | [] => Some O
  | Bol :: r' => if bol then match_here r' bol s else None
  | Eol :: r' => if at_end s then match_here r' bol s else None
  | Rep cls lo hi :: r' =>
      backtrack
        (fun k =>
           match match_here r' (bol && (k =? 0)%nat) (Py.drop k s) with
           | Some n => Some (k + n)%nat
           | None => None
           end)
        lo (run cls hi s)
  end.

(** [re.search(r, s)]: start and length of the leftmost match. *)
Fixpoint search_from (r : regex) (bol : bool) (pos : nat) (s : string)
  : option (nat * nat) :=
  match match_here r bol s with
  | Some n => Some (pos, n)
  | None =>
      match s with
      | EmptyString => None
      | String _ s' => search_from r false (S pos) s'
      end
  end.

Definition search (r : regex) (s : string) : option (nat * nat) :=
  search_from r true O s.

(** [re.sub(r, repl, s)] for a pattern that matches no empty text and a
    literal replacement: the non-overlapping matches are replaced, scanning
    from the left.  [skip] counts the characters of the current match still
    to drop. *)
Fixpoint sub_from (r : regex) (repl : string) (bol : bool) (skip : nat)
  (s : string) : string :=
  match s with
  | EmptyString => EmptyString
  | String c s' =>
      match skip with
      | S k => sub_from r repl false k s'
      | O =>
          match match_here r bol s with
          | Some (S k) => repl ++ sub_from r repl false k s'
          | _ => String c (sub_from r repl false O s')
          end
      end
  end.

Definition sub (r : regex) (repl s : string) : string :=
  sub_from r repl true O s.

(** [re.sub(r, '', s)] *)
Definition remove_all (r : regex) (s : string) : string := sub r "" s.

(** [re.findall(r, s)] for a pattern without groups that matches no empty
    text. *)
Fixpoint findall_from (r : regex) (bol : bool) (skip : nat) (s : string)
  : list string :=
  match s with
  | EmptyString => []
  | String _ s' =>
      match skip with
      | S k => findall_from r false k s'
      | O =>
          match match_here r bol s with
          | Some (S k) => Py.take (S k) s :: findall_from r false k s'
          | _ => findall_from r false O s'
          end
      end
  end.

Definition findall (r : regex) (s : string) : list string :=
  findall_from r true O s.

End Re.

(** The patterns of the extractors. *)
Module Patterns.
Import Re.

(** [[a-zA-Z0-9._%+-]+@[a-zA-Z0-9.-]+\.[a-zA-Z]{2,}] *)
Definition email : regex :=
  [ plus (union Py.is_alpha (union Py.is_digit (any_of "._%+-")));
    one (chr "@");
    plus (union Py.is_alpha (union Py.is_digit (any_of ".-")));
    one (chr ".");
    at_least 2 Py.is_alpha ].

(** [\s*\d+[/\-]?\d*\s*$] *)
Definition trailing_number : regex :=
  [ star space; plus digit; opt (any_of "/-"); star digit; star space; Eol ].

(** [[\d\s\-\./]+$] *)
Definition trailing_digits : regex :=
  [ plus (union digit (union space (any_of "-./"))); Eol ].

(** [^[_\W]+] *)
Definition leading_symbols : regex :=
  [ Bol; plus (union (chr "_") (compl word)) ].

(** [\d] *)
Definition a_digit : regex := [ one digit ].

(** [\s+] *)
Definition spaces : regex := [ plus space ].

(** [[\d\-/\.]+] *)
Definition digits_and_marks : regex := [ plus (union digit (any_of "-/.")) ].

(** [\d+\s*[-/]\s*\d+] *)
Definition number_dash_number : regex :=
  [ plus digit; star space; one (any_of "-/"); star space; plus digit ].

End Patterns.

(** ** Records of the processors

    The dict that [process_lista_final.py] and [rank_everyone.py] pass
    around, with the keys they read or write. *)

Record leiloeiro : Type := mk_leiloeiro {
  nome : option string;
  matricula : option string;
  cidade : option string;
  site : option string;
  email : option string;
  telefone : option string;
  tech_score : option Z;
  email_corporativo : option bool;
  categoria : option string
}.

Definition set_site (v : option string) (l : leiloeiro) : leiloeiro :=
  mk_leiloeiro (nome l) (matricula l) (cidade l) v (email l) (telefone l)
    (tech_score l) (email_corporativo l) (categoria l).

Definition set_tech_score (v : Z) (l : leiloeiro) : leiloeiro :=
  mk_leiloeiro (nome l) (matricula l) (cidade l) (site l) (email l)
    (telefone l) (Some v) (email_corporativo l) (categoria l).

Definition set_categoria (v : string) (l : leiloeiro) : leiloeiro :=
  mk_leiloeiro (nome l) (matricula l) (cidade l) (site l) (email l)
    (telefone l) (tech_score l) (email_corporativo l) (Some v).

Definition set_email_corporativo (v : bool) (l : leiloeiro) : leiloeiro :=
  mk_leiloeiro (nome l) (matricula l) (cidade l) (site l) (email l)
    (telefone l) (tech_score l) (Some v) (categoria l).

(** [any(d in s for d in tokens)] *)
Definition any_in (tokens : list string) (s : string) : bool :=
  existsb (fun d => Py.contains d s) tokens.

(** ** process_lista_final.py *)

Module ProcessListaFinal.

Definition email_domains : list string :=
  ["outlook"; "gmail"; "hotmail"; "yahoo"; "uol"; "bol"; "terra"; "ig"].

Definition calcular_tech_score (l : leiloeiro) : Z :=
  let score := 0 in
  (* Site (0-50 pontos) *)
  let score :=
    match site l with
    | Some s =>
        if Py.nonempty s && negb (String.eqb s "null")
           && negb (String.eqb s "Não Identificado")
        then
          let score := score + 30 in
          let site_lower := Py.lower s in
          if negb (any_in email_domains site_lower) then score + 20 else score
        else score
    | None => score
    end in
  (* Email corporativo (0-30 pontos) *)
  let score :=
    match email l with
    | Some e =>
        if Py.nonempty e && negb (String.eqb e "null")
        then
          let score := score + 10 in
          let email_lower := Py.lower e in
          if negb (Py.contains "@gmail." email_lower
                   || Py.contains "@hotmail." email_lower
                   || Py.contains "@yahoo." email_lower
                   || Py.contains "@outlook." email_lower)
          then score + 20 else score
        else score
    | None => score
    end in
  (* Telefone (0-10 pontos) *)
  let score :=
    match telefone l with
    | Some t =>
        if Py.nonempty t && negb (String.eqb t "null") then score + 10
        else score
    | None => score
    end in
  (* Matrícula (0-10 pontos) *)
  let score :=
    match matricula l with
    | Some m =>
        if Py.nonempty m && negb (String.eqb m "null") then score + 10
        else score
    | None => score
    end in
  Z.min score 100.

Definition limpar_site (l : leiloeiro) : leiloeiro :=
  match site l with
  | None => set_site None l
  | Some s =>
      if negb (Py.nonempty s) || String.eqb s "null"
         || String.eqb s "Não Identificado"
      then set_site None l
      else if any_in email_domains (Py.lower s) then set_site None l
      else if negb (Py.startswith s "http://" || Py.startswith s "https://")
      then set_site (Some ("https://" ++ s)) l
      else l
  end.

Definition limpar_sites (ls : list leiloeiro) : list leiloeiro :=
  List.map limpar_site ls.

(** One turn of the loop of [classificar].  [tech_score l = None] is a
    record without the key, which [leiloeiro.get('tech_score', 0)] reads
    as 0. *)
Definition classificar_um (l : leiloeiro) : leiloeiro :=
  let site := site l in
  let tech_score := default 0 (tech_score l) in
  if negb (Py.truthy site) then set_categoria "Offline (Sem Site)" l
  else if 80 <? tech_score then set_categoria "Gigante (Portal)" l
  else if 40 <=? tech_score then set_categoria "Médio (Consolidado)" l
  else set_categoria "Pequeno (Com Site)" l.

Definition classificar (ls : list leiloeiro) : list leiloeiro :=
  List.map classificar_um ls.

(** The first loop of [main]: the score and the corporate flag.  The text
    of a missing email (['']) or of [None] (['None']) holds none of the
    tokens. *)
Definition pontuar (l : leiloeiro) : leiloeiro :=
  let l := set_tech_score (calcular_tech_score l) l in
  set_email_corporativo
    (match email l with
     | Some e =>
         negb (any_in ["gmail"; "hotmail"; "yahoo"; "outlook"] (Py.lower e))
     | None => true
     end) l.

(** The three passes of [main], in its order. *)
Definition processar (ls : list leiloeiro) : list leiloeiro :=
  classificar (limpar_sites (List.map pontuar ls)).

End ProcessListaFinal.

(** ** processors/rank_everyone.py *)

Module RankEveryone.

Definition email_domains : list string :=
  ["outlook"; "gmail"; "hotmail"; "yahoo"; "uol"; "bol"; "terra"; "ig";
   "me.com"].

Definition calcular_tech_score (l : leiloeiro) : Z :=
  let score := 0 in
  (* Site (0-50 pontos) *)
  let score :=
    match site l with
    | Some s =>
        if Py.nonempty s && negb (String.eqb s "null")
           && negb (String.eqb s "Não Identificado")
        then
          let score := score + 30 in
          let site_lower := Py.lower s in
          if negb (any_in email_domains site_lower) then score + 20 else score
        else score
    | None => score
    end in
  (* Email corporativo (0-30 pontos) *)
  let score :=
    match email l with
    | Some e =>
        if Py.nonempty e && negb (String.eqb e "null")
        then
          let score := score + 10 in
          let email_lower := Py.lower e in
          if negb (Py.contains "@gmail." email_lower
                   || Py.contains "@hotmail." email_lower
                   || Py.contains "@yahoo." email_lower
                   || Py.contains "@outlook." email_lower
                   || Py.contains "@uol." email_lower
                   || Py.contains "@bol." email_lower)
          then score + 20 else score
        else score
    | None => score
    end in
  (* Telefone (0-10 pontos) *)
  let score :=
    match telefone l with
    | Some t =>
        if Py.nonempty t && negb (String.eqb t "null") then score + 10
        else score
    | None => score
    end in
  (* Matrícula (0-10 pontos) *)
  let score :=
    match matricula l with
    | Some m =>
        if Py.nonempty m && negb (String.eqb m "null") then score + 10
        else score
    | None => score
    end in
  Z.min score 100.

Definition limpar_site_falso (l : leiloeiro) : leiloeiro :=
  match site l with
  | None => set_site None l
  | Some s =>
      if negb (Py.nonempty s) || String.eqb s "null"
         || String.eqb s "Não Identificado"
      then set_site None l
      else if any_in email_domains (Py.lower s) then set_site None l
      else if negb (Py.startswith s "http://" || Py.startswith s "https://")
      then set_site (Some ("https://" ++ s)) l
      else l
  end.

Definition limpar_sites_falsos (ls : list leiloeiro) : list leiloeiro :=
  List.map limpar_site_falso ls.

(** One turn of the loop of [classificar_inclusivo]; a record without
    the key [tech_score] is read as 0 here too. *)
Definition classificar_um (l : leiloeiro) : leiloeiro :=
  let site := site l in
  let tech_score := default 0 (tech_score l) in
  if negb (Py.truthy site)
  then set_tech_score 0 (set_categoria "Offline/Sem Site" l)
  else if 80 <? tech_score then set_categoria "Gigante (Portal)" l
  else if 40 <=? tech_score then set_categoria "Médio (Consolidado)" l
  else set_categoria "Pequeno (Com Site)" l.

Definition classificar_inclusivo (ls : list leiloeiro) : list leiloeiro :=
  List.map classificar_um ls.

(** The second loop of [main]: the score and the corporate flag.  The text
    of a missing email (['']) or of [None] (['None']) holds none of the
    tokens. *)
Definition pontuar (l : leiloeiro) : leiloeiro :=
  let l := set_tech_score (calcular_tech_score l) l in
  set_email_corporativo
    (match email l with
     | Some e =>
         negb (any_in ["gmail"; "hotmail"; "yahoo"; "outlook"; "uol"; "bol"]
                 (Py.lower e))
     | None => true
     end) l.

(** The three passes of [main], in its order. *)
Definition processar (ls : list leiloeiro) : list leiloeiro :=
  classificar_inclusivo (List.map pontuar (limpar_sites_falsos ls)).

End RankEveryone.

(** ** Shared shapes

    [keep_first key seen l] keeps, scanning [l] from the left, each element
    whose key is neither in [seen] nor carried by an element kept before
    it.  It is what [DataFrame.drop_duplicates(subset, keep='first')]
    computes, and what the hand-written loops of the extractors are shown
    to compute further down. *)

Section KeepFirst.
Context {A K : Type} `{EqDecision K} (key : A -> K).

Fixpoint keep_first (seen : list K) (l : list A) : list A :=
  match l with
  | [] => []
  | x :: l' =>
      if decide (key x ∈ seen) then keep_first seen l'
      else x :: keep_first (key x :: seen) l'
  end.

End KeepFirst.

(** The result of a call that may raise. *)
Inductive outcome (A : Type) : Type :=
| Returns (a : A)
| Raises.
Arguments Returns {A} a.
Arguments Raises {A}.

(** What [self.pdf_path] points to: nothing, a file [pdfplumber.open]
    rejects, or a document with its pages. *)
Inductive arquivo (P : Type) : Type :=
| Missing
| Unreadable
| Pdf (pages : list P).
Arguments Missing {P}.
Arguments Unreadable {P}.
Arguments Pdf {P} pages.

(** The dict the OCR extractors build for one auctioneer. *)
Record registro : Type := mk_registro {
  r_nome : string;
  r_email : string;
  r_site : option string;
  r_pagina : Z;
  r_fonte : string
}.

(** ** processors/rank_final.py: [InclusiveRanker] *)

(** A cell of the data frame the ranker iterates over: a stored [None], a
    missing value (NaN), or a str. *)
Inductive cell : Type :=
| CNone
| CNaN
| CStr (s : string).

Module RankFinal.

(** [bool(v)]: NaN is a non-zero float, hence true. *)
Definition truthy (v : cell) : bool :=
  match v with
  | CNone => false
  | CNaN => true
  | CStr s => Py.nonempty s
  end.

(** [pd.isna(v)] *)
Definition isna (v : cell) : bool :=
  match v with
  | CStr _ => false
  | _ => true
  end.

Definition nao_identificado : string := "Não Identificado".

Definition generic_domains : list string :=
  [ "gmail.com"; "hotmail.com"; "outlook.com"; "yahoo.com";
    "uol.com.br"; "bol.com.br"; "terra.com.br"; "ig.com.br";
    "globo.com"; "live.com"; "msn.com"; "aol.com";
    "gmail.com.br"; "hotmail.com.br"; "yahoo.com.br" ].

(** [email.split('@')[-1]] *)
Definition domain_of (email : string) : string :=
  Py.last_item (Py.split_on "@" email).

Definition is_corporate_email (email : cell) : bool :=
  if negb (truthy email) || isna email then false
  else match email with
       | CStr e =>
           let domain := Py.lower (domain_of e) in
           negb (existsb (fun generic => Py.endswith domain generic)
                         generic_domains)
       | _ => false
       end.

Definition extract_site_from_email (email existing_site : cell) : string :=
  if truthy existing_site && negb (isna existing_site) then
    match existing_site with
    | CStr s => s
    | _ => nao_identificado
    end
  else if negb (truthy email) || isna email then nao_identificado
  else if negb (is_corporate_email email) then nao_identificado
  else
    match email with
    | CStr e =>
        let domain := domain_of e in
        let domain_parts := Py.split_on "." domain in
        if (2 <=? List.length domain_parts)%nat then
          let main_domain :=
            if String.eqb (Py.last_item domain_parts) "br"
               && (3 <=? List.length domain_parts)%nat
            then Py.join "." (Py.last_items 3 domain_parts)
            else Py.join "." (Py.last_items 2 domain_parts) in
          "https://www." ++ main_domain
        else nao_identificado
    | _ => nao_identificado
    end.

Definition calculate_tech_score (email : cell) (site : option string) : Z :=
  let score := 0 in
  if negb (truthy email) || isna email then 0
  else
    let score :=
      (* Email genérico: +5 (mínimo) *)
      if negb (is_corporate_email email) then 5
      else
        (* Email corporativo: +40 *)
        let score := score + 40 in
        (* Site extraído *)
        match site with
        | Some s =>
            if Py.nonempty s && negb (String.eqb s nao_identificado)
            then
              let score := score + 30 in
              (* Domínio .com.br *)
              if Py.contains ".com.br" s then score + 20 else score + 10
            else score
        | None => score
        end in
    Z.min score 100.

Definition determine_category (site : option string) (tech_score : Z)
  : string :=
  if match site with
     | Some s => String.eqb s nao_identificado || negb (Py.nonempty s)
     | None => true
     end
  then "Offline/Sem Site"
  else if 80 <? tech_score then "Gigante (Portal)"
  else if 40 <=? tech_score then "Médio (Consolidado)"
  else "Pequeno (Com Site)".

Definition clean_nome (nome : cell) : string :=
  if negb (truthy nome) || isna nome then "Nome Não Identificado"
  else
    match nome with
    | CStr n =>
        if Py.startswith n "Licensed to" then "Leiloeiro Extraído"
        else
          let n := Re.remove_all Patterns.trailing_digits n in
          let n := Re.remove_all Patterns.leading_symbols n in
          let n := Py.strip n in
          let n :=
            if Py.nonempty n && Py.islower n
            then Py.join " " (List.map Py.capitalize (Py.split_ws n))
            else n in
          if Py.nonempty n then n else "Nome Não Identificado"
    | _ => "Nome Não Identificado"
    end.

(** A row of the input frame, with the columns [process_all] reads. *)
Record linha : Type := mk_linha {
  l_nome : cell;
  l_email : cell;
  l_site : cell;
  l_fonte : string;
  l_pagina : Z;
  l_enriquecido : bool
}.

(** A processed row. *)
Record processado : Type := mk_processado {
  p_nome : string;
  p_email : cell;
  p_email_corporativo : bool;
  p_site : string;
  p_tech_score : Z;
  p_categoria : string;
  p_fonte : string;
  p_pagina : Z;
  p_enriquecido : bool
}.

(** The body of the loop of [process_all]. *)
Definition process_row (row : linha) : processado :=
  let nome_limpo := clean_nome (l_nome row) in
  let email := l_email row in
  let existing_site := l_site row in
  let site := extract_site_from_email email existing_site in
  let tech_score := calculate_tech_score email (Some site) in
  let categoria := determine_category (Some site) tech_score in
  let email_corporativo :=
    if truthy email then is_corporate_email email else false in
  mk_processado nome_limpo
    (if truthy email then email else CStr "")
    email_corporativo site tech_score categoria
    (l_fonte row) (l_pagina row) (l_enriquecido row).

#[global] Instance cell_eq_dec : EqDecision cell.
Proof. solve_decision. Defined.

(** [process_all] on the rows of the frame: every row is processed, then
    [drop_duplicates(subset=['email'], keep='first')]. *)
Definition process_all (rows : list linha) : list processado :=
  let processed_rows := List.map process_row rows in
  keep_first p_email [] processed_rows.

End RankFinal.

(** [text.split('\n')] *)
Definition lines (text : string) : list string :=
  Py.split_on "010"%char text.

(** [any(k in s for k in keywords)], written as a loop in the source. *)
Definition has_keyword (keywords : list string) (s : string) : bool :=
  existsb (fun keyword => Py.contains keyword s) keywords.

(** ** extractors/limpeza_final_ocr.py: [PDFOCRExtractor] *)

Module LimpezaFinalOcr.

Definition noise_patterns : list string :=
  [ "Adriano Duarte"; "duarte.adriano"; "Licensed to"; "28255301828";
    "Nome"; "Matrícula"; "MATRÍCULA"; "NOME"; "CPF"; "CNPJ"; "Posse";
    "POSSE" ].

Definition is_noise (text : string) : bool :=
  if negb (Py.nonempty text) then true
  else
    let text_lower := Py.lower text in
    if existsb (fun pattern => Py.contains (Py.lower pattern) text_lower)
               noise_patterns
    then true
    else if existsb (String.eqb text_lower)
                    ["nome"; "matrícula"; "matricula"; "cpf"; "cnpj"; "posse"]
    then true
    else false.

Definition address_keywords : list string :=
  [ "RUA"; "AV"; "AVENIDA"; "ALAMEDA"; "TRAVESSA"; "RODOVIA";
    "KM"; "Nº"; "N°"; "S/N"; "APTO"; "APARTAMENTO"; "SALA";
    "ANDAR"; "BLOCO"; "CONJUNTO"; "LOTE"; "QUADRA"; "CEP";
    "BAIRRO"; "CIDADE"; "ESTADO"; "LOGRADOURO"; "ENDEREÇO" ].

Definition is_address (text : string) : bool :=
  if negb (Py.nonempty text) then false
  else has_keyword address_keywords (Py.upper text).

(** The text [clean_name] has after its two substitutions and the strip,
    before the capitalisation step. *)
Definition cleaned (name : string) : string :=
  let name_str := Re.remove_all Patterns.trailing_digits name in
  let name_str := Re.remove_all Patterns.leading_symbols name_str in
  Py.strip name_str.

Definition clean_name (name : string) : string :=
  if negb (Py.nonempty name) then ""
  else
    let name_str := cleaned name in
    if Py.nonempty name_str && Py.islower name_str
    then Py.join " " (List.map Py.capitalize (Py.split_ws name_str))
    else name_str.

Definition extract_email (text : string) : string :=
  if negb (Py.nonempty text) then ""
  else
    match Re.search Patterns.email text with
    | Some (start, n) =>
        let email := Py.lower (Py.take n (Py.drop start text)) in
        Re.remove_all Patterns.spaces email
    | None => ""
    end.

Definition novo_registro (nome email : string) (page_num : Z) : registro :=
  mk_registro nome email None page_num "pdf_ocr_extractor".

(** One turn of the loop of [process_ocr_text]; the state is
    [(processed_rows, current_name, current_email)]. *)
Definition process_line (page_num : Z)
  (st : list registro * string * string) (line : string)
  : list registro * string * string :=
  let '(processed_rows, current_name, current_email) := st in
  let line := Py.strip line in
  if negb (Py.nonempty line) then st
  else if is_noise line then st
  else if is_address line then st
  else
    let email := extract_email line in
    if Py.nonempty email then
      if Py.nonempty current_name then
        let nome_limpo := clean_name current_name in
        let processed_rows :=
          if Py.nonempty nome_limpo && (3 <? Py.len nome_limpo)%nat
          then (processed_rows ++ [novo_registro nome_limpo email page_num])%list
          else processed_rows in
        (processed_rows, "", "")
      else
        let nome_line := Py.strip (Re.remove_all Patterns.email line) in
        let nome_limpo := clean_name nome_line in
        let nome_limpo :=
          if negb (Py.nonempty nome_limpo) || (Py.len nome_limpo <? 3)%nat
          then
            let nome_parts :=
              Py.split_on "." (List.hd "" (Py.split_on "@" email)) in
            Py.join " "
              (List.map Py.capitalize (List.filter Py.nonempty nome_parts))
          else nome_limpo in
        let processed_rows :=
          if Py.nonempty nome_limpo && (3 <? Py.len nome_limpo)%nat
          then (processed_rows ++ [novo_registro nome_limpo email page_num])%list
          else processed_rows in
        (processed_rows, current_name, current_email)
    else if (3 <? Py.len line)%nat
            && negb (bool_decide (is_Some (Re.search Patterns.a_digit line)))
    then
      (processed_rows,
       if Py.nonempty current_name then current_name ++ " " ++ line else line,
       current_email)
    else st.

Definition process_ocr_text (text : string) (page_num : Z) : list registro :=
  if negb (Py.nonempty text) then []
  else
    let '(processed_rows, current_name, current_email) :=
      fold_left (process_line page_num) (lines text) ([], "", "") in
    if Py.nonempty current_name && negb (Py.nonempty current_email) then
      let nome_limpo := clean_name current_name in
      if Py.nonempty nome_limpo && (3 <? Py.len nome_limpo)%nat
      then (processed_rows ++ [novo_registro nome_limpo "" page_num])%list
      else processed_rows
    else processed_rows.

(** [f"{nome}_{email}"] *)
Definition record_key (record : registro) : string :=
  r_nome record ++ "_" ++ r_email record.

(** The loop of [deduplicate_data]; the state is
    [(seen_records, unique_data)]. *)
Definition deduplicate_step (st : gset string * list registro)
  (record : registro) : gset string * list registro :=
  let '(seen_records, unique_data) := st in
  if decide (record_key record ∈ seen_records) then st
  else ({[ record_key record ]} ∪ seen_records,
        (unique_data ++ [record])%list).

Definition deduplicate_data (data : list registro) : list registro :=
  snd (fold_left deduplicate_step data (∅, [])).

(** A page as [extract_text_with_ocr] sees it: the recognised text, or the
    exception that rendering or both recognition attempts end in. *)
Definition page : Type := outcome string.

(** The page loop inside the [try] of [extract_all_pages]: [all_data] as it
    stands when the loop ends, and whether it ended in an exception.
    [page_num] is the zero-based index of the first page of [pages]. *)
Fixpoint page_loop (pages : list page) (page_num : Z)
  (all_data : list registro) : list registro * bool :=
  match pages with
  | [] => (all_data, false)
  | p :: rest =>
      match p with
      | Raises => (all_data, true)
      | Returns text =>
          page_loop rest (page_num + 1)
            (if Py.nonempty text
             then (all_data ++ process_ocr_text text (page_num + 1))%list
             else all_data)
      end
  end.

Definition extract_all_pages (arq : arquivo page) (page_limit : Z)
  : list registro :=
  match arq with
  | Missing => []
  | Unreadable => []
  | Pdf pages =>
      let total_pages := Z.of_nat (List.length pages) in
      let pages_to_process := Z.min page_limit total_pages in
      fst (page_loop (firstn (Z.to_nat pages_to_process) pages) 0 [])
  end.

(** [run_extraction] up to the point where it saves: the records it hands
    to [save_results], or [None] when it stops with nothing extracted. *)
Definition run_extraction (arq : arquivo page) (page_limit : Z)
  : option (list registro) :=
  let raw_data := extract_all_pages arq page_limit in
  match raw_data with
  | [] => None
  | _ => Some (deduplicate_data raw_data)
  end.

End LimpezaFinalOcr.

(** ** extractors/pdf_clean_ocr.py: [PDFCleanOCRExtractor] *)

Module PdfCleanOcr.

Definition noise_patterns : list string :=
  [ "Adriano Duarte"; "duarte.adriano"; "Licensed to"; "28255301828";
    "Matricula"; "Posse"; "MATRÍCULA"; "POSSE"; "NOME";
    "NOME DO LEILOEIRO"; "CPF"; "CNPJ"; "Endereço"; "Telefone" ].

(** [sum(c.isdigit() for c in text)] *)
Fixpoint digit_count (text : string) : nat :=
  match text with
  | EmptyString => O
  | String c s' => if Py.is_digit c then S (digit_count s') else digit_count s'
  end.

Definition is_noise (text : string) : bool :=
  if negb (Py.nonempty text) then true
  else
    let text_lower := Py.lower text in
    if existsb (fun pattern => Py.contains (Py.lower pattern) text_lower)
               noise_patterns
    then true
    else if (Py.len (Py.strip text) <? 3)%nat then true
    else if (2 <? digit_count text)%nat then true
    else if existsb (String.eqb text_lower)
              ["matricula"; "posse"; "nome"; "nome do leiloeiro"; "cpf";
               "cnpj"]
    then true
    else false.

(** The capitalisation of one word of a name; words of one character are
    dropped. *)
Definition capitalized_word (word : string) : list string :=
  if Py.nonempty word && (1 <? Py.len word)%nat then
    if Py.istitle word || Py.isupper word then [Py.title word]
    else if Py.islower word then [Py.capitalize word]
    else [word]
  else [].

(** The names [extract_names_with_ocr] draws from one line of the
    recognised text. *)
Definition names_of_line (line : string) : list string :=
  let line := Py.strip line in
  if is_noise line then []
  else
    let line := Re.sub Patterns.spaces " " line in
    let clean_line := Re.remove_all Patterns.digits_and_marks line in
    let clean_line := Py.strip clean_line in
    if Py.nonempty clean_line && (3 <? Py.len clean_line)%nat
       && negb (is_noise clean_line)
    then
      let words := Py.split_ws clean_line in
      let capitalized_words := List.concat (List.map capitalized_word words) in
      let final_name := Py.join " " capitalized_words in
      if Py.nonempty final_name && (3 <? Py.len final_name)%nat
      then [final_name] else []
    else [].

Definition names_of_text (text : string) : list string :=
  List.concat (List.map names_of_line (lines text)).

(** A page as the extractor sees it: the text recognised in the name
    column (or the exception that rendering or both recognition attempts
    end in), and the embedded text layer [page.extract_text()] returns. *)
Record page : Type := mk_page {
  ocr_text : outcome string;
  text_layer : outcome (option string)
}.

Definition extract_names_with_ocr (p : page) : outcome (list string) :=
  match ocr_text p with
  | Returns text => Returns (names_of_text text)
  | Raises => Raises
  end.

Definition ocr_record (page_num : Z) (name : string) : registro :=
  mk_registro name "" None page_num "pdf_clean_ocr".

Definition fallback_record (page_num : Z) (line : string) : registro :=
  mk_registro line "" None page_num "pdf_text_fallback".

(** The page loop inside the [try]: [all_data] as it stands when the loop
    ends, and whether it ended in an exception.  [page_num] is the
    zero-based index of the first page of [pages]. *)
Fixpoint ocr_loop (pages : list page) (page_num : Z)
  (all_data : list registro) : list registro * bool :=
  match pages with
  | [] => (all_data, false)
  | p :: rest =>
      match extract_names_with_ocr p with
      | Raises => (all_data, true)
      | Returns names =>
          ocr_loop rest (page_num + 1)
            (all_data ++ List.map (ocr_record (page_num + 1)) names)%list
      end
  end.

(** The lines of a text layer the fallback keeps. *)
Definition fallback_lines (text : string) : list string :=
  List.filter
    (fun line =>
       (3 <? Py.len line)%nat && negb (is_noise line)
       && negb (bool_decide (is_Some (Re.search Patterns.a_digit line))))
    (List.map Py.strip (lines text)).

(** The page loop of the [except] branch. *)
Fixpoint fallback_loop (pages : list page) (page_num : Z)
  (all_data : list registro) : list registro :=
  match pages with
  | [] => all_data
  | p :: rest =>
      match text_layer p with
      | Raises => all_data
      | Returns t =>
          let text := default "" t in
          fallback_loop rest (page_num + 1)
            (all_data
               ++ List.map (fallback_record (page_num + 1))
                    (fallback_lines text))%list
      end
  end.

Definition extract_all_pages (arq : arquivo page) (page_limit : Z)
  : list registro :=
  match arq with
  | Missing => []
  | Unreadable => []
  | Pdf pages =>
      let total_pages := Z.of_nat (List.length pages) in
      let pages_to_process := Z.min page_limit total_pages in
      let '(all_data, raised) :=
        ocr_loop (firstn (Z.to_nat pages_to_process) pages) 0 [] in
      if raised then
        fallback_loop (firstn (Z.to_nat (Z.min 5 total_pages)) pages) 0
          all_data
      else all_data
  end.

(** The loop of [deduplicate_data]; the state is
    [(seen_names, unique_data)]. *)
Definition deduplicate_step (st : gset string * list registro)
  (record : registro) : gset string * list registro :=
  let '(seen_names, unique_data) := st in
  if decide (r_nome record ∈ seen_names) then st
  else ({[ r_nome record ]} ∪ seen_names, (unique_data ++ [record])%list).

Definition deduplicate_data (data : list registro) : list registro :=
  snd (fold_left deduplicate_step data (∅, [])).

End PdfCleanOcr.

(** ** extractors/pdf_direct_extractor.py: [PDFDirectExtractor] *)

(** The dict [extract_leiloeiros_from_text] builds. *)
Record candidato : Type := mk_candidato {
  c_nome : string;
  c_email : string;
  c_email_corporativo : bool;
  c_site : string;
  c_fonte : string;
  c_linha_original : string
}.

Module PdfDirectExtractor.

Definition address_keywords : list string :=
  [ "RUA"; "AVENIDA"; "AV."; "ALAMEDA"; "TRAVESSA";
    "KM"; "Nº"; "N°"; "S/N"; "APTO"; "SALA" ].

Definition looks_like_address (text : string) : bool :=
  has_keyword address_keywords (Py.upper text).

Definition generic_domains : list string :=
  [ "gmail.com"; "hotmail.com"; "outlook.com"; "yahoo.com";
    "uol.com.br"; "bol.com.br"; "terra.com.br"; "ig.com.br";
    "globo.com"; "live.com"; "msn.com"; "aol.com" ].

Definition is_corporate_email (email : string) : bool :=
  let domain := Py.lower (Py.last_item (Py.split_on "@" email)) in
  negb (existsb (fun generic => Py.endswith domain generic) generic_domains).

Definition extract_site_from_email (email : string) : string :=
  if negb (is_corporate_email email) then ""
  else
    let domain := Py.last_item (Py.split_on "@" email) in
    let domain_parts := Py.split_on "." domain in
    if (2 <=? List.length domain_parts)%nat then
      let main_domain :=
        if String.eqb (Py.last_item domain_parts) "br"
           && (3 <=? List.length domain_parts)%nat
        then Py.join "." (Py.last_items 3 domain_parts)
        else Py.join "." (Py.last_items 2 domain_parts) in
      "https://www." ++ main_domain
    else "".

(** The candidates one line of the text gives: none or one. *)
Definition leiloeiros_of_line (line : string) : list candidato :=
  let line := Py.strip line in
  if negb (Py.nonempty line) || (Py.len line <? 5)%nat then []
  else
    match Re.search Patterns.email line with
    | Some (start, n) =>
        let email := Py.lower (Py.take n (Py.drop start line)) in
        let nome_part := Py.strip (Py.take start line) in
        let nome := Re.remove_all Patterns.trailing_number nome_part in
        let nome := Py.strip nome in
        let nome :=
          if (Py.len nome <? 3)%nat || looks_like_address nome
          then List.hd "N/A" (Py.split_ws line)
          else nome in
        let is_corporate := is_corporate_email email in
        let site := if is_corporate then extract_site_from_email email else "" in
        [ mk_candidato nome email is_corporate site "pdf_direto"
            (Py.prefix_chars 100 line) ]
    | None => []
    end.

Definition extract_leiloeiros_from_text (text : string) : list candidato :=
  List.concat (List.map leiloeiros_of_line (lines text)).

(** A page as [extract_all_text] sees it: what [page.extract_text()]
    returns, or the exception it ends in. *)
Definition page : Type := outcome (option string).

(** The page loop inside the [try] of [extract_all_text]; [page_num] is the
    one-based number of the first page of [pages].  The loop breaks after
    the third page. *)
Fixpoint text_loop (pages : list page) (page_num : Z)
  (all_text : list string) : outcome (list string) :=
  match pages with
  | [] => Returns all_text
  | p :: rest =>
      match p with
      | Raises => Raises
      | Returns t =>
          let all_text :=
            match t with
            | Some text =>
                if Py.nonempty text then (all_text ++ [text])%list
                else all_text
            | None => all_text
            end in
          if 3 <=? page_num then Returns all_text
          else text_loop rest (page_num + 1) all_text
      end
  end.

Definition extract_all_text (arq : arquivo page) : string :=
  match arq with
  | Missing => ""
  | Unreadable => ""
  | Pdf pages =>
      match text_loop pages 1 [] with
      | Returns all_text => Py.join (String "010" "") all_text
      | Raises => ""
      end
  end.

(** [run_extraction] up to the point where it saves: the candidates it
    hands to [save_to_json], or [None] when it stops with nothing. *)
Definition run_extraction (arq : arquivo page) : option (list candidato) :=
  let text := extract_all_text arq in
  if negb (Py.nonempty text) then None
  else
    match extract_leiloeiros_from_text text with
    | [] => None
    | leiloeiros => Some leiloeiros
    end.

End PdfDirectExtractor.

(** ** extractors/pdf_geometric_ocr.py: [PDFGeometricOCRExtractor] *)

Module PdfGeometricOcr.

(** The names [extract_with_ocr_crop] keeps from the text of the left
    region. *)
Definition names_of_line (line : string) : list string :=
  let line := Py.strip line in
  if Py.nonempty line && (2 <? Py.len line)%nat then
    let clean_line := Re.remove_all Patterns.trailing_number line in
    let clean_line := Py.strip clean_line in
    if Py.nonempty clean_line && (2 <? Py.len clean_line)%nat
    then [clean_line] else []
  else [].

Definition names_of_text (left_text : string) : list string :=
  List.concat (List.map names_of_line (lines left_text)).

(** The emails it finds in the text of the right region. *)
Definition emails_of_text (right_text : string) : list string :=
  List.map Py.lower (Re.findall Patterns.email right_text).

(** A page as the extractor sees it: the texts recognised in the left and
    in the right region, or the exception that rendering or recognition
    ends in. *)
Definition page : Type := outcome (string * string).

Definition extract_with_ocr_crop (p : page)
  : outcome (list string * list string) :=
  match p with
  | Returns (left_text, right_text) =>
      Returns (names_of_text left_text, emails_of_text right_text)
  | Raises => Raises
  end.

Definition address_keywords : list string :=
  [ "RUA"; "AVENIDA"; "AV."; "ALAMEDA"; "TRAVESSA";
    "KM"; "Nº"; "N°"; "S/N"; "APTO"; "SALA"; "ANDAR" ].

Definition is_address (text : string) : bool :=
  if has_keyword address_keywords (Py.upper text) then true
  else if bool_decide (is_Some (Re.search Patterns.number_dash_number text))
  then true
  else false.

Definition clean_name (name : string) : string :=
  if negb (Py.nonempty name) then ""
  else
    let name := Re.remove_all Patterns.leading_symbols name in
    let name := Re.remove_all Patterns.trailing_digits name in
    Py.strip name.

(** One turn of the loop over the names of a page; the state is
    [(all_data, name_count)]. *)
Definition name_step (page_num : Z) (emails : list string)
  (st : list registro * nat) (name : string) : list registro * nat :=
  let '(all_data, name_count) := st in
  let clean_name := clean_name name in
  if Py.nonempty clean_name && (3 <=? Py.len clean_name)%nat
     && negb (is_address clean_name) && negb (Py.isspace clean_name)
  then
    let corresponding_email :=
      match emails with
      | [] => ""
      | _ => List.nth (name_count mod List.length emails) emails ""
      end in
    ((all_data
        ++ [mk_registro clean_name corresponding_email None (page_num + 1)
              "pdf_geometric_ocr"])%list,
     S name_count)
  else st.

(** The page loop inside the [try]: [all_data] as it stands when the loop
    ends, and whether it ended in an exception.  [page_num] is the
    zero-based index of the first page of [pages]. *)
Fixpoint page_loop (pages : list page) (page_num : Z)
  (all_data : list registro) : list registro * bool :=
  match pages with
  | [] => (all_data, false)
  | p :: rest =>
      match extract_with_ocr_crop p with
      | Raises => (all_data, true)
      | Returns (names, emails) =>
          page_loop rest (page_num + 1)
            (fst (fold_left (name_step page_num emails) names (all_data, O)))
      end
  end.

Definition extract_all_pages (arq : arquivo page) (page_limit : Z)
  : list registro :=
  match arq with
  | Missing => []
  | Unreadable => []
  | Pdf pages =>
      let total_pages := Z.of_nat (List.length pages) in
      let pages_to_process := Z.min page_limit total_pages in
      fst (page_loop (firstn (Z.to_nat pages_to_process) pages) 0 [])
  end.

End PdfGeometricOcr.

(** ** process_lista_final.py, processors/rank_everyone.py: the report of
    [main], written alike in both *)

Module Relatorio.

Record relatorio : Type := mk_relatorio {
  total : Z;
  com_site : Z;
  offline : Z;
  categorias : gmap string Z
}.

(** [categorias[cat] = categorias.get(cat, 0) + 1] *)
Definition contar (categorias : gmap string Z) (cat : string)
  : gmap string Z :=
  <[cat := default 0 (categorias !! cat) + 1]> categorias.

(** The loop over [leiloeiro['categoria']]; a record without the key ends
    it in a [KeyError]. *)
Definition contar_categorias (leiloeiros : list leiloeiro)
  : outcome (gmap string Z) :=
  fold_left
    (fun (acc : outcome (gmap string Z)) (l : leiloeiro) =>
       match acc with
       | Returns categorias =>
           match categoria l with
           | Some cat => Returns (contar categorias cat)
           | None => Raises
           end
       | Raises => Raises
       end)
    leiloeiros (Returns ∅).

Definition gerar (leiloeiros : list leiloeiro) : outcome relatorio :=
  let total := Z.of_nat (List.length leiloeiros) in
  let com_site :=
    Z.of_nat
      (List.length (List.filter (fun l => Py.truthy (site l)) leiloeiros)) in
  let offline := total - com_site in
  match contar_categorias leiloeiros with
  | Returns categorias =>
      (* [com_site/total]: a [ZeroDivisionError] when no record was read *)
      if total =? 0 then Raises
      else Returns (mk_relatorio total com_site offline categorias)
  | Raises => Raises
  end.

(** The numbers [main] of each processor reports for the records it is
    given. *)
Definition process_lista_final (leiloeiros : list leiloeiro)
  : outcome relatorio :=
  gerar (ProcessListaFinal.processar leiloeiros).

Definition rank_everyone (leiloeiros : list leiloeiro) : outcome relatorio :=
  gerar (RankEveryone.processar leiloeiros).

(** How many records carry the category [cat]. *)
Definition quantos (cat : string) (leiloeiros : list leiloeiro) : Z :=
  Z.of_nat
    (List.length
       (List.filter (fun l => bool_decide (categoria l = Some cat))
          leiloeiros)).

End Relatorio.

(** ** The specification's reading of the same operations

    These definitions follow the words of the specification; the theorems
    below compare them with the code. *)

Module Spec.

Inductive category : Type :=
| Offline
| Large
| Medium
| Small.

(** "No usable site => Offline; tech_score > 80 => Large; tech_score in
    [40,80] => Medium; otherwise Small", first match wins. *)
Definition category_of (usable_site : bool) (tech_score : Z) : category :=
  if negb usable_site then Offline
  else if 80 <? tech_score then Large
  else if (40 <=? tech_score) && (tech_score <=? 80) then Medium
  else Small.

(** "Clamp total to [0,100]". *)
Definition clamp (z : Z) : Z := Z.max 0 (Z.min z 100).

(** The host of a site: the part after the scheme, up to the first slash. *)
Definition site_domain (site : string) : string :=
  let rest :=
    if Py.startswith site "https://" then Py.drop 8 site
    else if Py.startswith site "http://" then Py.drop 7 site
    else site in
  Py.lower (List.hd "" (Py.split_on "/" rest)).

(** The domain of an email: the part after the last [@]. *)
Definition email_domain (email : string) : string :=
  Py.lower (Py.last_item (Py.split_on "@" email)).

(** A field that is present and not empty. *)
Definition present (v : option string) : bool := Py.truthy v.

(** The scoring table of the specification over a list [personal] of
    personal-email domains. *)
Definition tech_score (personal : list string) (l : leiloeiro) : Z :=
  let pts (b : bool) (n : Z) := if b then n else 0 in
  let site_pts :=
    match site l with
    | Some s =>
        if Py.nonempty s
        then 30 + pts (negb (bool_decide (site_domain s ∈ personal))) 20
        else 0
    | None => 0
    end in
  let email_pts :=
    match email l with
    | Some e =>
        if Py.nonempty e
        then 10 + pts (negb (bool_decide (email_domain e ∈ personal))) 20
        else 0
    | None => 0
    end in
  clamp (site_pts + email_pts + pts (present (telefone l)) 10
         + pts (present (matricula l)) 10).

(** The accented letters of the Latin-1 supplement without their accent:
    the base letter for the second byte [d] of the two-byte encoding. *)
Definition unaccent_latin (d : ascii) : option ascii :=
  let n := Py.code d in
  if ((128 <=? n) && (n <=? 133))%N then Some "A"%char
  else if (n =? 135)%N then Some "C"%char
  else if ((136 <=? n) && (n <=? 139))%N then Some "E"%char
  else if ((140 <=? n) && (n <=? 143))%N then Some "I"%char
  else if (n =? 145)%N then Some "N"%char
  else if ((146 <=? n) && (n <=? 150))%N then Some "O"%char
  else if ((153 <=? n) && (n <=? 156))%N then Some "U"%char
  else None.

(** Accent-insensitive form of an upper-cased text. *)
Fixpoint strip_accents (s : string) : string :=
  match s with
  | EmptyString => EmptyString
  | String c s' =>
      if N.eqb (Py.code c) 195 then
        match s' with
        | String d s'' =>
            match unaccent_latin d with
            | Some b => String b (strip_accents s'')
            | None => String c (strip_accents s')
            end
        | EmptyString => String c EmptyString
        end
      else String c (strip_accents s')
  end.

(** "(upper-cased, accent-insensitive, whitespace-collapsed name) +
    (lower-cased email or empty)". *)
Definition normalized_key (r : registro) : string * string :=
  (Py.join " " (Py.split_ws (strip_accents (Py.upper (r_nome r)))),
   Py.lower (r_email r)).

(** "A page-processing exception is caught, logged, and treated as zero
    candidates; processing continues to the next page": the pages are
    independent, numbered from 1. *)
Fixpoint isolated_pages {P : Type} (records : Z -> P -> outcome (list registro))
  (pages : list P) (page_num : Z) : list registro :=
  match pages with
  | [] => []
  | p :: rest =>
      (match records (page_num + 1) p with
       | Returns rs => rs
       | Raises => []
       end ++ isolated_pages records rest (page_num + 1))%list
  end.

End Spec.

(** ** The scoring table as the code applies it *)

Module Tabela.

(** [n] points when [b] holds. *)
Definition pts (b : bool) (n : Z) : Z := if b then n else 0.

(** The test both scorers apply to the site: present, not empty, and
    neither ['null'] nor ['Não Identificado']. *)
Definition site_valido (v : option string) : bool :=
  match v with
  | Some s =>
      Py.nonempty s && negb (String.eqb s "null")
      && negb (String.eqb s "Não Identificado")
  | None => false
  end.

(** The test they apply to the email, the phone and the registration
    number: present, not empty, and not ['null']. *)
Definition campo_valido (v : option string) : bool :=
  match v with
  | Some s => Py.nonempty s && negb (String.eqb s "null")
  | None => false
  end.

(** No token of [tokens] occurs in the lower-cased text. *)
Definition sem_token (tokens : list string) (v : option string) : bool :=
  match v with
  | Some s => negb (any_in tokens (Py.lower s))
  | None => true
  end.

(** The point sum before clamping, for the tokens looked for in the site
    and the markers looked for in the email. *)
Definition pontos (site_tokens email_markers : list string) (l : leiloeiro)
  : Z :=
  pts (site_valido (site l)) 30
  + pts (site_valido (site l) && sem_token site_tokens (site l)) 20
  + pts (campo_valido (email l)) 10
  + pts (campo_valido (email l) && sem_token email_markers (email l)) 20
  + pts (campo_valido (telefone l)) 10
  + pts (campo_valido (matricula l)) 10.

(** The markers [process_lista_final.py] looks for in an email. *)
Definition markers_final : list string :=
  ["@gmail."; "@hotmail."; "@yahoo."; "@outlook."].

(** The markers [rank_everyone.py] looks for in an email. *)
Definition markers_everyone : list string :=
  ["@gmail."; "@hotmail."; "@yahoo."; "@outlook."; "@uol."; "@bol."].

(** The point sum of [calculate_tech_score] of [rank_final.py] before
    clamping. *)
Definition pontos_final (email : cell) (site : option string) : Z :=
  if negb (RankFinal.truthy email) || RankFinal.isna email then 0
  else if negb (RankFinal.is_corporate_email email) then 5
  else
    40
    + match site with
      | Some s =>
          if Py.nonempty s && negb (String.eqb s RankFinal.nao_identificado)
          then 30 + (if Py.contains ".com.br" s then 20 else 10)
          else 0
      | None => 0
      end.

(** The category names of [process_lista_final.py]. *)
Definition label_final (c : Spec.category) : string :=
  match c with
  | Spec.Offline => "Offline (Sem Site)"
  | Spec.Large => "Gigante (Portal)"
  | Spec.Medium => "Médio (Consolidado)"
  | Spec.Small => "Pequeno (Com Site)"
  end.

(** The category names of [rank_everyone.py] and [rank_final.py]. *)
Definition label_inclusivo (c : Spec.category) : string :=
  match c with
  | Spec.Offline => "Offline/Sem Site"
  | Spec.Large => "Gigante (Portal)"
  | Spec.Medium => "Médio (Consolidado)"
  | Spec.Small => "Pequeno (Com Site)"
  end.

(** A site [determine_category] can use: present, not empty, and not the
    sentinel. *)
Definition site_identificado (site : option string) : bool :=
  match site with
  | Some s => Py.nonempty s && negb (String.eqb s RankFinal.nao_identificado)
  | None => false
  end.

End Tabela.

(** ** What one page contributes

    The records the body of each page loop appends for the page numbered
    [page_num] (from 1), or the exception it ends in. *)

Module Pagina.

Definition geometric_records (page_num : Z) (p : PdfGeometricOcr.page)
  : outcome (list registro) :=
  match PdfGeometricOcr.extract_with_ocr_crop p with
  | Returns (names, emails) =>
      Returns
        (fst (fold_left (PdfGeometricOcr.name_step (page_num - 1) emails)
                names ([], O)))
  | Raises => Raises
  end.

Definition clean_records (page_num : Z) (p : PdfCleanOcr.page)
  : outcome (list registro) :=
  match PdfCleanOcr.extract_names_with_ocr p with
  | Returns names => Returns (List.map (PdfCleanOcr.ocr_record page_num) names)
  | Raises => Raises
  end.

(** The page is processed without an exception. *)
Definition geometric_ok (p : PdfGeometricOcr.page) : Prop := p <> Raises.
Definition clean_ok (p : PdfCleanOcr.page) : Prop :=
  PdfCleanOcr.ocr_text p <> Raises.

Definition limpeza_records (page_num : Z) (p : LimpezaFinalOcr.page)
  : outcome (list registro) :=
  match p with
  | Returns text =>
      Returns (if Py.nonempty text
               then LimpezaFinalOcr.process_ocr_text text page_num
               else [])
  | Raises => Raises
  end.

Definition limpeza_ok (p : LimpezaFinalOcr.page) : Prop := p <> Raises.

(** The texts [extract_all_text] collects from pages that return: the
    non-empty ones. *)
Definition page_texts (pages : list PdfDirectExtractor.page) : list string :=
  List.concat
    (List.map
       (fun p : PdfDirectExtractor.page =>
          match p with
          | Returns (Some text) => if Py.nonempty text then [text] else []
          | _ => []
          end)
       pages).

End Pagina.

(** ** Sample inputs *)

Module Exemplos.

(** A site and an email on the same domain. *)
Definition so_site : leiloeiro :=
  mk_leiloeiro None None None (Some "terra.com.br") None None None None None.
Definition so_email : leiloeiro :=
  mk_leiloeiro None None None None (Some "a@terra.com.br") None None None
    None.

(** The record of the specification's scenario: a corporate email, the
    site synthesized from it, and a score of 80. *)
Definition zuk : leiloeiro :=
  mk_leiloeiro (Some "ZUK") None None (Some "https://www.zukleiloes.com.br")
    (Some "contato@zukleiloes.com.br") None (Some 80) None None.

(** A record without a site whose other fields had earned 30 points. *)
Definition sem_site : leiloeiro :=
  mk_leiloeiro (Some "ADEMILSON CESAR TEIXEIRA") (Some "1165")
    (Some "ARAÇATUBA") None (Some "ademilsonct@gmail.com")
    (Some "(18)99136-8689") (Some 30) None None.

(** Two extraction passes over the same person. *)
Definition maria_direto : registro :=
  mk_registro "MARIA SOUZA" "maria@souzaleiloes.com.br" None 1
    "pdf_ocr_extractor".
Definition maria_ocr : registro :=
  mk_registro "Maria Souza" "maria@souzaleiloes.com.br" None 2
    "pdf_ocr_extractor".

(** The line of the specification's scenario. *)
Definition linha_joao : string :=
  "JOAO DA SILVA 1234 joao@meudominio.com.br".

(** A document whose first page cannot be processed and whose second
    page holds one auctioneer. *)
Definition paginas_com_falha : list PdfGeometricOcr.page :=
  [ Raises; Returns ("PEDRO ALVES", "pedro@alvesleiloes.com.br") ].

(** The same for the clean OCR extractor; no page has a text layer. *)
Definition paginas_limpas_com_falha : list PdfCleanOcr.page :=
  [ PdfCleanOcr.mk_page Raises (Returns None);
    PdfCleanOcr.mk_page (Returns "PEDRO ALVES") (Returns None) ].

(** A webmail address typed into the site field. *)
Definition site_webmail : leiloeiro :=
  mk_leiloeiro (Some "JOAO DA SILVA") (Some "1234") None
    (Some "www.gmail.com/joaoleiloes") (Some "joao@gmail.com") None None None
    None.

(** A site given without its scheme. *)
Definition site_sem_esquema : leiloeiro :=
  mk_leiloeiro (Some "ADRIANO PIOVEZAN FONTE") (Some "1325") (Some "GUARUJÁ")
    (Some "www.lancejudicial.com.br") (Some "contato@lancejudicial.com.br")
    (Some "(13)3384-8000") None None None.

(** Three rows of the ranker's frame without an email. *)
Definition linhas_sem_email : list RankFinal.linha :=
  [ RankFinal.mk_linha (CStr "JOAO DA SILVA") CNone CNone "pdf_enriquecido" 1
      false;
    RankFinal.mk_linha (CStr "MARIA SOUZA") (CStr "") CNone "pdf_enriquecido"
      2 false;
    RankFinal.mk_linha (CStr "PEDRO ALVES") CNone CNone "pdf_enriquecido" 3
      false ].

End Exemplos.

(** ** Shapes the further properties speak about *)

Module Forma.

(** What a cleaned site looks like: absent, or a text valid for the scorer
    that holds no email-provider token and starts with a scheme. *)
Definition site_limpo (tokens : list string) (v : option string) : Prop :=
  v = None
  \/ exists s : string,
       v = Some s
       /\ Tabela.site_valido v = true
       /\ Tabela.sem_token tokens v = true
       /\ (Py.startswith s "http://" || Py.startswith s "https://") = true.

(** The test the geometric extractor applies to a cleaned name. *)
Definition geometric_valid (clean_name : string) : bool :=
  Py.nonempty clean_name && (3 <=? Py.len clean_name)%nat
  && negb (PdfGeometricOcr.is_address clean_name)
  && negb (Py.isspace clean_name).

(** The texts a pattern of [Re] can match, stated without the matcher:
    one piece per quantified class, each made of characters of the class
    and with a length the quantifier allows; the anchors match no text. *)
Definition within (lo : nat) (hi : option nat) (n : nat) : Prop :=
  (lo <= n)%nat /\ match hi with Some h => (n <= h)%nat | None => True end.

Fixpoint accepts (r : Re.regex) (w : string) : Prop :=
  match r with
  | [] => w = ""
  | Re.Rep cls lo hi :: r' =>
      exists u v : string,
        w = u ++ v /\ Py.forall_chars cls u = true
        /\ within lo hi (String.length u) /\ accepts r' v
  | Re.Bol :: r' => accepts r' w
  | Re.Eol :: r' => accepts r' w
  end.

(** What a classified record looks like when no record with a site is
    small; [off] is the label of the offline category. *)
Definition classified (off : string) (x : leiloeiro) : Prop :=
  (Py.truthy (site x) = false /\ categoria x = Some off)
  \/ (Py.truthy (site x) = true
      /\ (categoria x = Some "Gigante (Portal)"
          \/ categoria x = Some "Médio (Consolidado)")).

(** The characters an email address found by [Patterns.email] is made
    of, apart from the ['@']. *)
Definition email_char (c : ascii) : bool :=
  Py.is_alpha c || Py.is_digit c || Re.any_of "._%+-" c.

End Forma.

(** * Properties *)

(** ** Facts about the string primitives *)

Lemma app_empty (s : string) : "" ++ s = s.
Proof. reflexivity. Qed.

Lemma app_cons (c : ascii) (s t : string) :
  String c s ++ t = String c (s ++ t).
Proof. reflexivity. Qed.

Lemma nonempty_true (s : string) : Py.nonempty s = true <-> s <> "".
Proof.
  unfold Py.nonempty. destruct (String.eqb_spec s ""); simpl; split;
    intros; congruence.
Qed.

Lemma nonempty_false (s : string) : Py.nonempty s = false <-> s = "".
Proof.
  unfold Py.nonempty. destruct (String.eqb_spec s ""); simpl; split;
    intros; congruence.
Qed.

Lemma truthy_false (v : option string) :
  Py.truthy v = false <-> v = None \/ v = Some "".
Proof.
  destruct v as [s|]; simpl.
  - rewrite nonempty_false. split.
    + intros ->. now right.
    + intros [H|H]; congruence.
  - split; auto.
Qed.

Lemma prefix_true (p s : string) :
  String.prefix p s = true <-> exists t, s = p ++ t.
Proof.
  revert s. induction p as [|a p IH]; intros s; simpl.
  - split; [intros _; now exists s | intros _; now destruct s].
  - destruct s as [|b s]; simpl.
    + split; [discriminate | intros [t Ht]; discriminate].
    + destruct (ascii_dec a b) as [->|Hne].
      * rewrite IH. split; intros [t Ht]; exists t;
          rewrite ?app_cons in *; congruence.
      * split; [discriminate |].
        intros [t Ht]. rewrite app_cons in Ht. congruence.
Qed.

(** [sub in s] holds exactly when [s] is [pre ++ sub ++ post]. *)
Lemma contains_true (sub s : string) :
  Py.contains sub s = true <-> exists pre post, s = pre ++ sub ++ post.
Proof.
  induction s as [|c s IH]; cbn [Py.contains].
  - rewrite orb_false_r, prefix_true. split.
    + intros [t Ht]. exists "", t. exact Ht.
    + intros (pre & post & H). destruct pre.
      * rewrite app_empty in H. eauto.
      * discriminate.
  - rewrite orb_true_iff, prefix_true, IH. split.
    + intros [[t Ht] | (pre & post & H)].
      * exists "", t. exact Ht.
      * exists (String c pre), post. rewrite app_cons. now rewrite H.
    + intros (pre & post & H). destruct pre as [|a pre].
      * left. rewrite app_empty in H. eauto.
      * right. rewrite app_cons in H. exists pre, post. congruence.
Qed.

(** [s.endswith(suf)] holds exactly when [s] is [pre ++ suf]. *)
Lemma endswith_true (s suf : string) :
  Py.endswith s suf = true <-> exists pre, s = pre ++ suf.
Proof.
  induction s as [|c s IH]; cbn [Py.endswith].
  - rewrite orb_false_r, String.eqb_eq. split.
    + intros <-. now exists "".
    + intros [pre H]. destruct pre; [auto | discriminate].
  - rewrite orb_true_iff, String.eqb_eq, IH. split.
    + intros [<- | [pre H]].
      * now exists "".
      * exists (String c pre). rewrite app_cons. now rewrite H.
    + intros [pre H]. destruct pre as [|a pre].
      * now left.
      * right. rewrite app_cons in H. exists pre. congruence.
Qed.

(** ** Scoring *)

Lemma any_in_markers_final (x : string) :
  any_in Tabela.markers_final x
  = Py.contains "@gmail." x || Py.contains "@hotmail." x
    || Py.contains "@yahoo." x || Py.contains "@outlook." x.
Proof.
  unfold any_in, Tabela.markers_final. cbn [existsb].
  now rewrite orb_false_r, !orb_assoc.
Qed.

Lemma any_in_markers_everyone (x : string) :
  any_in Tabela.markers_everyone x
  = Py.contains "@gmail." x || Py.contains "@hotmail." x
    || Py.contains "@yahoo." x || Py.contains "@outlook." x
    || Py.contains "@uol." x || Py.contains "@bol." x.
Proof.
  unfold any_in, Tabela.markers_everyone. cbn [existsb].
  now rewrite orb_false_r, !orb_assoc.
Qed.

(** Case analysis on the tests of a scorer. *)
Ltac split_tests :=
  repeat match goal with
         | |- context [if ?b then _ else _] => destruct b
         end.

(** The contribution of each block of the scorers, whatever the score
    accumulated before it. *)
Lemma site_points (tokens : list string) (v : option string) (score : Z) :
  match v with
  | Some s =>
      if Py.nonempty s && negb (String.eqb s "null")
         && negb (String.eqb s "Não Identificado")
      then if negb (any_in tokens (Py.lower s))
           then score + 30 + 20 else score + 30
      else score
  | None => score
  end
  = score + Tabela.pts (Tabela.site_valido v) 30
    + Tabela.pts (Tabela.site_valido v && Tabela.sem_token tokens v) 20.
Proof.
  unfold Tabela.pts, Tabela.site_valido, Tabela.sem_token.
  destruct v as [s|]; cbn [andb]; [|lia].
  destruct (Py.nonempty s && negb (String.eqb s "null")
            && negb (String.eqb s "Não Identificado")); cbn [andb]; [|lia].
  destruct (negb (any_in tokens (Py.lower s))); lia.
Qed.

Lemma email_points (markers : list string) (v : option string) (score : Z) :
  match v with
  | Some e =>
      if Py.nonempty e && negb (String.eqb e "null")
      then if negb (any_in markers (Py.lower e))
           then score + 10 + 20 else score + 10
      else score
  | None => score
  end
  = score + Tabela.pts (Tabela.campo_valido v) 10
    + Tabela.pts (Tabela.campo_valido v && Tabela.sem_token markers v) 20.
Proof.
  unfold Tabela.pts, Tabela.campo_valido, Tabela.sem_token.
  destruct v as [e|]; cbn [andb]; [|lia].
  destruct (Py.nonempty e && negb (String.eqb e "null")); cbn [andb]; [|lia].
  destruct (negb (any_in markers (Py.lower e))); lia.
Qed.

Lemma field_points (v : option string) (score : Z) :
  match v with
  | Some t =>
      if Py.nonempty t && negb (String.eqb t "null") then score + 10
      else score
  | None => score
  end
  = score + Tabela.pts (Tabela.campo_valido v) 10.
Proof.
  unfold Tabela.pts, Tabela.campo_valido.
  destruct v as [t|]; [|lia].
  destruct (Py.nonempty t && negb (String.eqb t "null")); lia.
Qed.

Lemma email_points_final (v : option string) (score : Z) :
  match v with
  | Some e =>
      if Py.nonempty e && negb (String.eqb e "null")
      then if negb (Py.contains "@gmail." (Py.lower e)
                    || Py.contains "@hotmail." (Py.lower e)
                    || Py.contains "@yahoo." (Py.lower e)
                    || Py.contains "@outlook." (Py.lower e))
           then score + 10 + 20 else score + 10
      else score
  | None => score
  end
  = score + Tabela.pts (Tabela.campo_valido v) 10
    + Tabela.pts
        (Tabela.campo_valido v && Tabela.sem_token Tabela.markers_final v) 20.
Proof.
  rewrite <- email_points. destruct v as [e|]; [|reflexivity].
  now rewrite any_in_markers_final.
Qed.

Lemma email_points_everyone (v : option string) (score : Z) :
  match v with
  | Some e =>
      if Py.nonempty e && negb (String.eqb e "null")
      then if negb (Py.contains "@gmail." (Py.lower e)
                    || Py.contains "@hotmail." (Py.lower e)
                    || Py.contains "@yahoo." (Py.lower e)
                    || Py.contains "@outlook." (Py.lower e)
                    || Py.contains "@uol." (Py.lower e)
                    || Py.contains "@bol." (Py.lower e))
           then score + 10 + 20 else score + 10
      else score
  | None => score
  end
  = score + Tabela.pts (Tabela.campo_valido v) 10
    + Tabela.pts
        (Tabela.campo_valido v && Tabela.sem_token Tabela.markers_everyone v)
        20.
Proof.
  rewrite <- email_points. destruct v as [e|]; [|reflexivity].
  now rewrite any_in_markers_everyone.
Qed.

Lemma pontos_range (st em : list string) (l : leiloeiro) :
  0 <= Tabela.pontos st em l <= 100.
Proof.
  unfold Tabela.pontos, Tabela.pts.
  destruct (Tabela.site_valido (site l)), (Tabela.campo_valido (email l)),
    (Tabela.campo_valido (telefone l)), (Tabela.campo_valido (matricula l));
    cbn [andb]; split_tests; lia.
Qed.

Lemma calcular_tech_score_final_eq (l : leiloeiro) :
  ProcessListaFinal.calcular_tech_score l
  = Z.min (Tabela.pontos ProcessListaFinal.email_domains
             Tabela.markers_final l) 100.
Proof.
  unfold ProcessListaFinal.calcular_tech_score. cbv zeta.
  rewrite !field_points, email_points_final, site_points.
  reflexivity.
Qed.

Lemma calcular_tech_score_everyone_eq (l : leiloeiro) :
  RankEveryone.calcular_tech_score l
  = Z.min (Tabela.pontos RankEveryone.email_domains
             Tabela.markers_everyone l) 100.
Proof.
  unfold RankEveryone.calcular_tech_score. cbv zeta.
  rewrite !field_points, email_points_everyone, site_points.
  reflexivity.
Qed.

Lemma calculate_tech_score_eq (email : cell) (site : option string) :
  RankFinal.calculate_tech_score email site
  = Z.min (Tabela.pontos_final email site) 100.
Proof.
  unfold RankFinal.calculate_tech_score, Tabela.pontos_final. cbv zeta.
  destruct (negb (RankFinal.truthy email) || RankFinal.isna email);
    [reflexivity|].
  destruct (negb (RankFinal.is_corporate_email email)); [reflexivity|].
  destruct site as [s|]; [|reflexivity].
  destruct (Py.nonempty s && negb (String.eqb s RankFinal.nao_identificado));
    [|reflexivity].
  destruct (Py.contains ".com.br" s); reflexivity.
Qed.

Lemma pontos_final_range (email : cell) (site : option string) :
  0 <= Tabela.pontos_final email site <= 100.
Proof.
  unfold Tabela.pontos_final.
  destruct (negb (RankFinal.truthy email) || RankFinal.isna email); [lia|].
  destruct (negb (RankFinal.is_corporate_email email)); [lia|].
  destruct site as [s|]; [|lia].
  destruct (Py.nonempty s && negb (String.eqb s RankFinal.nao_identificado));
    [|lia].
  destruct (Py.contains ".com.br" s); lia.
Qed.

(** The test for the two bonuses: no token is a substring of the
    lower-cased text. *)
Lemma sem_token_true (tokens : list string) (s : string) :
  Tabela.sem_token tokens (Some s) = true
  <-> forall t : string,
        In t tokens ->
        ~ exists pre post : string, Py.lower s = pre ++ t ++ post.
Proof.
  unfold Tabela.sem_token, any_in. rewrite negb_true_iff. split.
  - intros Hnone t Ht Hsub.
    assert (Hex : existsb (fun d => Py.contains d (Py.lower s)) tokens = true).
    { apply existsb_exists. exists t. split; [exact Ht|].
      now apply contains_true. }
    congruence.
  - intros Hall.
    destruct (existsb (fun d => Py.contains d (Py.lower s)) tokens) eqn:Hex;
      [|reflexivity].
    apply existsb_exists in Hex as (t & Ht & Hsub).
    apply contains_true in Hsub. now destruct (Hall t Ht).
Qed.

(** C1, as amended: both scorers add, from 0, 30 points for a site that
    is present and is not empty, ['null'] or ['Não Identificado'], 20 more
    when the lower-cased site text contains none of the tokens of
    [email_domains] as a substring; 10 points for an email that is present
    and not empty or ['null'], 20 more when the lower-cased email contains
    none of the markers ['@gmail.'], ['@hotmail.'], ['@yahoo.'],
    ['@outlook.'] (and ['@uol.'], ['@bol.'] in [rank_everyone.py]); 10
    points for a phone and 10 for a registration number that are present
    and not empty or ['null']; and the total is clamped to [0,100]. *)
Theorem calcular_tech_score_table (l : leiloeiro) :
  ProcessListaFinal.calcular_tech_score l
  = Spec.clamp (Tabela.pontos ProcessListaFinal.email_domains
                  Tabela.markers_final l)
  /\ RankEveryone.calcular_tech_score l
     = Spec.clamp (Tabela.pontos RankEveryone.email_domains
                     Tabela.markers_everyone l)
  /\ (forall (tokens : list string) (s : string),
         Tabela.sem_token tokens (Some s) = true
         <-> forall t : string,
               In t tokens ->
               ~ exists pre post : string, Py.lower s = pre ++ t ++ post).
Proof.
  rewrite calcular_tech_score_final_eq, calcular_tech_score_everyone_eq.
  pose proof (pontos_range ProcessListaFinal.email_domains
                Tabela.markers_final l).
  pose proof (pontos_range RankEveryone.email_domains
                Tabela.markers_everyone l).
  unfold Spec.clamp. repeat split; try lia; apply sem_token_true.
Qed.

(** C1, as stated, fails: whatever the list of personal-email domains, the
    scorers do not award the two bonuses by membership of the domain in
    it.  A site [terra.com.br] earns no site bonus, so the domain would
    have to be on the list; an email [a@terra.com.br] earns the email
    bonus, so it would have to be off it. *)
Lemma tech_score_not_domain_membership :
  ~ (exists personal : list string, forall l : leiloeiro,
        ProcessListaFinal.calcular_tech_score l = Spec.tech_score personal l)
  /\ ~ (exists personal : list string, forall l : leiloeiro,
          RankEveryone.calcular_tech_score l = Spec.tech_score personal l).
Proof.
  split; intros [personal H];
    pose proof (H Exemplos.so_site) as Hs; pose proof (H Exemplos.so_email) as He;
    unfold Spec.tech_score in Hs, He;
    cbn [site email telefone matricula Exemplos.so_site Exemplos.so_email] in Hs, He;
    change (Spec.site_domain "terra.com.br") with "terra.com.br" in Hs;
    change (Spec.email_domain "a@terra.com.br") with "terra.com.br" in He;
    destruct (bool_decide ("terra.com.br" ∈ personal));
    vm_compute in Hs, He; congruence.
Qed.

(** ** Classification *)

Lemma category_of_exhaustive (usable : bool) (score : Z) :
  Spec.category_of usable score
  = if negb usable then Spec.Offline
    else if 80 <? score then Spec.Large
    else if 40 <=? score then Spec.Medium
    else Spec.Small.
Proof.
  unfold Spec.category_of. destruct (negb usable); [reflexivity|].
  destruct (80 <? score) eqn:H80; [reflexivity|].
  destruct (40 <=? score); [|reflexivity].
  apply Z.ltb_ge in H80. apply Z.leb_le in H80. now rewrite H80.
Qed.

Lemma classificar_um_category (l : leiloeiro) :
  categoria (ProcessListaFinal.classificar_um l)
  = Some (Tabela.label_final
            (Spec.category_of (Py.truthy (site l))
               (default 0 (tech_score l)))).
Proof.
  rewrite category_of_exhaustive. unfold ProcessListaFinal.classificar_um.
  destruct (negb (Py.truthy (site l))); [reflexivity|].
  destruct (80 <? default 0 (tech_score l)); [reflexivity|].
  destruct (40 <=? default 0 (tech_score l)); reflexivity.
Qed.

Lemma determine_category_spec (site : option string) (score : Z) :
  RankFinal.determine_category site score
  = Tabela.label_inclusivo
      (Spec.category_of (Tabela.site_identificado site) score).
Proof.
  rewrite category_of_exhaustive.
  unfold RankFinal.determine_category, Tabela.site_identificado.
  destruct site as [s|]; [|reflexivity].
  destruct (Py.nonempty s), (String.eqb s RankFinal.nao_identificado);
    cbn [negb andb orb]; try reflexivity;
    destruct (80 <? score); try reflexivity;
    destruct (40 <=? score); reflexivity.
Qed.

Lemma site_identificado_false (site : option string) :
  Tabela.site_identificado site = false
  <-> site = None \/ site = Some ""
      \/ site = Some RankFinal.nao_identificado.
Proof.
  destruct site as [s|]; cbn [Tabela.site_identificado].
  - rewrite andb_false_iff, nonempty_false, negb_false_iff, String.eqb_eq.
    split.
    + intros [->| ->]; auto.
    + intros [H|[H|H]]; [discriminate | left | right]; congruence.
  - split; auto.
Qed.

Lemma site_classificar_um (l : leiloeiro) :
  site (ProcessListaFinal.classificar_um l) = site l.
Proof.
  unfold ProcessListaFinal.classificar_um.
  destruct (negb (Py.truthy (site l))); [reflexivity|].
  destruct (80 <? default 0 (tech_score l)); [reflexivity|].
  destruct (40 <=? default 0 (tech_score l)); reflexivity.
Qed.

Lemma classificar_um_offline (l : leiloeiro) :
  categoria (ProcessListaFinal.classificar_um l) = Some "Offline (Sem Site)" ->
  site l = None \/ site l = Some "".
Proof.
  intros H. rewrite classificar_um_category in H.
  apply truthy_false.
  destruct (Py.truthy (site l)); [|reflexivity].
  rewrite category_of_exhaustive in H. cbn [negb] in H.
  destruct (80 <? default 0 (tech_score l)); [discriminate|].
  destruct (40 <=? default 0 (tech_score l)); discriminate.
Qed.

Lemma extract_site_from_email_nonempty (email existing_site : cell) :
  Py.nonempty (RankFinal.extract_site_from_email email existing_site) = true.
Proof.
  unfold RankFinal.extract_site_from_email.
  destruct existing_site as [| |s];
    cbn [RankFinal.truthy RankFinal.isna negb andb].
  1,2: repeat match goal with
              | |- context [if ?b then _ else _] => destruct b
              | |- context [match ?e with CNone => _ | _ => _ end] =>
                  destruct e
              end; reflexivity.
  rewrite andb_true_r. destruct (Py.nonempty s) eqn:Hs; [exact Hs|].
  repeat match goal with
         | |- context [if ?b then _ else _] => destruct b
         | |- context [match ?e with CNone => _ | _ => _ end] => destruct e
         end; reflexivity.
Qed.

(** Every row the ranker classifies offline carries the sentinel as its
    site, and only those rows do. *)
Lemma process_row_offline (row : RankFinal.linha) :
  RankFinal.p_categoria (RankFinal.process_row row) = "Offline/Sem Site"
  <-> RankFinal.p_site (RankFinal.process_row row)
      = RankFinal.nao_identificado.
Proof.
  unfold RankFinal.process_row.
  cbn [RankFinal.p_categoria RankFinal.p_site].
  set (email := RankFinal.l_email row).
  set (site := RankFinal.extract_site_from_email email (RankFinal.l_site row)).
  pose proof (extract_site_from_email_nonempty email (RankFinal.l_site row))
    as Hne. fold site in Hne.
  rewrite determine_category_spec, category_of_exhaustive.
  unfold Tabela.site_identificado. rewrite Hne. cbn [andb].
  destruct (String.eqb_spec site RankFinal.nao_identificado) as [Heq|Hneq];
    cbn [negb].
  - split; [intros _; exact Heq | reflexivity].
  - split; [|contradiction].
    destruct (80 <? _); [discriminate|].
    destruct (40 <=? _); discriminate.
Qed.

(** C2, as amended: the category is assigned in the order of the
    specification, first match wins: no usable site gives the offline
    category, otherwise a score above 80 the large one, otherwise a score
    in [40,80] the medium one, otherwise the small one; [classificar]
    assigns it so to every record of its list, in order, and leaves the
    sites as they are.  A record with a site and a score of exactly 80 is
    medium.  A record [classificar] puts offline has an absent or empty
    site; a site [determine_category] puts offline is absent, empty or the
    text ['Não Identificado'], and every row the ranker classifies offline
    carries that text as its site, never an empty one. *)
Theorem category_assignment :
  (forall l : leiloeiro,
      categoria (ProcessListaFinal.classificar_um l)
      = Some (Tabela.label_final
                (Spec.category_of (Py.truthy (site l))
                   (default 0 (tech_score l)))))
  /\ (forall (site : option string) (score : Z),
         RankFinal.determine_category site score
         = Tabela.label_inclusivo
             (Spec.category_of (Tabela.site_identificado site) score))
  /\ (forall l : leiloeiro,
         Py.truthy (site l) = true -> tech_score l = Some 80 ->
         categoria (ProcessListaFinal.classificar_um l)
         = Some "Médio (Consolidado)")
  /\ (forall site : option string,
         Tabela.site_identificado site = true ->
         RankFinal.determine_category site 80 = "Médio (Consolidado)")
  /\ (forall l : leiloeiro,
         categoria (ProcessListaFinal.classificar_um l)
         = Some "Offline (Sem Site)" ->
         site l = None \/ site l = Some "")
  /\ (forall (ls : list leiloeiro) (r : leiloeiro),
         In r (ProcessListaFinal.classificar ls) ->
         categoria r = Some "Offline (Sem Site)" ->
         site r = None \/ site r = Some "")
  /\ (forall (site : option string) (score : Z),
         RankFinal.determine_category site score = "Offline/Sem Site" ->
         site = None \/ site = Some ""
         \/ site = Some RankFinal.nao_identificado)
  /\ (forall ls : list leiloeiro,
         List.map categoria (ProcessListaFinal.classificar ls)
         = List.map
             (fun l =>
                Some (Tabela.label_final
                        (Spec.category_of (Py.truthy (site l))
                           (default 0 (tech_score l)))))
             ls
         /\ List.map site (ProcessListaFinal.classificar ls)
            = List.map site ls)
  /\ (forall row : RankFinal.linha,
         (RankFinal.p_categoria (RankFinal.process_row row)
          = "Offline/Sem Site"
          <-> RankFinal.p_site (RankFinal.process_row row)
              = RankFinal.nao_identificado)
         /\ RankFinal.p_site (RankFinal.process_row row) <> "").
Proof.
  split; [exact classificar_um_category|].
  split; [exact determine_category_spec|].
  split; [|split; [|split; [|split; [|split; [|split]]]]].
  7: { intros row. split; [apply process_row_offline|].
       apply nonempty_true. unfold RankFinal.process_row.
       cbn [RankFinal.p_site]. apply extract_site_from_email_nonempty. }
  6: { intros ls. unfold ProcessListaFinal.classificar.
       rewrite !List.map_map. split; apply List.map_ext; intros l.
       - apply classificar_um_category.
       - apply site_classificar_um. }
  - intros l Hs H80. rewrite classificar_um_category, Hs, H80. reflexivity.
  - intros site Hs. rewrite determine_category_spec, Hs. reflexivity.
  - exact classificar_um_offline.
  - intros ls r Hin Hcat.
    apply in_map_iff in Hin as (l & <- & _).
    rewrite site_classificar_um. now apply classificar_um_offline.
  - intros site score H. rewrite determine_category_spec in H.
    apply site_identificado_false.
    destruct (Tabela.site_identificado site); [|reflexivity].
    rewrite category_of_exhaustive in H. cbn [negb] in H.
    destruct (80 <? score); [discriminate|].
    destruct (40 <=? score); discriminate.
Qed.

Lemma category_assignment_witness :
  categoria (ProcessListaFinal.classificar_um Exemplos.zuk)
  = Some "Médio (Consolidado)"
  /\ (site Exemplos.sem_site = None \/ site Exemplos.sem_site = Some "").
Proof.
  split.
  - apply (proj1 (proj2 (proj2 category_assignment)) Exemplos.zuk);
      reflexivity.
  - apply (proj1 (proj2 (proj2 (proj2 (proj2 category_assignment))))
             Exemplos.sem_site).
    vm_compute. reflexivity.
Defined.

(** C2, as stated, fails for the final ranker: a row without an email is
    classified offline, and its site is the text ['Não Identificado'],
    which is neither absent nor empty. *)
Lemma offline_site_is_sentinel :
  RankFinal.p_categoria
    (RankFinal.process_row
       (RankFinal.mk_linha (CStr "JOAO DA SILVA") CNone CNone
          "pdf_enriquecido" 1 false))
  = "Offline/Sem Site"
  /\ RankFinal.p_site
       (RankFinal.process_row
          (RankFinal.mk_linha (CStr "JOAO DA SILVA") CNone CNone
             "pdf_enriquecido" 1 false))
     = "Não Identificado"
  /\ RankFinal.determine_category (Some "Não Identificado") 0
     = "Offline/Sem Site"
  /\ ~ (forall (site : option string) (score : Z),
          RankFinal.determine_category site score = "Offline/Sem Site" ->
          site = None \/ site = Some "").
Proof.
  split; [vm_compute; reflexivity|].
  split; [vm_compute; reflexivity|].
  split; [vm_compute; reflexivity|].
  intros H.
  destruct (H (Some "Não Identificado") 0 ltac:(vm_compute; reflexivity))
    as [Hs|Hs]; discriminate Hs.
Qed.

(** C9: the inclusive classifier gives every record without a site the
    category ['Offline/Sem Site'] and overwrites its score with 0, whatever
    score its email, phone or registration number had earned; after
    classification the offline category implies a score of 0. *)
Theorem classificar_inclusivo_offline_zero (ls : list leiloeiro) :
  (forall l : leiloeiro,
      In l ls -> Py.truthy (site l) = false ->
      In (RankEveryone.classificar_um l) (RankEveryone.classificar_inclusivo ls)
      /\ categoria (RankEveryone.classificar_um l) = Some "Offline/Sem Site"
      /\ tech_score (RankEveryone.classificar_um l) = Some 0)
  /\ (forall r : leiloeiro,
         In r (RankEveryone.classificar_inclusivo ls) ->
         categoria r = Some "Offline/Sem Site" -> tech_score r = Some 0).
Proof.
  unfold RankEveryone.classificar_inclusivo. split.
  - intros l Hin Hs. split; [now apply in_map|].
    unfold RankEveryone.classificar_um. rewrite Hs. split; reflexivity.
  - intros r Hin Hcat. apply in_map_iff in Hin as (l & <- & _).
    revert Hcat. unfold RankEveryone.classificar_um.
    destruct (negb (Py.truthy (site l))); [reflexivity|].
    destruct (80 <? default 0 (tech_score l)); [discriminate|].
    destruct (40 <=? default 0 (tech_score l)); discriminate.
Qed.

Lemma classificar_inclusivo_offline_zero_witness :
  tech_score (RankEveryone.classificar_um Exemplos.sem_site) = Some 0.
Proof.
  apply (proj1 (classificar_inclusivo_offline_zero [Exemplos.sem_site])
           Exemplos.sem_site).
  - left. reflexivity.
  - reflexivity.
Defined.

(** C10: the scorer of the final ranker returns 0 when the email is
    missing or empty, also when a site is present, and exactly 5 when the
    email is present but not corporate, whatever the site. *)
Theorem calculate_tech_score_without_corporate_email
  (email : cell) (site : option string) :
  (email = CNone \/ email = CNaN \/ email = CStr "" ->
   RankFinal.calculate_tech_score email site = 0)
  /\ (forall e : string,
         email = CStr e -> e <> "" ->
         RankFinal.is_corporate_email email = false ->
         RankFinal.calculate_tech_score email site = 5).
Proof.
  split.
  - intros [->|[->| ->]]; reflexivity.
  - intros e -> He Hc. apply nonempty_true in He.
    unfold RankFinal.calculate_tech_score. cbn [RankFinal.truthy RankFinal.isna].
    rewrite He, Hc. reflexivity.
Qed.

Lemma calculate_tech_score_without_corporate_email_witness :
  RankFinal.calculate_tech_score CNone (Some "https://www.zukleiloes.com.br")
  = 0
  /\ RankFinal.calculate_tech_score (CStr "ademilsonct@gmail.com")
       (Some "https://www.zukleiloes.com.br") = 5.
Proof.
  split.
  - apply (proj1 (calculate_tech_score_without_corporate_email CNone _)).
    left. reflexivity.
  - apply (proj2 (calculate_tech_score_without_corporate_email
                    (CStr "ademilsonct@gmail.com") _)
             "ademilsonct@gmail.com").
    + reflexivity.
    + discriminate.
    + reflexivity.
Defined.

(** ** The score stays in range along the pipelines *)

Lemma keep_first_In {A K : Type} `{EqDecision K} (key : A -> K)
  (l : list A) (seen : list K) (x : A) :
  In x (keep_first key seen l) -> In x l.
Proof.
  revert seen. induction l as [|a l IH]; intros seen; cbn [keep_first].
  - auto.
  - destruct (decide (key a ∈ seen)).
    + intros Hx. right. eauto.
    + intros [->|Hx]; [now left | right; eauto].
Qed.

Lemma tech_score_limpar_site (l : leiloeiro) :
  tech_score (ProcessListaFinal.limpar_site l) = tech_score l.
Proof.
  unfold ProcessListaFinal.limpar_site.
  destruct (site l) as [s|]; [|reflexivity].
  repeat match goal with
         | |- context [if ?b then _ else _] => destruct b
         end; reflexivity.
Qed.

Lemma tech_score_classificar_um (l : leiloeiro) :
  tech_score (ProcessListaFinal.classificar_um l) = tech_score l.
Proof.
  unfold ProcessListaFinal.classificar_um.
  repeat match goal with
         | |- context [if ?b then _ else _] => destruct b
         end; reflexivity.
Qed.

Lemma tech_score_classificar_inclusivo (l : leiloeiro) :
  tech_score (RankEveryone.classificar_um l) = Some 0
  \/ tech_score (RankEveryone.classificar_um l) = tech_score l.
Proof.
  unfold RankEveryone.classificar_um.
  repeat match goal with
         | |- context [if ?b then _ else _] => destruct b
         end; auto.
Qed.

(** C3: every score the engine produces is an integer between 0 and 100:
    each scorer returns the smaller of its point sum and 100, the point sum
    is never negative, and the records that leave the three pipelines carry
    a score in this range. *)
Theorem tech_score_in_range :
  (forall l : leiloeiro,
      ProcessListaFinal.calcular_tech_score l
      = Z.min (Tabela.pontos ProcessListaFinal.email_domains
                 Tabela.markers_final l) 100
      /\ 0 <= Tabela.pontos ProcessListaFinal.email_domains
                Tabela.markers_final l
      /\ 0 <= ProcessListaFinal.calcular_tech_score l <= 100)
  /\ (forall l : leiloeiro,
         RankEveryone.calcular_tech_score l
         = Z.min (Tabela.pontos RankEveryone.email_domains
                    Tabela.markers_everyone l) 100
         /\ 0 <= Tabela.pontos RankEveryone.email_domains
                   Tabela.markers_everyone l
         /\ 0 <= RankEveryone.calcular_tech_score l <= 100)
  /\ (forall (email : cell) (site : option string),
         RankFinal.calculate_tech_score email site
         = Z.min (Tabela.pontos_final email site) 100
         /\ 0 <= Tabela.pontos_final email site
         /\ 0 <= RankFinal.calculate_tech_score email site <= 100)
  /\ (forall (ls : list leiloeiro) (r : leiloeiro),
         In r (ProcessListaFinal.processar ls) ->
         exists z : Z, tech_score r = Some z /\ 0 <= z <= 100)
  /\ (forall (ls : list leiloeiro) (r : leiloeiro),
         In r (RankEveryone.processar ls) ->
         exists z : Z, tech_score r = Some z /\ 0 <= z <= 100)
  /\ (forall (rows : list RankFinal.linha) (r : RankFinal.processado),
         In r (RankFinal.process_all rows) ->
         0 <= RankFinal.p_tech_score r <= 100).
Proof.
  split; [intros l | split; [intros l | split; [intros email site |
    split; [intros ls r H | split; [intros ls r H | intros rows r H]]]]].
  - pose proof (pontos_range ProcessListaFinal.email_domains
                  Tabela.markers_final l).
    rewrite calcular_tech_score_final_eq. split; [reflexivity | lia].
  - pose proof (pontos_range RankEveryone.email_domains
                  Tabela.markers_everyone l).
    rewrite calcular_tech_score_everyone_eq. split; [reflexivity | lia].
  - pose proof (pontos_final_range email site).
    rewrite calculate_tech_score_eq. split; [reflexivity | lia].
  - unfold ProcessListaFinal.processar, ProcessListaFinal.classificar,
      ProcessListaFinal.limpar_sites in H.
    apply in_map_iff in H as (l1 & <- & H).
    apply in_map_iff in H as (l2 & <- & H).
    apply in_map_iff in H as (l3 & <- & _).
    rewrite tech_score_classificar_um, tech_score_limpar_site.
    eexists. split; [reflexivity|].
    rewrite calcular_tech_score_final_eq.
    pose proof (pontos_range ProcessListaFinal.email_domains
                  Tabela.markers_final l3). lia.
  - unfold RankEveryone.processar, RankEveryone.classificar_inclusivo in H.
    apply in_map_iff in H as (l1 & <- & H).
    apply in_map_iff in H as (l2 & <- & _).
    destruct (tech_score_classificar_inclusivo (RankEveryone.pontuar l2))
      as [-> | ->].
    + exists 0. split; [reflexivity | lia].
    + eexists. split; [reflexivity|].
      rewrite calcular_tech_score_everyone_eq.
      pose proof (pontos_range RankEveryone.email_domains
                    Tabela.markers_everyone l2). lia.
  - unfold RankFinal.process_all in H. apply keep_first_In in H.
    apply in_map_iff in H as (row & <- & _).
    cbn [RankFinal.process_row RankFinal.p_tech_score].
    rewrite calculate_tech_score_eq.
    pose proof (pontos_final_range (RankFinal.l_email row)
      (Some (RankFinal.extract_site_from_email (RankFinal.l_email row)
               (RankFinal.l_site row)))). lia.
Qed.

Lemma tech_score_in_range_witness :
  exists z : Z,
    tech_score (ProcessListaFinal.classificar_um
                  (ProcessListaFinal.limpar_site
                     (ProcessListaFinal.pontuar Exemplos.zuk))) = Some z
    /\ 0 <= z <= 100.
Proof.
  apply (proj1 (proj2 (proj2 (proj2 tech_score_in_range))) [Exemplos.zuk]).
  left. reflexivity.
Defined.

(** ** Corporate emails and synthesized sites *)

Lemma is_corporate_email_str (e : string) :
  e <> "" ->
  RankFinal.is_corporate_email (CStr e)
  = negb (existsb (fun g => Py.endswith (Py.lower (RankFinal.domain_of e)) g)
            RankFinal.generic_domains).
Proof.
  intros He. apply nonempty_true in He.
  unfold RankFinal.is_corporate_email.
  cbn [RankFinal.truthy RankFinal.isna]. now rewrite He.
Qed.

Lemma is_corporate_email_nonempty (e : string) :
  RankFinal.is_corporate_email (CStr e) = true -> Py.nonempty e = true.
Proof.
  unfold RankFinal.is_corporate_email. cbn [RankFinal.truthy RankFinal.isna].
  destruct (Py.nonempty e); [reflexivity | discriminate].
Qed.

(** C4, as amended: a non-empty email is corporate exactly when its
    lower-cased domain, the text after the last [@], ends with none of the
    entries of the deny-list; and for a corporate email without an
    existing site whose domain has at least two labels, the synthesized
    site is ['https://www.'] followed by the last two labels, or the last
    three when the last label is ['br'] and there are at least three.  A
    corporate email whose domain has a single label gets no site. *)
Theorem corporate_email_and_site (e : string) :
  (e <> "" ->
   (RankFinal.is_corporate_email (CStr e) = true
    <-> forall g : string,
          In g RankFinal.generic_domains ->
          ~ exists pre : string, Py.lower (RankFinal.domain_of e) = pre ++ g))
  /\ (forall existing : cell,
         RankFinal.is_corporate_email (CStr e) = true ->
         existing = CNone \/ existing = CNaN \/ existing = CStr "" ->
         let parts := Py.split_on "." (RankFinal.domain_of e) in
         ((2 <= List.length parts)%nat ->
          RankFinal.extract_site_from_email (CStr e) existing
          = "https://www."
            ++ Py.join "."
                 (Py.last_items
                    (if String.eqb (Py.last_item parts) "br"
                        && (3 <=? List.length parts)%nat
                     then 3 else 2)
                    parts))
         /\ ((List.length parts < 2)%nat ->
             RankFinal.extract_site_from_email (CStr e) existing
             = RankFinal.nao_identificado))
  /\ RankFinal.extract_site_from_email (CStr "contato@zukleiloes.com.br")
       CNone
     = "https://www.zukleiloes.com.br".
Proof.
  split; [|split; [|reflexivity]].
  - intros He. rewrite (is_corporate_email_str e He), negb_true_iff.
    split.
    + intros Hnone g Hg [pre Hpre].
      assert (Hex : existsb
                (fun g => Py.endswith (Py.lower (RankFinal.domain_of e)) g)
                RankFinal.generic_domains = true).
      { apply existsb_exists. exists g. split; [exact Hg|].
        apply endswith_true. now exists pre. }
      congruence.
    + intros Hall.
      destruct (existsb
                  (fun g => Py.endswith (Py.lower (RankFinal.domain_of e)) g)
                  RankFinal.generic_domains) eqn:Hex; [|reflexivity].
      apply existsb_exists in Hex as (g & Hg & Hend).
      apply endswith_true in Hend. now destruct (Hall g Hg).
  - intros existing Hcorp Hex parts.
    pose proof (is_corporate_email_nonempty e Hcorp) as Hne.
    assert (Hsel : RankFinal.truthy existing && negb (RankFinal.isna existing)
                   = false)
      by (destruct Hex as [->|[->| ->]]; reflexivity).
    unfold RankFinal.extract_site_from_email. rewrite Hsel, Hcorp.
    cbn [RankFinal.truthy RankFinal.isna negb orb]. rewrite Hne.
    cbn [negb]. fold parts. split; intros Hlen.
    + apply Nat.leb_le in Hlen. rewrite Hlen.
      destruct (String.eqb (Py.last_item parts) "br"
                && (3 <=? List.length parts)%nat); reflexivity.
    + apply Nat.leb_gt in Hlen. now rewrite Hlen.
Qed.

Lemma corporate_email_and_site_witness :
  RankFinal.extract_site_from_email (CStr "contato@zukleiloes.com.br") CNaN
  = "https://www.zukleiloes.com.br".
Proof.
  apply (proj1 (proj1 (proj2 (corporate_email_and_site
                                "contato@zukleiloes.com.br"))
                  CNaN eq_refl (or_intror (or_introl eq_refl)))).
  vm_compute. lia.
Defined.

(** C4, as stated, fails twice.  The domain of
    [contato@leiloesterra.com.br] is not on the deny-list, yet the email is
    not corporate, because the domain ends with [terra.com.br]; and the
    corporate email [admin@localhost], whose domain has one label, gets no
    site at all. *)
Lemma corporate_email_not_membership :
  ~ (RankFinal.is_corporate_email (CStr "contato@leiloesterra.com.br") = true
     <-> ~ In (Py.lower (RankFinal.domain_of "contato@leiloesterra.com.br"))
              RankFinal.generic_domains)
  /\ RankFinal.is_corporate_email (CStr "admin@localhost") = true
  /\ RankFinal.extract_site_from_email (CStr "admin@localhost") CNone
     <> "https://www."
        ++ Py.join "."
             (Py.last_items 2
                (Py.split_on "." (RankFinal.domain_of "admin@localhost"))).
Proof.
  split; [|split; [reflexivity | vm_compute; discriminate]].
  intros [_ H].
  assert (Hc : RankFinal.is_corporate_email
                 (CStr "contato@leiloesterra.com.br") = true).
  { apply H. vm_compute. intros Hin.
    repeat (destruct Hin as [Hin|Hin]; [discriminate|]). exact Hin. }
  vm_compute in Hc. discriminate.
Qed.

(** ** Deduplication *)

Section KeepFirstFacts.
Context {A K : Type} `{EqDecision K} (key : A -> K).

Lemma keep_first_key_fresh (l : list A) (seen : list K) (x : A) :
  x ∈ keep_first key seen l -> key x ∉ seen.
Proof.
  revert seen. induction l as [|a l IH]; intros seen; cbn [keep_first].
  - intros Hx. inversion Hx.
  - destruct (decide (key a ∈ seen)) as [Hin|Hout].
    + apply IH.
    + intros [->|Hx]%elem_of_cons; [exact Hout|].
      apply IH in Hx. set_solver.
Qed.

Lemma keep_first_NoDup (l : list A) (seen : list K) :
  NoDup (List.map key (keep_first key seen l)).
Proof.
  revert seen. induction l as [|a l IH]; intros seen; cbn [keep_first].
  - constructor.
  - destruct (decide (key a ∈ seen)) as [Hin|Hout]; [apply IH|].
    cbn [List.map]. apply NoDup_cons. split; [|apply IH].
    intros Hk. apply list_elem_of_In, in_map_iff in Hk as (y & Hy & Hin).
    apply list_elem_of_In, keep_first_key_fresh in Hin.
    rewrite Hy in Hin. set_solver.
Qed.

Lemma keep_first_covers (l : list A) (seen : list K) (x : A) :
  x ∈ l -> key x ∉ seen ->
  exists y : A, y ∈ keep_first key seen l /\ key y = key x.
Proof.
  revert seen. induction l as [|a l IH]; intros seen Hx Hseen.
  - inversion Hx.
  - cbn [keep_first]. apply elem_of_cons in Hx as [->|Hx].
    + destruct (decide (key a ∈ seen)); [contradiction|].
      exists a. split; [left | reflexivity].
    + destruct (decide (key a ∈ seen)) as [Hin|Hout]; [now apply IH|].
      destruct (decide (key x = key a)) as [Heq|Hne].
      * exists a. split; [left | now symmetry].
      * destruct (IH (key a :: seen) Hx) as (y & Hy & Hkey).
        { intros [?|?]%elem_of_cons; contradiction. }
        exists y. split; [now right | exact Hkey].
Qed.

Lemma keep_first_sublist (l : list A) (seen : list K) :
  sublist (keep_first key seen l) l.
Proof.
  revert seen. induction l as [|a l IH]; intros seen; cbn [keep_first].
  - constructor.
  - destruct (decide (key a ∈ seen)).
    + apply sublist_cons, IH.
    + apply sublist_skip, IH.
Qed.

(** A kept element is the first element of the input with its key. *)
Lemma keep_first_is_first (l : list A) (seen : list K) (y : A) :
  y ∈ keep_first key seen l ->
  exists l1 l2 : list A,
    l = (l1 ++ y :: l2)%list /\ forall x : A, x ∈ l1 -> key x <> key y.
Proof.
  revert seen. induction l as [|a l IH]; intros seen; cbn [keep_first].
  - intros Hy. inversion Hy.
  - destruct (decide (key a ∈ seen)) as [Hin|Hout].
    + intros Hy. pose proof (keep_first_key_fresh _ _ _ Hy) as Hfresh.
      destruct (IH _ Hy) as (l1 & l2 & -> & Hl1).
      exists (a :: l1), l2. split; [reflexivity|].
      intros x [->|Hx]%elem_of_cons; [congruence | now apply Hl1].
    + intros [->|Hy]%elem_of_cons.
      * exists [], l. split; [reflexivity|]. intros x Hx. inversion Hx.
      * pose proof (keep_first_key_fresh _ _ _ Hy) as Hfresh.
        destruct (IH _ Hy) as (l1 & l2 & -> & Hl1).
        exists (a :: l1), l2. split; [reflexivity|].
        intros x [->|Hx]%elem_of_cons; [set_solver | now apply Hl1].
Qed.

Lemma keep_first_fixed (l : list A) (seen : list K) :
  NoDup (List.map key l) -> (forall x : A, x ∈ l -> key x ∉ seen) ->
  keep_first key seen l = l.
Proof.
  revert seen. induction l as [|a l IH]; intros seen Hnd Hseen.
  - reflexivity.
  - cbn [keep_first]. cbn [List.map] in Hnd.
    apply NoDup_cons in Hnd as [Ha Hnd].
    destruct (decide (key a ∈ seen)) as [Hin|Hout].
    + exfalso. apply (Hseen a); [left | exact Hin].
    + f_equal. apply IH; [exact Hnd|].
      intros x Hx [Heq|Hin]%elem_of_cons.
      * apply Ha. rewrite <- Heq.
        now apply list_elem_of_In, in_map, list_elem_of_In.
      * apply (Hseen x); [now right | exact Hin].
Qed.

Lemma keep_first_idempotent (l : list A) :
  keep_first key [] (keep_first key [] l) = keep_first key [] l.
Proof.
  apply keep_first_fixed; [apply keep_first_NoDup|].
  intros x _ Hx. inversion Hx.
Qed.

End KeepFirstFacts.

(** The loop with a set of seen keys and a list of kept records computes
    [keep_first]. *)
Lemma seen_loop_keep_first {A : Type} (key : A -> string) (data : list A)
  (seen : gset string) (seen_list : list string) (unique : list A) :
  (forall k : string, k ∈ seen <-> k ∈ seen_list) ->
  snd (fold_left
         (fun (st : gset string * list A) (record : A) =>
            let '(seen, unique) := st in
            if decide (key record ∈ seen) then st
            else ({[ key record ]} ∪ seen, (unique ++ [record])%list))
         data (seen, unique))
  = (unique ++ keep_first key seen_list data)%list.
Proof.
  revert seen seen_list unique.
  induction data as [|r data IH]; intros seen seen_list unique Hseen.
  - cbn. now rewrite app_nil_r.
  - cbn [fold_left keep_first].
    destruct (decide (key r ∈ seen)) as [Hin|Hout];
      destruct (decide (key r ∈ seen_list)) as [Hin'|Hout'];
      try (exfalso; apply Hseen in Hin; contradiction);
      try (exfalso; apply Hseen in Hin'; contradiction).
    + now apply IH.
    + rewrite (IH _ (key r :: seen_list)).
      * now rewrite <- app_assoc.
      * intros k. rewrite elem_of_union, elem_of_singleton, elem_of_cons.
        now rewrite Hseen.
Qed.

Lemma deduplicate_data_keep_first (data : list registro) :
  LimpezaFinalOcr.deduplicate_data data
  = keep_first LimpezaFinalOcr.record_key [] data.
Proof.
  unfold LimpezaFinalOcr.deduplicate_data.
  apply (seen_loop_keep_first LimpezaFinalOcr.record_key data ∅ [] []).
  intros k. set_solver.
Qed.

Lemma deduplicate_names_keep_first (data : list registro) :
  PdfCleanOcr.deduplicate_data data = keep_first r_nome [] data.
Proof.
  unfold PdfCleanOcr.deduplicate_data.
  apply (seen_loop_keep_first r_nome data ∅ [] []).
  intros k. set_solver.
Qed.

(** C5, as amended: the deduplicator keeps exactly one record per key,
    the first seen, where the key is the raw text [nome_email] of the
    record, compared as it is (no case folding, accent folding or
    whitespace collapsing); the final ranker keeps one processed record
    per email, the first seen.  No two records of a deduplicated batch
    share such a key, every key of the input is still represented, and the
    order of the input is kept. *)
Theorem deduplicate_data_one_per_key (data : list registro) :
  let unique_data := LimpezaFinalOcr.deduplicate_data data in
  NoDup (List.map LimpezaFinalOcr.record_key unique_data)
  /\ (forall r : registro,
         In r data ->
         exists r' : registro,
           In r' unique_data
           /\ LimpezaFinalOcr.record_key r' = LimpezaFinalOcr.record_key r)
  /\ (forall r' : registro,
         In r' unique_data ->
         exists l1 l2 : list registro,
           data = (l1 ++ r' :: l2)%list
           /\ forall x : registro,
               In x l1 ->
               LimpezaFinalOcr.record_key x <> LimpezaFinalOcr.record_key r')
  /\ sublist unique_data data
  /\ (forall rows : list RankFinal.linha,
         let processed := List.map RankFinal.process_row rows in
         NoDup (List.map RankFinal.p_email (RankFinal.process_all rows))
         /\ sublist (RankFinal.process_all rows) processed
         /\ (forall r : RankFinal.processado,
                In r processed ->
                exists r' : RankFinal.processado,
                  In r' (RankFinal.process_all rows)
                  /\ RankFinal.p_email r' = RankFinal.p_email r)
         /\ (forall r' : RankFinal.processado,
                In r' (RankFinal.process_all rows) ->
                exists l1 l2 : list RankFinal.processado,
                  processed = (l1 ++ r' :: l2)%list
                  /\ forall x : RankFinal.processado,
                      In x l1 -> RankFinal.p_email x <> RankFinal.p_email r')).
Proof.
  cbv zeta. rewrite deduplicate_data_keep_first.
  split; [apply keep_first_NoDup|].
  split; [|split; [|split; [apply keep_first_sublist|]]].
  - intros r Hr. apply list_elem_of_In in Hr.
    destruct (keep_first_covers LimpezaFinalOcr.record_key data [] r Hr)
      as (y & Hy & Hkey).
    + intros Hin. inversion Hin.
    + exists y. split; [now apply list_elem_of_In | exact Hkey].
  - intros r' Hr'. apply list_elem_of_In in Hr'.
    destruct (keep_first_is_first _ _ _ _ Hr') as (l1 & l2 & Heq & Hl1).
    exists l1, l2. split; [exact Heq|].
    intros x Hx. now apply Hl1, list_elem_of_In.
  - intros rows. unfold RankFinal.process_all.
    split; [apply keep_first_NoDup|].
    split; [apply keep_first_sublist|]. split.
    + intros r Hr. apply list_elem_of_In in Hr.
      destruct (keep_first_covers RankFinal.p_email _ [] r Hr)
        as (y & Hy & Hkey).
      * intros Hin. inversion Hin.
      * exists y. split; [now apply list_elem_of_In | exact Hkey].
    + intros r' Hr'. apply list_elem_of_In in Hr'.
      destruct (keep_first_is_first _ _ _ _ Hr') as (l1 & l2 & Heq & Hl1).
      exists l1, l2. split; [exact Heq|].
      intros x Hx. now apply Hl1, list_elem_of_In.
Qed.

Lemma deduplicate_data_one_per_key_witness :
  exists r' : registro,
    In r' (LimpezaFinalOcr.deduplicate_data
             [Exemplos.maria_direto; Exemplos.maria_ocr;
              Exemplos.maria_direto])
    /\ LimpezaFinalOcr.record_key r'
       = LimpezaFinalOcr.record_key Exemplos.maria_ocr.
Proof.
  apply (proj1 (proj2 (deduplicate_data_one_per_key
                         [Exemplos.maria_direto; Exemplos.maria_ocr;
                          Exemplos.maria_direto]))).
  right. left. reflexivity.
Defined.

(** C5, as stated, fails: two records of the same person, one written
    [MARIA SOUZA] and one [Maria Souza], with the same email, have the same
    normalized key, and the deduplicator keeps both. *)
Lemma deduplicate_data_not_normalized :
  Spec.normalized_key Exemplos.maria_direto
  = Spec.normalized_key Exemplos.maria_ocr
  /\ LimpezaFinalOcr.deduplicate_data
       [Exemplos.maria_direto; Exemplos.maria_ocr]
     = [Exemplos.maria_direto; Exemplos.maria_ocr]
  /\ ~ NoDup (List.map Spec.normalized_key
                (LimpezaFinalOcr.deduplicate_data
                   [Exemplos.maria_direto; Exemplos.maria_ocr])).
Proof.
  rewrite deduplicate_data_keep_first.
  split; [vm_compute; reflexivity|]. split; [vm_compute; reflexivity|].
  intros Hnd. vm_compute in Hnd. apply NoDup_cons in Hnd as [Hnotin _].
  apply Hnotin. left.
Qed.

(** C6: the deduplicator is idempotent: run on its own output, it returns
    that output. *)
Theorem deduplicate_data_idempotent (data : list registro) :
  PdfCleanOcr.deduplicate_data (PdfCleanOcr.deduplicate_data data)
  = PdfCleanOcr.deduplicate_data data
  /\ LimpezaFinalOcr.deduplicate_data (LimpezaFinalOcr.deduplicate_data data)
     = LimpezaFinalOcr.deduplicate_data data.
Proof.
  rewrite !deduplicate_names_keep_first, !deduplicate_data_keep_first.
  split; apply keep_first_idempotent.
Qed.

(** ** Name extraction *)

Lemma islower_nonempty (s : string) :
  Py.islower s = true -> Py.nonempty s = true.
Proof. destruct s; [discriminate | reflexivity]. Qed.

Lemma clean_name_policy (name : string) :
  LimpezaFinalOcr.clean_name name
  = if Py.islower (LimpezaFinalOcr.cleaned name)
    then Py.join " "
           (List.map Py.capitalize
              (Py.split_ws (LimpezaFinalOcr.cleaned name)))
    else LimpezaFinalOcr.cleaned name.
Proof.
  unfold LimpezaFinalOcr.clean_name.
  destruct (Py.nonempty name) eqn:Hn; cbn [negb].
  - destruct (Py.islower (LimpezaFinalOcr.cleaned name)) eqn:Hl.
    + now rewrite (islower_nonempty _ Hl).
    + now rewrite andb_false_r.
  - apply nonempty_false in Hn. subst name. reflexivity.
Qed.

(** C7, as amended: the line
    ["JOAO DA SILVA 1234 joao@meudominio.com.br"] of a text layer gives
    exactly one candidate, with the email [joao@meudominio.com.br] and the
    name ["JOAO DA SILVA"], in the casing of the source; per the
    capitalisation policy of [clean_name], a cleaned name that is fully
    lower-case is title-cased word by word and any other cleaned name
    keeps its casing.  The policy is stated for names written with ASCII
    characters and the accented letters of Portuguese, [Py.latin_text]:
    ["ângela maria"] becomes ["Ângela Maria"], and ["Érica silva"], which
    is not fully lower-case, stays as it is. *)
Theorem joao_da_silva_candidate :
  PdfDirectExtractor.extract_leiloeiros_from_text Exemplos.linha_joao
  = [ mk_candidato "JOAO DA SILVA" "joao@meudominio.com.br" true
        "https://www.meudominio.com.br" "pdf_direto" Exemplos.linha_joao ]
  /\ LimpezaFinalOcr.process_ocr_text Exemplos.linha_joao 1
     = [ mk_registro "JOAO DA SILVA" "joao@meudominio.com.br" None 1
           "pdf_ocr_extractor" ]
  /\ (forall name : string,
         Py.latin_text name = true ->
         Py.islower (LimpezaFinalOcr.cleaned name) = true ->
         LimpezaFinalOcr.clean_name name
         = Py.join " "
             (List.map Py.capitalize
                (Py.split_ws (LimpezaFinalOcr.cleaned name))))
  /\ (forall name : string,
         Py.latin_text name = true ->
         Py.islower (LimpezaFinalOcr.cleaned name) = false ->
         LimpezaFinalOcr.clean_name name = LimpezaFinalOcr.cleaned name)
  /\ LimpezaFinalOcr.clean_name "JOAO DA SILVA 1234" = "JOAO DA SILVA"
  /\ LimpezaFinalOcr.clean_name "joao da silva 1234" = "Joao Da Silva"
  /\ LimpezaFinalOcr.clean_name "ângela maria" = "Ângela Maria"
  /\ LimpezaFinalOcr.clean_name "Érica silva" = "Érica silva"
  /\ LimpezaFinalOcr.clean_name "JOÃO DA SILVA 1234" = "JOÃO DA SILVA".
Proof.
  split; [vm_compute; reflexivity|].
  split; [vm_compute; reflexivity|].
  split; [intros name _ H; now rewrite clean_name_policy, H|].
  split; [intros name _ H; now rewrite clean_name_policy, H|].
  repeat split; vm_compute; reflexivity.
Qed.

Lemma joao_da_silva_candidate_witness :
  LimpezaFinalOcr.clean_name "ângela maria"
  = Py.join " "
      (List.map Py.capitalize
         (Py.split_ws (LimpezaFinalOcr.cleaned "ângela maria")))
  /\ LimpezaFinalOcr.clean_name "Érica silva"
     = LimpezaFinalOcr.cleaned "Érica silva".
Proof.
  split.
  - apply (proj1 (proj2 (proj2 joao_da_silva_candidate)));
      vm_compute; reflexivity.
  - apply (proj1 (proj2 (proj2 (proj2 joao_da_silva_candidate))));
      vm_compute; reflexivity.
Defined.

(** C7, as stated, fails: the candidate the line gives is not named
    ["Joao Da Silva"]. *)
Lemma joao_da_silva_not_title_cased :
  ~ exists c : candidato,
      PdfDirectExtractor.extract_leiloeiros_from_text Exemplos.linha_joao
      = [c]
      /\ c_nome c = "Joao Da Silva"
      /\ c_email c = "joao@meudominio.com.br".
Proof.
  intros (c & Hc & Hnome & _). vm_compute in Hc.
  injection Hc as <-. discriminate Hnome.
Qed.

(** ** Page loops and exceptions *)

Lemma name_step_acc (page_num : Z) (emails names : list string)
  (acc : list registro) (count : nat) :
  fst (fold_left (PdfGeometricOcr.name_step page_num emails) names
         (acc, count))
  = (acc ++ fst (fold_left (PdfGeometricOcr.name_step page_num emails) names
                   ([], count)))%list.
Proof.
  revert acc count.
  induction names as [|name names IH]; intros acc count; cbn [fold_left].
  - cbn. now rewrite app_nil_r.
  - unfold PdfGeometricOcr.name_step at 2 4.
    match goal with
    | |- context [if ?b then _ else _] => destruct b
    end.
    + rewrite IH. symmetry. rewrite IH. now rewrite app_assoc.
    + apply IH.
Qed.

Lemma geometric_loop_ok (pages : list PdfGeometricOcr.page) (page_num : Z)
  (all_data : list registro) :
  Forall Pagina.geometric_ok pages ->
  PdfGeometricOcr.page_loop pages page_num all_data
  = ((all_data
        ++ Spec.isolated_pages Pagina.geometric_records pages page_num)%list,
     false).
Proof.
  revert page_num all_data.
  induction pages as [|p pages IH]; intros page_num all_data Hok.
  - cbn. now rewrite app_nil_r.
  - apply Forall_cons in Hok as [Hp Hok].
    cbn [PdfGeometricOcr.page_loop Spec.isolated_pages].
    unfold Pagina.geometric_records.
    replace (page_num + 1 - 1) with page_num by lia.
    destruct p as [[left_text right_text]|]; [|now destruct Hp].
    cbn [PdfGeometricOcr.extract_with_ocr_crop].
    rewrite IH by exact Hok. now rewrite name_step_acc, app_assoc.
Qed.

Lemma geometric_loop_raises (before after : list PdfGeometricOcr.page)
  (page_num : Z) (all_data : list registro) :
  Forall Pagina.geometric_ok before ->
  PdfGeometricOcr.page_loop (before ++ Raises :: after) page_num all_data
  = ((all_data
        ++ Spec.isolated_pages Pagina.geometric_records before page_num)%list,
     true).
Proof.
  revert page_num all_data.
  induction before as [|p before IH]; intros page_num all_data Hok.
  - cbn. now rewrite app_nil_r.
  - apply Forall_cons in Hok as [Hp Hok].
    cbn [app PdfGeometricOcr.page_loop Spec.isolated_pages].
    unfold Pagina.geometric_records.
    replace (page_num + 1 - 1) with page_num by lia.
    destruct p as [[left_text right_text]|]; [|now destruct Hp].
    cbn [PdfGeometricOcr.extract_with_ocr_crop].
    rewrite IH by exact Hok. now rewrite name_step_acc, app_assoc.
Qed.

Lemma clean_loop_ok (pages : list PdfCleanOcr.page) (page_num : Z)
  (all_data : list registro) :
  Forall Pagina.clean_ok pages ->
  PdfCleanOcr.ocr_loop pages page_num all_data
  = ((all_data ++ Spec.isolated_pages Pagina.clean_records pages page_num)
       %list,
     false).
Proof.
  revert page_num all_data.
  induction pages as [|p pages IH]; intros page_num all_data Hok.
  - cbn. now rewrite app_nil_r.
  - apply Forall_cons in Hok as [Hp Hok].
    cbn [PdfCleanOcr.ocr_loop Spec.isolated_pages].
    unfold Pagina.clean_records, PdfCleanOcr.extract_names_with_ocr.
    unfold Pagina.clean_ok in Hp.
    destruct (PdfCleanOcr.ocr_text p) as [text|]; [|now destruct Hp].
    rewrite IH by exact Hok. now rewrite app_assoc.
Qed.

Lemma clean_loop_raises (before after : list PdfCleanOcr.page)
  (p : PdfCleanOcr.page) (page_num : Z) (all_data : list registro) :
  Forall Pagina.clean_ok before -> PdfCleanOcr.ocr_text p = Raises ->
  PdfCleanOcr.ocr_loop (before ++ p :: after) page_num all_data
  = ((all_data ++ Spec.isolated_pages Pagina.clean_records before page_num)
       %list,
     true).
Proof.
  revert page_num all_data.
  induction before as [|q before IH]; intros page_num all_data Hok Hp.
  - cbn [app PdfCleanOcr.ocr_loop Spec.isolated_pages].
    unfold PdfCleanOcr.extract_names_with_ocr. rewrite Hp.
    now rewrite app_nil_r.
  - apply Forall_cons in Hok as [Hq Hok].
    cbn [app PdfCleanOcr.ocr_loop Spec.isolated_pages].
    unfold Pagina.clean_records, PdfCleanOcr.extract_names_with_ocr.
    unfold Pagina.clean_ok in Hq.
    destruct (PdfCleanOcr.ocr_text q) as [text|]; [|now destruct Hq].
    rewrite IH by assumption. now rewrite app_assoc.
Qed.

(** C8, as amended: in multi-page extraction a page that yields no text
    contributes zero candidate records, and an exception raised while a
    page is processed is caught, so that the run always returns a list;
    but the exception ends the page loop: the records of the pages before
    the failing one are kept and no later page is processed.  In
    [pdf_clean_ocr.py] the [except] branch then reads up to the first five
    pages again through their text layer and appends what it finds.  When
    no page raises, the result is the concatenation of what each page
    contributes. *)
Theorem extract_all_pages_failure_semantics :
  (forall (page_num : Z) (tl : outcome (option string)),
      Pagina.geometric_records page_num (Returns ("", "")) = Returns []
      /\ Pagina.clean_records page_num (PdfCleanOcr.mk_page (Returns "") tl)
         = Returns [])
  /\ (forall (pages : list PdfGeometricOcr.page) (page_limit : Z),
         let processed :=
           firstn (Z.to_nat (Z.min page_limit (Z.of_nat (List.length pages))))
             pages in
         (Forall Pagina.geometric_ok processed ->
          PdfGeometricOcr.extract_all_pages (Pdf pages) page_limit
          = Spec.isolated_pages Pagina.geometric_records processed 0)
         /\ (forall before after : list PdfGeometricOcr.page,
                processed = (before ++ Raises :: after)%list ->
                Forall Pagina.geometric_ok before ->
                PdfGeometricOcr.extract_all_pages (Pdf pages) page_limit
                = Spec.isolated_pages Pagina.geometric_records before 0))
  /\ (forall (pages : list PdfCleanOcr.page) (page_limit : Z),
         let processed :=
           firstn (Z.to_nat (Z.min page_limit (Z.of_nat (List.length pages))))
             pages in
         (Forall Pagina.clean_ok processed ->
          PdfCleanOcr.extract_all_pages (Pdf pages) page_limit
          = Spec.isolated_pages Pagina.clean_records processed 0)
         /\ (forall (before after : list PdfCleanOcr.page)
                    (p : PdfCleanOcr.page),
                processed = (before ++ p :: after)%list ->
                Forall Pagina.clean_ok before ->
                PdfCleanOcr.ocr_text p = Raises ->
                PdfCleanOcr.extract_all_pages (Pdf pages) page_limit
                = PdfCleanOcr.fallback_loop
                    (firstn
                       (Z.to_nat (Z.min 5 (Z.of_nat (List.length pages))))
                       pages)
                    0
                    (Spec.isolated_pages Pagina.clean_records before 0))).
Proof.
  split; [intros page_num tl; split; reflexivity|].
  split; intros pages page_limit processed; split.
  - intros Hok. unfold PdfGeometricOcr.extract_all_pages. cbv zeta.
    fold processed. now rewrite geometric_loop_ok.
  - intros before after Heq Hok.
    unfold PdfGeometricOcr.extract_all_pages. cbv zeta.
    fold processed. rewrite Heq. now rewrite geometric_loop_raises.
  - intros Hok. unfold PdfCleanOcr.extract_all_pages. cbv zeta.
    fold processed. now rewrite clean_loop_ok.
  - intros before after p Heq Hok Hp.
    unfold PdfCleanOcr.extract_all_pages. cbv zeta.
    fold processed. rewrite Heq. now rewrite (clean_loop_raises _ _ _ _ _ Hok Hp).
Qed.

Lemma extract_all_pages_failure_semantics_witness :
  PdfGeometricOcr.extract_all_pages
    (Pdf (Returns ("JOAO DA SILVA", "joao@meudominio.com.br")
            :: Exemplos.paginas_com_falha)) 5
  = Spec.isolated_pages Pagina.geometric_records
      [Returns ("JOAO DA SILVA", "joao@meudominio.com.br")] 0.
Proof.
  apply (proj2 (proj1 (proj2 extract_all_pages_failure_semantics)
                  (Returns ("JOAO DA SILVA", "joao@meudominio.com.br")
                     :: Exemplos.paginas_com_falha) 5)
           [Returns ("JOAO DA SILVA", "joao@meudominio.com.br")]
           [Returns ("PEDRO ALVES", "pedro@alvesleiloes.com.br")]).
  - reflexivity.
  - constructor; [discriminate | constructor].
Defined.

(** C8, as stated, fails: after the exception on the first page the second
    page is never processed, although on its own it contributes a
    record. *)
Lemma page_failure_ends_the_loop :
  PdfGeometricOcr.extract_all_pages (Pdf Exemplos.paginas_com_falha) 5
  <> Spec.isolated_pages Pagina.geometric_records
       Exemplos.paginas_com_falha 0
  /\ PdfGeometricOcr.extract_all_pages (Pdf Exemplos.paginas_com_falha) 5 = []
  /\ Spec.isolated_pages Pagina.geometric_records
       Exemplos.paginas_com_falha 0
     = [ mk_registro "PEDRO ALVES" "pedro@alvesleiloes.com.br" None 2
           "pdf_geometric_ocr" ]
  /\ PdfCleanOcr.extract_all_pages (Pdf Exemplos.paginas_limpas_com_falha) 5
     = []
  /\ Spec.isolated_pages Pagina.clean_records
       Exemplos.paginas_limpas_com_falha 0
     = [ mk_registro "Pedro Alves" "" None 2 "pdf_clean_ocr" ].
Proof.
  split; [vm_compute; discriminate|].
  repeat split; vm_compute; reflexivity.
Qed.

(** ** The matcher on sample texts

    The values on the right are what [re] and [str] return. *)

Example search_email_in_line :
  Re.search Patterns.email Exemplos.linha_joao = Some (19%nat, 22%nat).
Proof. vm_compute. reflexivity. Qed.

Example search_email_needs_two_letters :
  Re.search Patterns.email "x a@b.c" = None.
Proof. vm_compute. reflexivity. Qed.

Example findall_emails :
  Re.findall Patterns.email "foo.bar@baz.co, q@r.s; A@B.CD"
  = ["foo.bar@baz.co"; "A@B.CD"].
Proof. vm_compute. reflexivity. Qed.

Example remove_trailing_number :
  Re.remove_all Patterns.trailing_number "nome 1234/56 " = "nome".
Proof. vm_compute. reflexivity. Qed.

Example remove_trailing_number_backtracks :
  Re.remove_all Patterns.trailing_number "nome 1-2-3" = "nome 1-".
Proof. vm_compute. reflexivity. Qed.

Example remove_trailing_digits :
  Re.remove_all Patterns.trailing_digits "abc 12-" = "abc".
Proof. vm_compute. reflexivity. Qed.

Example remove_leading_symbols :
  Re.remove_all Patterns.leading_symbols "  _-.Maria 12/34 " = "Maria 12/34 ".
Proof. vm_compute. reflexivity. Qed.

Example collapse_spaces :
  Re.sub Patterns.spaces " " "a  b   c" = "a b c".
Proof. vm_compute. reflexivity. Qed.

Example search_number_dash_number :
  Re.search Patterns.number_dash_number "x9 / 10y" = Some (1%nat, 6%nat).
Proof. vm_compute. reflexivity. Qed.

Example split_keeps_empty_items :
  Py.split_on "." "a.b..c." = ["a"; "b"; ""; "c"; ""].
Proof. vm_compute. reflexivity. Qed.

Example lower_accented : Py.lower "MATRÍCULA" = "matrícula".
Proof. vm_compute. reflexivity. Qed.

Example title_of_upper_case : Py.title "JOAO DA-SILVA" = "Joao Da-Silva".
Proof. vm_compute. reflexivity. Qed.


(** * Further properties of the processors *)

(** ** Site cleaning *)

Lemma lower_https (s : string) :
  Py.lower ("https://" ++ s) = "https://" ++ Py.lower s.
Proof. reflexivity. Qed.

Lemma any_in_https_final (x : string) :
  any_in ProcessListaFinal.email_domains ("https://" ++ x)
  = any_in ProcessListaFinal.email_domains x.
Proof. reflexivity. Qed.

Lemma any_in_https_everyone (x : string) :
  any_in RankEveryone.email_domains ("https://" ++ x)
  = any_in RankEveryone.email_domains x.
Proof. reflexivity. Qed.

Lemma startswith_https (s : string) :
  Py.startswith ("https://" ++ s) "https://" = true.
Proof. apply prefix_true. now exists s. Qed.

Lemma https_valid (s : string) :
  Py.nonempty ("https://" ++ s) = true
  /\ String.eqb ("https://" ++ s) "null" = false
  /\ String.eqb ("https://" ++ s) "Não Identificado" = false.
Proof. repeat split. Qed.

Lemma limpar_site_shape (l : leiloeiro) :
  Forma.site_limpo ProcessListaFinal.email_domains
    (site (ProcessListaFinal.limpar_site l)).
Proof.
  unfold ProcessListaFinal.limpar_site, Forma.site_limpo.
  destruct (site l) as [s|] eqn:Hs; [|now left].
  destruct (negb (Py.nonempty s) || String.eqb s "null"
            || String.eqb s "Não Identificado") eqn:Hinv; [now left|].
  destruct (any_in ProcessListaFinal.email_domains (Py.lower s)) eqn:Htok;
    [now left|].
  apply orb_false_iff in Hinv as [Hinv Hni].
  apply orb_false_iff in Hinv as [Hne Hnull].
  apply negb_false_iff in Hne.
  destruct (negb (Py.startswith s "http://" || Py.startswith s "https://"))
    eqn:Hpre; right.
  - exists ("https://" ++ s). cbn [site set_site].
    split; [reflexivity|]. split; [reflexivity|].
    split; [|now rewrite startswith_https, orb_true_r].
    cbn [Tabela.sem_token]. now rewrite lower_https, any_in_https_final, Htok.
  - exists s. rewrite Hs. split; [reflexivity|].
    cbn [Tabela.site_valido Tabela.sem_token].
    rewrite Hne, Hnull, Hni, Htok. apply negb_false_iff in Hpre.
    repeat split. exact Hpre.
Qed.

Lemma limpar_site_falso_shape (l : leiloeiro) :
  Forma.site_limpo RankEveryone.email_domains
    (site (RankEveryone.limpar_site_falso l)).
Proof.
  unfold RankEveryone.limpar_site_falso, Forma.site_limpo.
  destruct (site l) as [s|] eqn:Hs; [|now left].
  destruct (negb (Py.nonempty s) || String.eqb s "null"
            || String.eqb s "Não Identificado") eqn:Hinv; [now left|].
  destruct (any_in RankEveryone.email_domains (Py.lower s)) eqn:Htok;
    [now left|].
  apply orb_false_iff in Hinv as [Hinv Hni].
  apply orb_false_iff in Hinv as [Hne Hnull].
  apply negb_false_iff in Hne.
  destruct (negb (Py.startswith s "http://" || Py.startswith s "https://"))
    eqn:Hpre; right.
  - exists ("https://" ++ s). cbn [site set_site].
    split; [reflexivity|]. split; [reflexivity|].
    split; [|now rewrite startswith_https, orb_true_r].
    cbn [Tabela.sem_token].
    now rewrite lower_https, any_in_https_everyone, Htok.
  - exists s. rewrite Hs. split; [reflexivity|].
    cbn [Tabela.site_valido Tabela.sem_token].
    rewrite Hne, Hnull, Hni, Htok. apply negb_false_iff in Hpre.
    repeat split. exact Hpre.
Qed.

Lemma set_site_same (l : leiloeiro) : set_site (site l) l = l.
Proof. now destruct l. Qed.

Lemma limpar_site_fixed (l : leiloeiro) :
  Forma.site_limpo ProcessListaFinal.email_domains (site l) ->
  ProcessListaFinal.limpar_site l = l.
Proof.
  unfold ProcessListaFinal.limpar_site.
  intros [Hs | (s & Hs & Hval & Htok & Hpre)].
  - rewrite Hs. rewrite <- Hs. apply set_site_same.
  - rewrite Hs in *. cbn [Tabela.site_valido Tabela.sem_token] in Hval, Htok.
    apply andb_true_iff in Hval as [Hval Hni].
    apply andb_true_iff in Hval as [Hne Hnull].
    apply negb_true_iff in Hnull, Hni, Htok.
    now rewrite Hne, Hnull, Hni, Htok, Hpre.
Qed.

Lemma limpar_site_falso_fixed (l : leiloeiro) :
  Forma.site_limpo RankEveryone.email_domains (site l) ->
  RankEveryone.limpar_site_falso l = l.
Proof.
  unfold RankEveryone.limpar_site_falso.
  intros [Hs | (s & Hs & Hval & Htok & Hpre)].
  - rewrite Hs. rewrite <- Hs. apply set_site_same.
  - rewrite Hs in *. cbn [Tabela.site_valido Tabela.sem_token] in Hval, Htok.
    apply andb_true_iff in Hval as [Hval Hni].
    apply andb_true_iff in Hval as [Hne Hnull].
    apply negb_true_iff in Hnull, Hni, Htok.
    now rewrite Hne, Hnull, Hni, Htok, Hpre.
Qed.

(** X1: cleaning the sites twice is cleaning them once, in both processors;
    and a cleaned site is either [None] or a text that starts with
    [http://] or [https://], is valid for the scorer, and holds none of the
    email-provider tokens. *)
Theorem limpar_sites_idempotent (ls : list leiloeiro) :
  ProcessListaFinal.limpar_sites (ProcessListaFinal.limpar_sites ls)
  = ProcessListaFinal.limpar_sites ls
  /\ RankEveryone.limpar_sites_falsos (RankEveryone.limpar_sites_falsos ls)
     = RankEveryone.limpar_sites_falsos ls
  /\ (forall r : leiloeiro,
         In r (ProcessListaFinal.limpar_sites ls) ->
         Forma.site_limpo ProcessListaFinal.email_domains (site r))
  /\ (forall r : leiloeiro,
         In r (RankEveryone.limpar_sites_falsos ls) ->
         Forma.site_limpo RankEveryone.email_domains (site r)).
Proof.
  unfold ProcessListaFinal.limpar_sites, RankEveryone.limpar_sites_falsos.
  repeat split.
  - rewrite List.map_map. apply List.map_ext. intros l.
    apply limpar_site_fixed, limpar_site_shape.
  - rewrite List.map_map. apply List.map_ext. intros l.
    apply limpar_site_falso_fixed, limpar_site_falso_shape.
  - intros r Hr. apply in_map_iff in Hr as (l & <- & _).
    apply limpar_site_shape.
  - intros r Hr. apply in_map_iff in Hr as (l & <- & _).
    apply limpar_site_falso_shape.
Qed.

Lemma limpar_sites_idempotent_witness :
  Forma.site_limpo ProcessListaFinal.email_domains
    (site (ProcessListaFinal.limpar_site Exemplos.site_sem_esquema))
  /\ Forma.site_limpo RankEveryone.email_domains
       (site (RankEveryone.limpar_site_falso Exemplos.site_webmail)).
Proof.
  split.
  - apply (proj1 (proj2 (proj2
             (limpar_sites_idempotent [Exemplos.site_sem_esquema])))).
    left. reflexivity.
  - apply (proj2 (proj2 (proj2
             (limpar_sites_idempotent [Exemplos.site_webmail])))).
    left. reflexivity.
Defined.

(** ** What the pipelines can and cannot produce *)

Lemma pontos_with_site (st em : list string) (l : leiloeiro) :
  Tabela.site_valido (site l) = true ->
  Tabela.sem_token st (site l) = true ->
  50 <= Tabela.pontos st em l.
Proof.
  intros Hv Ht. unfold Tabela.pontos, Tabela.pts. rewrite Hv, Ht.
  cbn [andb].
  destruct (Tabela.campo_valido (email l)), (Tabela.campo_valido (telefone l)),
    (Tabela.campo_valido (matricula l)); cbn [andb];
    repeat match goal with
           | |- context [if ?b then _ else _] => destruct b
           end; lia.
Qed.

Lemma limpar_site_keeps_valid (l : leiloeiro) :
  Py.truthy (site (ProcessListaFinal.limpar_site l)) = true ->
  Tabela.site_valido (site l) = true
  /\ Tabela.sem_token ProcessListaFinal.email_domains (site l) = true.
Proof.
  unfold ProcessListaFinal.limpar_site.
  destruct (site l) as [s|] eqn:Hs; [|discriminate].
  destruct (negb (Py.nonempty s) || String.eqb s "null"
            || String.eqb s "Não Identificado") eqn:Hinv; [discriminate|].
  destruct (any_in ProcessListaFinal.email_domains (Py.lower s)) eqn:Htok;
    [discriminate|].
  intros _. apply orb_false_iff in Hinv as [Hinv Hni].
  apply orb_false_iff in Hinv as [Hne Hnull].
  apply negb_false_iff in Hne.
  cbn [Tabela.site_valido Tabela.sem_token].
  now rewrite Hne, Hnull, Hni, Htok.
Qed.

Lemma site_limpo_truthy (tokens : list string) (v : option string) :
  Forma.site_limpo tokens v -> Py.truthy v = true ->
  Tabela.site_valido v = true /\ Tabela.sem_token tokens v = true.
Proof.
  intros [-> | (s & -> & Hv & Ht & _)] Htr; [discriminate | auto].
Qed.

Lemma classificar_um_not_small (l : leiloeiro) (z : Z) :
  tech_score l = Some z -> 40 <= z ->
  categoria (ProcessListaFinal.classificar_um l)
  <> Some "Pequeno (Com Site)".
Proof.
  intros Hz Hge. unfold ProcessListaFinal.classificar_um. rewrite Hz.
  cbn [default from_option id].
  destruct (negb (Py.truthy (site l)));
    [cbn [categoria set_categoria set_tech_score]; discriminate|].
  destruct (80 <? z); [cbn [categoria set_categoria set_tech_score];
     discriminate|].
  destruct (40 <=? z) eqn:H40; [cbn [categoria set_categoria set_tech_score];
     discriminate|].
  apply Z.leb_gt in H40. lia.
Qed.

Lemma classificar_um_offline_not_small (l : leiloeiro) :
  Py.truthy (site l) = false ->
  categoria (ProcessListaFinal.classificar_um l)
  <> Some "Pequeno (Com Site)".
Proof.
  intros Hs. unfold ProcessListaFinal.classificar_um. rewrite Hs.
  cbn [negb categoria set_categoria]. discriminate.
Qed.

Lemma classificar_inclusivo_not_small (l : leiloeiro) (z : Z) :
  (Py.truthy (site l) = true -> tech_score l = Some z /\ 40 <= z) ->
  categoria (RankEveryone.classificar_um l) <> Some "Pequeno (Com Site)".
Proof.
  intros H. unfold RankEveryone.classificar_um.
  destruct (Py.truthy (site l)); cbn [negb];
    [|cbn [categoria set_categoria set_tech_score]; discriminate].
  destruct (H eq_refl) as [Hz Hge]. rewrite Hz. cbn [default from_option id].
  destruct (80 <? z); [cbn [categoria set_categoria set_tech_score];
     discriminate|].
  destruct (40 <=? z) eqn:H40; [cbn [categoria set_categoria set_tech_score];
     discriminate|].
  apply Z.leb_gt in H40. lia.
Qed.

Lemma site_classificar_inclusivo (l : leiloeiro) :
  site (RankEveryone.classificar_um l) = site l.
Proof.
  unfold RankEveryone.classificar_um.
  destruct (negb (Py.truthy (site l))); [reflexivity|].
  destruct (80 <? default 0 (tech_score l)); [reflexivity|].
  destruct (40 <=? default 0 (tech_score l)); reflexivity.
Qed.

Lemma tech_score_classificar_inclusivo_site (l : leiloeiro) :
  Py.truthy (site l) = true ->
  tech_score (RankEveryone.classificar_um l) = tech_score l.
Proof.
  intros Hs. unfold RankEveryone.classificar_um. rewrite Hs. cbn [negb].
  destruct (80 <? default 0 (tech_score l)); [reflexivity|].
  destruct (40 <=? default 0 (tech_score l)); reflexivity.
Qed.

(** X2: neither pipeline ever assigns the category ['Pequeno (Com Site)']:
    a record that still has a site after cleaning earned the full 50 site
    points, so its score is at least 50 and it is medium or large. *)
Theorem pipelines_never_small (ls : list leiloeiro) (r : leiloeiro) :
  (In r (ProcessListaFinal.processar ls) ->
   categoria r <> Some "Pequeno (Com Site)"
   /\ (Py.truthy (site r) = true ->
       exists z : Z, tech_score r = Some z /\ 50 <= z <= 100))
  /\ (In r (RankEveryone.processar ls) ->
      categoria r <> Some "Pequeno (Com Site)"
      /\ (Py.truthy (site r) = true ->
          exists z : Z, tech_score r = Some z /\ 50 <= z <= 100)).
Proof.
  split; intros Hin.
  - unfold ProcessListaFinal.processar, ProcessListaFinal.classificar,
      ProcessListaFinal.limpar_sites in Hin.
    apply in_map_iff in Hin as (l1 & <- & Hin).
    apply in_map_iff in Hin as (l2 & <- & Hin).
    apply in_map_iff in Hin as (l & <- & _).
    set (x := ProcessListaFinal.limpar_site (ProcessListaFinal.pontuar l)).
    assert (Hts : tech_score x
                  = Some (ProcessListaFinal.calcular_tech_score l)).
    { unfold x. now rewrite tech_score_limpar_site. }
    assert (Hsite : Py.truthy (site x) = true ->
                    50 <= ProcessListaFinal.calcular_tech_score l <= 100).
    { intros Ht. apply limpar_site_keeps_valid in Ht as [Hv Htok].
      change (site (ProcessListaFinal.pontuar l)) with (site l) in Hv, Htok.
      rewrite calcular_tech_score_final_eq.
      pose proof (pontos_with_site _ Tabela.markers_final l Hv Htok).
      pose proof (pontos_range ProcessListaFinal.email_domains
                    Tabela.markers_final l). lia. }
    split.
    + destruct (Py.truthy (site x)) eqn:Ht.
      * apply (classificar_um_not_small x _ Hts). specialize (Hsite eq_refl).
        lia.
      * now apply classificar_um_offline_not_small.
    + rewrite site_classificar_um, tech_score_classificar_um.
      intros Ht. eexists. split; [exact Hts | now apply Hsite].
  - unfold RankEveryone.processar, RankEveryone.classificar_inclusivo,
      RankEveryone.limpar_sites_falsos in Hin.
    apply in_map_iff in Hin as (l1 & <- & Hin).
    apply in_map_iff in Hin as (l2 & <- & Hin).
    apply in_map_iff in Hin as (l & <- & _).
    set (c := RankEveryone.limpar_site_falso l).
    set (x := RankEveryone.pontuar c).
    assert (Hts : tech_score x = Some (RankEveryone.calcular_tech_score c))
      by reflexivity.
    assert (Hsite : Py.truthy (site x) = true ->
                    50 <= RankEveryone.calcular_tech_score c <= 100).
    { change (site x) with (site c). intros Ht.
      destruct (site_limpo_truthy _ _ (limpar_site_falso_shape l) Ht)
        as [Hv Htok].
      rewrite calcular_tech_score_everyone_eq.
      pose proof (pontos_with_site _ Tabela.markers_everyone c Hv Htok).
      pose proof (pontos_range RankEveryone.email_domains
                    Tabela.markers_everyone c). lia. }
    split.
    + apply (classificar_inclusivo_not_small x
               (RankEveryone.calcular_tech_score c)).
      intros Ht. split; [exact Hts|]. specialize (Hsite Ht). lia.
    + rewrite site_classificar_inclusivo. intros Ht.
      rewrite (tech_score_classificar_inclusivo_site x Ht).
      eexists. split; [exact Hts | now apply Hsite].
Qed.

Lemma pipelines_never_small_witness :
  exists z : Z,
    tech_score (List.hd Exemplos.zuk
                  (ProcessListaFinal.processar [Exemplos.site_sem_esquema]))
    = Some z /\ 50 <= z <= 100.
Proof.
  apply (proj1 (pipelines_never_small [Exemplos.site_sem_esquema]
                  (List.hd Exemplos.zuk
                     (ProcessListaFinal.processar
                        [Exemplos.site_sem_esquema])))).
  - left. reflexivity.
  - vm_compute. reflexivity.
Defined.

(** ** The extremes of the score *)

Lemma pontos_extremes (st em : list string) (l : leiloeiro) :
  (Tabela.pontos st em l = 0
   <-> Tabela.site_valido (site l) = false
       /\ Tabela.campo_valido (email l) = false
       /\ Tabela.campo_valido (telefone l) = false
       /\ Tabela.campo_valido (matricula l) = false)
  /\ (Tabela.pontos st em l = 100
      <-> Tabela.site_valido (site l) = true
          /\ Tabela.sem_token st (site l) = true
          /\ Tabela.campo_valido (email l) = true
          /\ Tabela.sem_token em (email l) = true
          /\ Tabela.campo_valido (telefone l) = true
          /\ Tabela.campo_valido (matricula l) = true)
  /\ (exists k : Z, Tabela.pontos st em l = 10 * k /\ 0 <= k <= 10).
Proof.
  unfold Tabela.pontos, Tabela.pts.
  destruct (Tabela.site_valido (site l)), (Tabela.sem_token st (site l)),
    (Tabela.campo_valido (email l)), (Tabela.sem_token em (email l)),
    (Tabela.campo_valido (telefone l)), (Tabela.campo_valido (matricula l));
    cbn [andb];
    (split; [|split]);
    try (split; [intros H; try lia; repeat split; congruence
                | intros H; try lia; intuition congruence]);
    match goal with
    | |- exists k : Z, ?v = 10 * k /\ _ =>
        exists (v / 10); vm_compute; intuition congruence
    end.
Qed.

(** X3: the score of both scorers is a multiple of 10 between 0 and 100;
    it is 0 exactly when the record has no valid site, email, phone or
    registration number, and 100 exactly when all four are valid, the site
    holds no email-provider token and the email no personal marker. *)
Theorem calcular_tech_score_extremes (l : leiloeiro) :
  let final := ProcessListaFinal.calcular_tech_score l in
  let everyone := RankEveryone.calcular_tech_score l in
  (final = 0 <-> everyone = 0)
  /\ (final = 0
      <-> Tabela.site_valido (site l) = false
          /\ Tabela.campo_valido (email l) = false
          /\ Tabela.campo_valido (telefone l) = false
          /\ Tabela.campo_valido (matricula l) = false)
  /\ (final = 100
      <-> Tabela.site_valido (site l) = true
          /\ Tabela.sem_token ProcessListaFinal.email_domains (site l) = true
          /\ Tabela.campo_valido (email l) = true
          /\ Tabela.sem_token Tabela.markers_final (email l) = true
          /\ Tabela.campo_valido (telefone l) = true
          /\ Tabela.campo_valido (matricula l) = true)
  /\ (everyone = 100
      <-> Tabela.site_valido (site l) = true
          /\ Tabela.sem_token RankEveryone.email_domains (site l) = true
          /\ Tabela.campo_valido (email l) = true
          /\ Tabela.sem_token Tabela.markers_everyone (email l) = true
          /\ Tabela.campo_valido (telefone l) = true
          /\ Tabela.campo_valido (matricula l) = true)
  /\ (exists k : Z, final = 10 * k /\ 0 <= k <= 10)
  /\ (exists k : Z, everyone = 10 * k /\ 0 <= k <= 10).
Proof.
  cbv zeta.
  rewrite calcular_tech_score_final_eq, calcular_tech_score_everyone_eq.
  pose proof (pontos_range ProcessListaFinal.email_domains
                Tabela.markers_final l) as Hf.
  pose proof (pontos_range RankEveryone.email_domains
                Tabela.markers_everyone l) as He.
  rewrite !Z.min_l by lia.
  destruct (pontos_extremes ProcessListaFinal.email_domains
              Tabela.markers_final l) as (F0 & F100 & Fk).
  destruct (pontos_extremes RankEveryone.email_domains
              Tabela.markers_everyone l) as (E0 & E100 & Ek).
  repeat split; try tauto.
Qed.

(** ** A site that holds an email-provider token *)

Lemma any_in_final_everyone (x : string) :
  any_in ProcessListaFinal.email_domains x = true ->
  any_in RankEveryone.email_domains x = true.
Proof.
  unfold any_in. rewrite !existsb_exists.
  intros (t & Ht & Hc). exists t. split; [|exact Hc].
  unfold ProcessListaFinal.email_domains in Ht.
  unfold RankEveryone.email_domains. cbn [In] in *. tauto.
Qed.

Lemma pontos_site_with_token (st em : list string) (l : leiloeiro) :
  Tabela.site_valido (site l) = true ->
  Tabela.sem_token st (site l) = false ->
  30 <= Tabela.pontos st em l <= 80.
Proof.
  intros Hv Ht. unfold Tabela.pontos, Tabela.pts. rewrite Hv, Ht.
  cbn [andb].
  destruct (Tabela.campo_valido (email l)), (Tabela.campo_valido (telefone l)),
    (Tabela.campo_valido (matricula l)); cbn [andb];
    repeat match goal with
           | |- context [if ?b then _ else _] => destruct b
           end; lia.
Qed.

(** X4: a record whose site is valid but holds an email-provider token
    (a webmail address typed as a site) loses the site and ends offline in
    both pipelines.  [process_lista_final.py] scores before it cleans, so
    the record keeps the 30 points of the site it no longer has and carries
    a score between 30 and 80; [rank_everyone.py] cleans first and the
    record ends with a score of 0. *)
Theorem site_with_token_ends_offline (l : leiloeiro) (s : string) :
  site l = Some s ->
  Tabela.site_valido (Some s) = true ->
  any_in ProcessListaFinal.email_domains (Py.lower s) = true ->
  let final :=
    ProcessListaFinal.classificar_um
      (ProcessListaFinal.limpar_site (ProcessListaFinal.pontuar l)) in
  let everyone :=
    RankEveryone.classificar_um
      (RankEveryone.pontuar (RankEveryone.limpar_site_falso l)) in
  site final = None
  /\ categoria final = Some "Offline (Sem Site)"
  /\ (exists z : Z, tech_score final = Some z /\ 30 <= z <= 80)
  /\ site everyone = None
  /\ categoria everyone = Some "Offline/Sem Site"
  /\ tech_score everyone = Some 0.
Proof.
  intros Hs Hv Htok. cbv zeta.
  pose proof (any_in_final_everyone _ Htok) as Htok'.
  cbn [Tabela.site_valido] in Hv.
  apply andb_true_iff in Hv as [Hv Hni].
  apply andb_true_iff in Hv as [Hne Hnull].
  apply negb_true_iff in Hnull, Hni.
  assert (Hf : ProcessListaFinal.limpar_site (ProcessListaFinal.pontuar l)
               = set_site None (ProcessListaFinal.pontuar l)).
  { unfold ProcessListaFinal.limpar_site.
    change (site (ProcessListaFinal.pontuar l)) with (site l).
    now rewrite Hs, Hne, Hnull, Hni, Htok. }
  assert (He : RankEveryone.limpar_site_falso l = set_site None l).
  { unfold RankEveryone.limpar_site_falso.
    now rewrite Hs, Hne, Hnull, Hni, Htok'. }
  rewrite Hf, He.
  split; [reflexivity|]. split; [reflexivity|].
  split; [|repeat split].
  exists (ProcessListaFinal.calcular_tech_score l). split; [reflexivity|].
  rewrite calcular_tech_score_final_eq.
  assert (Hv' : Tabela.site_valido (site l) = true).
  { rewrite Hs. cbn [Tabela.site_valido]. now rewrite Hne, Hnull, Hni. }
  assert (Ht' : Tabela.sem_token ProcessListaFinal.email_domains (site l)
                = false).
  { rewrite Hs. cbn [Tabela.sem_token]. now rewrite Htok. }
  pose proof (pontos_site_with_token _ Tabela.markers_final l Hv' Ht'). lia.
Qed.

Lemma site_with_token_ends_offline_witness :
  exists z : Z,
    tech_score
      (ProcessListaFinal.classificar_um
         (ProcessListaFinal.limpar_site
            (ProcessListaFinal.pontuar Exemplos.site_webmail)))
    = Some z
    /\ 30 <= z <= 80.
Proof.
  apply (site_with_token_ends_offline Exemplos.site_webmail
           "www.gmail.com/joaoleiloes");
    vm_compute; reflexivity.
Defined.

(** ** The final ranker *)

(** The values the score of the final ranker takes, and when. *)
Lemma calculate_tech_score_cases (email : cell) (site : option string) :
  let score := RankFinal.calculate_tech_score email site in
  (score = 0 \/ score = 5 \/ score = 40 \/ score = 80 \/ score = 90)
  /\ (40 <= score <-> RankFinal.is_corporate_email email = true)
  /\ (score = 5
      <-> RankFinal.truthy email = true /\ RankFinal.isna email = false
          /\ RankFinal.is_corporate_email email = false)
  /\ (80 <= score
      <-> RankFinal.is_corporate_email email = true
          /\ Tabela.site_identificado site = true)
  /\ (score = 90
      <-> RankFinal.is_corporate_email email = true
          /\ Tabela.site_identificado site = true
          /\ match site with
             | Some s => Py.contains ".com.br" s = true
             | None => False
             end).
Proof.
  cbv zeta. unfold RankFinal.calculate_tech_score, Tabela.site_identificado.
  cbv zeta.
  assert (Hc : negb (RankFinal.truthy email) || RankFinal.isna email = true ->
               RankFinal.is_corporate_email email = false).
  { unfold RankFinal.is_corporate_email. now intros ->. }
  destruct (negb (RankFinal.truthy email) || RankFinal.isna email) eqn:Hmiss.
  - rewrite (Hc eq_refl). apply orb_true_iff in Hmiss.
    repeat split; try lia; try congruence; try tauto;
      intros; try lia; try intuition congruence.
    destruct Hmiss as [Hm|Hm]; [apply negb_true_iff in Hm|];
      intuition congruence.
  - clear Hc. apply orb_false_iff in Hmiss as [Ht Hn].
    apply negb_false_iff in Ht.
    destruct (RankFinal.is_corporate_email email); cbn [negb].
    + destruct site as [s|].
      * unfold RankFinal.nao_identificado.
        destruct (Py.nonempty s && negb (String.eqb s "Não Identificado"));
          [destruct (Py.contains ".com.br" s)|];
          vm_compute; intuition congruence.
      * vm_compute. intuition congruence.
    + vm_compute. intuition congruence.
Qed.

(** X5: the score of the final ranker is one of 0, 5, 40, 80 and 90, so
    the cap at 100 never applies; it is at least 40 exactly for a corporate
    email, and 90 exactly for a corporate email with an identified site
    that contains ['.com.br']. *)
Theorem calculate_tech_score_values (email : cell) (site : option string) :
  let score := RankFinal.calculate_tech_score email site in
  (score = 0 \/ score = 5 \/ score = 40 \/ score = 80 \/ score = 90)
  /\ (40 <= score <-> RankFinal.is_corporate_email email = true)
  /\ (score = 5
      <-> RankFinal.truthy email = true /\ RankFinal.isna email = false
          /\ RankFinal.is_corporate_email email = false)
  /\ (80 <= score
      <-> RankFinal.is_corporate_email email = true
          /\ Tabela.site_identificado site = true)
  /\ (score = 90
      <-> RankFinal.is_corporate_email email = true
          /\ Tabela.site_identificado site = true
          /\ match site with
             | Some s => Py.contains ".com.br" s = true
             | None => False
             end).
Proof. exact (calculate_tech_score_cases email site). Qed.

Lemma clean_nome_nonempty (nome : cell) :
  Py.nonempty (RankFinal.clean_nome nome) = true.
Proof.
  unfold RankFinal.clean_nome.
  destruct (negb (RankFinal.truthy nome) || RankFinal.isna nome);
    [reflexivity|].
  destruct nome as [| |n]; try reflexivity.
  destruct (Py.startswith n "Licensed to"); [reflexivity|]. cbv zeta.
  match goal with
  | |- Py.nonempty (if Py.nonempty ?x then _ else _) = true =>
      destruct (Py.nonempty x) eqn:Hx; [exact Hx | reflexivity]
  end.
Qed.

Lemma is_corporate_email_flag (email : cell) :
  (if RankFinal.truthy email then RankFinal.is_corporate_email email
   else false)
  = RankFinal.is_corporate_email email.
Proof.
  unfold RankFinal.is_corporate_email.
  destruct (RankFinal.truthy email); reflexivity.
Qed.

(** X6: every row the final ranker processes comes out with a name and a
    site that are not empty, and with a category, a score and a corporate
    flag that agree: offline exactly when the site is the sentinel, large
    exactly at score 90, medium exactly at score 80, small exactly when a
    site is known and the email is not corporate, and the flag set exactly
    when the score is at least 40. *)
Theorem process_row_consistent (row : RankFinal.linha) :
  let r := RankFinal.process_row row in
  RankFinal.p_nome r <> ""
  /\ RankFinal.p_site r <> ""
  /\ (RankFinal.p_categoria r = "Offline/Sem Site"
      <-> RankFinal.p_site r = RankFinal.nao_identificado)
  /\ (RankFinal.p_categoria r = "Gigante (Portal)"
      <-> RankFinal.p_tech_score r = 90)
  /\ (RankFinal.p_categoria r = "Médio (Consolidado)"
      <-> RankFinal.p_tech_score r = 80)
  /\ (RankFinal.p_categoria r = "Pequeno (Com Site)"
      <-> RankFinal.p_site r <> RankFinal.nao_identificado
          /\ RankFinal.p_email_corporativo r = false)
  /\ (RankFinal.p_email_corporativo r = true
      <-> 40 <= RankFinal.p_tech_score r).
Proof.
  cbv zeta. unfold RankFinal.process_row.
  cbn [RankFinal.p_nome RankFinal.p_site RankFinal.p_categoria
       RankFinal.p_tech_score RankFinal.p_email_corporativo].
  rewrite is_corporate_email_flag.
  set (email := RankFinal.l_email row).
  set (site := RankFinal.extract_site_from_email email (RankFinal.l_site row)).
  pose proof (extract_site_from_email_nonempty email (RankFinal.l_site row))
    as Hne. fold site in Hne.
  pose proof (clean_nome_nonempty (RankFinal.l_nome row)) as Hnome.
  apply nonempty_true in Hnome.
  pose proof (calculate_tech_score_cases email (Some site))
    as (Hvals & H40 & _ & H80 & H90).
  cbv zeta in Hvals, H40, H80, H90.
  rewrite determine_category_spec, category_of_exhaustive.
  unfold Tabela.site_identificado in *. rewrite Hne in *.
  cbn [andb] in *.
  set (score := RankFinal.calculate_tech_score email (Some site)) in *.
  split; [exact Hnome|]. split; [now apply nonempty_true|].
  destruct (String.eqb_spec site RankFinal.nao_identificado) as [Heq|Hneq];
    cbn [negb] in *.
  - assert (Hlt : score < 80).
    { destruct (Z.lt_ge_cases score 80) as [Hl|Hg]; [assumption|].
      apply H80 in Hg. destruct Hg; discriminate. }
    cbn [Tabela.label_inclusivo].
    repeat split; intros; try lia; try congruence; try discriminate;
      try tauto; try (apply H40; assumption).
  - destruct (80 <? score) eqn:Hgt.
    + apply Z.ltb_lt in Hgt. cbn [Tabela.label_inclusivo].
      assert (Hs : score = 90) by lia.
      assert (Hc : RankFinal.is_corporate_email email = true)
        by (apply H40; lia).
      repeat split; intros; try lia; try congruence; try discriminate;
        try tauto;
        try match goal with
            | H : _ /\ _ |- _ => destruct H; congruence
            end.
    + apply Z.ltb_ge in Hgt.
      destruct (40 <=? score) eqn:Hge.
      * apply Z.leb_le in Hge. cbn [Tabela.label_inclusivo].
        assert (Hc : RankFinal.is_corporate_email email = true)
          by (apply H40; lia).
        assert (Hs : score = 80).
        { assert (80 <= score) by (apply H80; auto). lia. }
        repeat split; intros; try lia; try congruence; try discriminate;
          try tauto;
          try match goal with
              | H : _ /\ _ |- _ => destruct H; congruence
              end.
      * apply Z.leb_gt in Hge. cbn [Tabela.label_inclusivo].
        assert (Hc : RankFinal.is_corporate_email email = false).
        { destruct (RankFinal.is_corporate_email email); [|reflexivity].
          assert (40 <= score) by (apply H40; reflexivity). lia. }
        repeat split; intros; try lia; try congruence; try discriminate;
          try tauto.
Qed.

(** ** The two tests for a corporate email *)

Lemma generic_domains_extended :
  RankFinal.generic_domains
  = (PdfDirectExtractor.generic_domains
       ++ ["gmail.com.br"; "hotmail.com.br"; "yahoo.com.br"])%list.
Proof. reflexivity. Qed.

(** X7: the ranker's test for a corporate email is the stricter of the
    two: an email it accepts, the direct extractor accepts as well, and
    both then synthesize the same site (or none, which one writes as the
    sentinel and the other as the empty text).  An email only the direct
    extractor accepts is empty or on one of the three [.com.br] webmail
    domains only the ranker lists. *)
Theorem is_corporate_email_variants (e : string) :
  (RankFinal.is_corporate_email (CStr e) = true ->
   PdfDirectExtractor.is_corporate_email e = true
   /\ ((PdfDirectExtractor.extract_site_from_email e = ""
        /\ RankFinal.extract_site_from_email (CStr e) CNone
           = RankFinal.nao_identificado)
       \/ (PdfDirectExtractor.extract_site_from_email e
           = RankFinal.extract_site_from_email (CStr e) CNone
           /\ Py.startswith (PdfDirectExtractor.extract_site_from_email e)
                "https://www." = true)))
  /\ (PdfDirectExtractor.is_corporate_email e = true ->
      RankFinal.is_corporate_email (CStr e) = false ->
      e = ""
      \/ exists g : string,
           In g ["gmail.com.br"; "hotmail.com.br"; "yahoo.com.br"]
           /\ exists pre : string,
                Py.lower (RankFinal.domain_of e) = pre ++ g).
Proof.
  unfold PdfDirectExtractor.is_corporate_email.
  change (Py.last_item (Py.split_on "@" e)) with (RankFinal.domain_of e).
  set (d := Py.lower (RankFinal.domain_of e)).
  split.
  - intros Hc. pose proof (is_corporate_email_nonempty e Hc) as Hne.
    assert (He : e <> "") by now apply nonempty_true.
    pose proof Hc as Hc'.
    rewrite (is_corporate_email_str e He), generic_domains_extended,
      existsb_app, negb_true_iff in Hc'.
    fold d in Hc'. apply orb_false_iff in Hc' as [Hd _].
    assert (Hdir : PdfDirectExtractor.is_corporate_email e = true).
    { unfold PdfDirectExtractor.is_corporate_email.
      change (Py.last_item (Py.split_on "@" e)) with (RankFinal.domain_of e).
      fold d. now rewrite Hd. }
    split; [now rewrite Hd|].
    unfold PdfDirectExtractor.extract_site_from_email,
      RankFinal.extract_site_from_email.
    rewrite Hdir, Hc.
    cbn [RankFinal.truthy RankFinal.isna negb andb orb]. rewrite Hne.
    cbn [negb].
    change (Py.last_item (Py.split_on "@" e)) with (RankFinal.domain_of e).
    destruct (2 <=? List.length (Py.split_on "." (RankFinal.domain_of e)))%nat.
    + right. split; [reflexivity|]. apply prefix_true. eexists. reflexivity.
    + left. split; reflexivity.
  - intros Hdir Hrank.
    destruct (String.eqb_spec e "") as [->|He]; [now left | right].
    rewrite (is_corporate_email_str e He), generic_domains_extended,
      existsb_app, negb_false_iff in Hrank.
    fold d in Hrank. apply negb_true_iff in Hdir. rewrite Hdir in Hrank.
    cbn [orb] in Hrank. apply existsb_exists in Hrank as (g & Hg & Hend).
    exists g. split; [exact Hg|]. now apply endswith_true.
Qed.

Lemma is_corporate_email_variants_witness :
  PdfDirectExtractor.is_corporate_email "contato@zukleiloes.com.br" = true.
Proof.
  apply (proj1 (is_corporate_email_variants "contato@zukleiloes.com.br")).
  vm_compute. reflexivity.
Defined.

(** * Further properties of the deduplicators *)

Section KeepFirstMore.
Context {A K : Type} `{EqDecision K} (key : A -> K).

Lemma keep_first_seen_equiv (l : list A) (seen seen' : list K) :
  (forall k : K, k ∈ seen <-> k ∈ seen') ->
  keep_first key seen l = keep_first key seen' l.
Proof.
  revert seen seen'. induction l as [|a l IH]; intros seen seen' Heq.
  - reflexivity.
  - cbn [keep_first].
    destruct (decide (key a ∈ seen)) as [Hin|Hout];
      destruct (decide (key a ∈ seen')) as [Hin'|Hout'].
    + now apply IH.
    + exfalso. apply Hout'. now apply Heq.
    + exfalso. apply Hout. now apply Heq.
    + f_equal. apply IH. intros k. rewrite !elem_of_cons. now rewrite Heq.
Qed.

Lemma keep_first_app (l1 l2 : list A) (seen : list K) :
  keep_first key seen (l1 ++ l2)
  = (keep_first key seen l1
       ++ keep_first key (List.map key l1 ++ seen) l2)%list.
Proof.
  revert seen. induction l1 as [|a l1 IH]; intros seen.
  - reflexivity.
  - cbn [app keep_first List.map].
    destruct (decide (key a ∈ seen)) as [Hin|Hout].
    + rewrite IH. f_equal. apply keep_first_seen_equiv.
      intros k. rewrite elem_of_cons, !elem_of_app.
      split; [tauto|]. intros [->|?]; tauto.
    + rewrite IH. cbn [app]. f_equal. f_equal. apply keep_first_seen_equiv.
      intros k. rewrite elem_of_cons, !elem_of_app, elem_of_cons. tauto.
Qed.

Lemma keep_first_length (l : list A) (seen : list K) :
  (List.length (keep_first key seen l) <= List.length l)%nat.
Proof.
  revert seen. induction l as [|a l IH]; intros seen; cbn [keep_first].
  - reflexivity.
  - destruct (decide (key a ∈ seen)); cbn [List.length].
    + specialize (IH seen). lia.
    + specialize (IH (key a :: seen)). lia.
Qed.

Lemma NoDup_key_filter (l : list A) (k : K) :
  NoDup (List.map key l) ->
  (List.length (List.filter (fun x => bool_decide (key x = k)) l) <= 1)%nat.
Proof.
  induction l as [|a l IH]; intros Hnd; cbn [List.filter List.map] in *.
  - cbn. lia.
  - apply NoDup_cons in Hnd as [Ha Hnd]. specialize (IH Hnd).
    destruct (bool_decide (key a = k)) eqn:Hk; [|exact IH].
    apply bool_decide_eq_true in Hk. cbn [List.length].
    destruct (List.filter (fun x => bool_decide (key x = k)) l) as [|b t]
      eqn:Hf;
      [cbn; lia|].
    exfalso. apply Ha.
    assert (Hb : In b (List.filter (fun x => bool_decide (key x = k)) l))
      by (rewrite Hf; now left).
    apply filter_In in Hb as [Hb Hkb]. apply bool_decide_eq_true in Hkb.
    rewrite Hk, <- Hkb. now apply list_elem_of_In, in_map.
Qed.

End KeepFirstMore.

(** X8: the deduplicator of the clean OCR extractor keeps exactly one
    record per name, the first seen, in the order of the input: no two kept
    records share a name and every name of the input is still there. *)
Theorem deduplicate_names_one_per_name (data : list registro) :
  let unique_data := PdfCleanOcr.deduplicate_data data in
  NoDup (List.map r_nome unique_data)
  /\ sublist unique_data data
  /\ (forall r : registro,
         In r data ->
         exists r' : registro, In r' unique_data /\ r_nome r' = r_nome r)
  /\ (forall r' : registro,
         In r' unique_data ->
         exists l1 l2 : list registro,
           data = (l1 ++ r' :: l2)%list
           /\ forall x : registro, In x l1 -> r_nome x <> r_nome r').
Proof.
  cbv zeta. rewrite deduplicate_names_keep_first.
  split; [apply keep_first_NoDup|]. split; [apply keep_first_sublist|].
  split.
  - intros r Hr. apply list_elem_of_In in Hr.
    destruct (keep_first_covers r_nome data [] r Hr) as (y & Hy & Hkey).
    + intros Hin. inversion Hin.
    + exists y. split; [now apply list_elem_of_In | exact Hkey].
  - intros r' Hr'. apply list_elem_of_In in Hr'.
    destruct (keep_first_is_first _ _ _ _ Hr') as (l1 & l2 & Heq & Hl1).
    exists l1, l2. split; [exact Heq|].
    intros x Hx. now apply Hl1, list_elem_of_In.
Qed.

Lemma deduplicate_names_one_per_name_witness :
  exists r' : registro,
    In r' (PdfCleanOcr.deduplicate_data
             [Exemplos.maria_direto; Exemplos.maria_ocr;
              Exemplos.maria_direto])
    /\ r_nome r' = r_nome Exemplos.maria_ocr.
Proof.
  apply (proj1 (proj2 (proj2 (deduplicate_names_one_per_name
                                [Exemplos.maria_direto; Exemplos.maria_ocr;
                                 Exemplos.maria_direto])))).
  right. left. reflexivity.
Defined.

(** X10: a batch whose keys are pairwise distinct passes through the
    deduplicator unchanged; and when the records of a second pass are
    appended to those of a first, the result starts with the deduplicated
    first pass, followed by the records of the second pass whose key the
    first pass did not have: the earlier pass always wins. *)
Theorem deduplicate_data_merges_passes (first second : list registro) :
  (NoDup (List.map LimpezaFinalOcr.record_key first) ->
   LimpezaFinalOcr.deduplicate_data first = first)
  /\ exists rest : list registro,
       LimpezaFinalOcr.deduplicate_data (first ++ second)
       = (LimpezaFinalOcr.deduplicate_data first ++ rest)%list
       /\ sublist rest second
       /\ (forall r x : registro,
              In r rest -> In x first ->
              LimpezaFinalOcr.record_key x <> LimpezaFinalOcr.record_key r)
       /\ (forall r : registro,
              In r second ->
              (forall x : registro,
                  In x first ->
                  LimpezaFinalOcr.record_key x
                  <> LimpezaFinalOcr.record_key r) ->
              exists r' : registro,
                In r' rest
                /\ LimpezaFinalOcr.record_key r'
                   = LimpezaFinalOcr.record_key r).
Proof.
  rewrite !deduplicate_data_keep_first. split.
  - intros Hnd. apply keep_first_fixed; [exact Hnd|].
    intros x _ Hx. inversion Hx.
  - exists (keep_first LimpezaFinalOcr.record_key
              (List.map LimpezaFinalOcr.record_key first ++ []) second).
    split; [apply keep_first_app|]. split; [apply keep_first_sublist|].
    rewrite app_nil_r. split.
    + intros r x Hr Hx Heq.
      apply list_elem_of_In, keep_first_key_fresh in Hr. apply Hr.
      rewrite <- Heq. now apply list_elem_of_In, in_map.
    + intros r Hr Hnew. apply list_elem_of_In in Hr.
      destruct (keep_first_covers LimpezaFinalOcr.record_key second
                  (List.map LimpezaFinalOcr.record_key first) r Hr)
        as (y & Hy & Hkey).
      * intros Hin. apply list_elem_of_In, in_map_iff in Hin
          as (x & Hx & Hin). now apply (Hnew x Hin).
      * exists y. split; [now apply list_elem_of_In | exact Hkey].
Qed.

Lemma deduplicate_data_merges_passes_witness :
  LimpezaFinalOcr.deduplicate_data
    [Exemplos.maria_direto; Exemplos.maria_ocr]
  = [Exemplos.maria_direto; Exemplos.maria_ocr].
Proof.
  apply (proj1 (deduplicate_data_merges_passes
                  [Exemplos.maria_direto; Exemplos.maria_ocr] [])).
  apply (bool_decide_unpack _). vm_compute. exact I.
Defined.

(** X11: the final ranker removes duplicates by email alone, so all the
    rows without an email collapse into one record, whatever their names:
    at most one processed record with an empty email survives (and at most
    one for any other email), and the output is never longer than the
    input. *)
Theorem process_all_one_per_email (rows : list RankFinal.linha) (e : cell) :
  (List.length
     (List.filter (fun r => bool_decide (RankFinal.p_email r = e))
        (RankFinal.process_all rows)) <= 1)%nat
  /\ (List.length (RankFinal.process_all rows) <= List.length rows)%nat
  /\ (forall row : RankFinal.linha,
         In row rows ->
         RankFinal.l_email row = CNone \/ RankFinal.l_email row = CStr "" ->
         exists r : RankFinal.processado,
           List.filter
             (fun r => bool_decide (RankFinal.p_email r = CStr ""))
             (RankFinal.process_all rows) = [r]).
Proof.
  unfold RankFinal.process_all. split; [|split].
  - apply NoDup_key_filter, keep_first_NoDup.
  - rewrite <- (List.length_map RankFinal.process_row rows).
    apply keep_first_length.
  - intros row Hrow Hemail.
    assert (Hkey : RankFinal.p_email (RankFinal.process_row row) = CStr "")
      by (cbn; destruct Hemail as [-> | ->]; reflexivity).
    destruct (keep_first_covers RankFinal.p_email
                (List.map RankFinal.process_row rows) []
                (RankFinal.process_row row)) as (y & Hy & Hy').
    + now apply list_elem_of_In, in_map.
    + intros Hin. inversion Hin.
    + pose proof (NoDup_key_filter RankFinal.p_email _ (CStr "")
                    (keep_first_NoDup RankFinal.p_email
                       (List.map RankFinal.process_row rows) [])) as Hlen.
      destruct (List.filter
                  (fun r => bool_decide (RankFinal.p_email r = CStr ""))
                  (keep_first RankFinal.p_email []
                     (List.map RankFinal.process_row rows)))
        as [|r [|r2 t]] eqn:Hf.
      * exfalso.
        assert (Hin : In y []).
        { rewrite <- Hf. apply filter_In. split; [now apply list_elem_of_In|].
          apply bool_decide_eq_true. congruence. }
        destruct Hin.
      * now exists r.
      * cbn in Hlen. lia.
Qed.

Lemma process_all_one_per_email_witness :
  exists r : RankFinal.processado,
    List.filter (fun r => bool_decide (RankFinal.p_email r = CStr ""))
      (RankFinal.process_all Exemplos.linhas_sem_email) = [r].
Proof.
  apply (proj2 (proj2 (process_all_one_per_email Exemplos.linhas_sem_email
                         CNone))
           (RankFinal.mk_linha (CStr "MARIA SOUZA") (CStr "") CNone
              "pdf_enriquecido" 2 false)).
  - right. left. reflexivity.
  - right. reflexivity.
Defined.

(** ** The key of a record *)

Lemma contains_underscore_cons (c : ascii) (s : string) :
  Py.contains "_" (String c s) = false ->
  c <> "_"%char /\ Py.contains "_" s = false.
Proof.
  intros H. split.
  - intros ->. assert (Ht : Py.contains "_" (String "_" s) = true).
    { apply contains_true. exists "", s. reflexivity. }
    congruence.
  - destruct (Py.contains "_" s) eqn:Hs; [|reflexivity].
    apply contains_true in Hs as (pre & post & ->).
    assert (Ht : Py.contains "_" (String c (pre ++ "_" ++ post)) = true).
    { apply contains_true. exists (String c pre), post. reflexivity. }
    congruence.
Qed.

Lemma key_parts_unique (a c b d : string) :
  Py.contains "_" a = false -> Py.contains "_" c = false ->
  a ++ "_" ++ b = c ++ "_" ++ d -> a = c /\ b = d.
Proof.
  revert c. induction a as [|x a IH]; intros [|y c] Ha Hc Heq.
  - change (String "_" b = String "_" d) in Heq. injection Heq as ->. auto.
  - change (String "_" b = String y (c ++ "_" ++ d)) in Heq.
    injection Heq as <- _.
    apply contains_underscore_cons in Hc as [Hy _]. congruence.
  - change (String x (a ++ "_" ++ b) = String "_" d) in Heq.
    injection Heq as -> _.
    apply contains_underscore_cons in Ha as [Hx _]. congruence.
  - change (String x (a ++ "_" ++ b) = String y (c ++ "_" ++ d)) in Heq.
    injection Heq as -> Heq.
    apply contains_underscore_cons in Ha as [_ Ha].
    apply contains_underscore_cons in Hc as [_ Hc].
    destruct (IH c Ha Hc Heq) as [-> ->]. auto.
Qed.

(** X9: the key [nome_email] tells two records apart by name and email as
    long as the names hold no underscore: then equal keys mean equal names
    and equal emails.  With an underscore in a name two different pairs can
    share a key, and the deduplicator drops the second although neither its
    name nor its email was seen before. *)
Theorem record_key_injective (r1 r2 : registro) :
  (Py.contains "_" (r_nome r1) = false ->
   Py.contains "_" (r_nome r2) = false ->
   LimpezaFinalOcr.record_key r1 = LimpezaFinalOcr.record_key r2 ->
   r_nome r1 = r_nome r2 /\ r_email r1 = r_email r2)
  /\ LimpezaFinalOcr.deduplicate_data
       [ mk_registro "A_B" "c@x.com" None 1 "pdf_ocr_extractor";
         mk_registro "A" "B_c@x.com" None 1 "pdf_ocr_extractor" ]
     = [ mk_registro "A_B" "c@x.com" None 1 "pdf_ocr_extractor" ].
Proof.
  split.
  - unfold LimpezaFinalOcr.record_key. apply key_parts_unique.
  - rewrite deduplicate_data_keep_first. vm_compute. reflexivity.
Qed.

Lemma record_key_injective_witness :
  r_nome Exemplos.maria_direto
  = r_nome (mk_registro "MARIA SOUZA" "maria@souzaleiloes.com.br" None 7
              "pdf_geometric_ocr")
  /\ r_email Exemplos.maria_direto
     = r_email (mk_registro "MARIA SOUZA" "maria@souzaleiloes.com.br" None 7
                  "pdf_geometric_ocr").
Proof.
  apply (proj1 (record_key_injective Exemplos.maria_direto
                  (mk_registro "MARIA SOUZA" "maria@souzaleiloes.com.br"
                     None 7 "pdf_geometric_ocr")));
    vm_compute; reflexivity.
Defined.

(** * Further properties of the extractors *)

(** ** The geometric extractor *)

(** What every record of the geometric extractor satisfies. *)
Lemma name_step_invariant (P : registro -> Prop) (page_num : Z)
  (emails names : list string) (acc : list registro) (count : nat) :
  (forall nome email : string,
      (3 <= Py.len nome)%nat ->
      PdfGeometricOcr.is_address nome = false ->
      (email = "" \/ In email emails) ->
      P (mk_registro nome email None (page_num + 1) "pdf_geometric_ocr")) ->
  Forall P acc ->
  Forall P (fst (fold_left (PdfGeometricOcr.name_step page_num emails) names
                   (acc, count))).
Proof.
  intros HP. revert acc count.
  induction names as [|name names IH]; intros acc count Hacc.
  - exact Hacc.
  - cbn [fold_left]. unfold PdfGeometricOcr.name_step at 2.
    match goal with
    | |- context [if ?b then _ else _] => destruct b eqn:Hb
    end; [|now apply IH].
    apply IH. apply Forall_app. split; [exact Hacc|].
    constructor; [|constructor].
    apply andb_true_iff in Hb as [Hb _].
    apply andb_true_iff in Hb as [Hb Haddr].
    apply andb_true_iff in Hb as [_ Hlen].
    apply HP.
    + now apply Nat.leb_le.
    + now apply negb_true_iff.
    + destruct emails as [|e es]; [now left | right].
      apply nth_In. apply Nat.mod_upper_bound. discriminate.
Qed.

Lemma geometric_loop_invariant (P : registro -> Prop)
  (pages : list PdfGeometricOcr.page) (page_num : Z)
  (all_data : list registro) :
  (forall (k : Z) (nome email : string),
      page_num < k <= page_num + Z.of_nat (List.length pages) ->
      (3 <= Py.len nome)%nat ->
      PdfGeometricOcr.is_address nome = false ->
      P (mk_registro nome email None k "pdf_geometric_ocr")) ->
  Forall P all_data ->
  Forall P (fst (PdfGeometricOcr.page_loop pages page_num all_data)).
Proof.
  revert page_num all_data.
  induction pages as [|p pages IH]; intros page_num all_data HP Hacc.
  - exact Hacc.
  - cbn [PdfGeometricOcr.page_loop].
    destruct (PdfGeometricOcr.extract_with_ocr_crop p) as [[names emails]|];
      [|exact Hacc].
    apply IH.
    + intros k nome email Hk. apply HP. cbn [List.length]. lia.
    + apply name_step_invariant; [|exact Hacc].
      intros nome email Hlen Haddr _. apply HP; [|assumption..].
      cbn [List.length]. lia.
Qed.

(** X12: every record of the geometric extractor carries the number of a
    page that was processed (from 1 to the smaller of the page limit and
    the page count), the source ['pdf_geometric_ocr'], no site, and a name
    of at least three characters that does not look like an address. *)
Theorem geometric_records_well_formed
  (pages : list PdfGeometricOcr.page) (page_limit : Z) (r : registro) :
  In r (PdfGeometricOcr.extract_all_pages (Pdf pages) page_limit) ->
  1 <= r_pagina r <= Z.min page_limit (Z.of_nat (List.length pages))
  /\ r_fonte r = "pdf_geometric_ocr"
  /\ r_site r = None
  /\ (3 <= Py.len (r_nome r))%nat
  /\ PdfGeometricOcr.is_address (r_nome r) = false.
Proof.
  unfold PdfGeometricOcr.extract_all_pages. cbv zeta.
  set (n := Z.min page_limit (Z.of_nat (List.length pages))).
  intros Hin.
  assert (Hall : Forall
    (fun r => 1 <= r_pagina r <= n
              /\ r_fonte r = "pdf_geometric_ocr" /\ r_site r = None
              /\ (3 <= Py.len (r_nome r))%nat
              /\ PdfGeometricOcr.is_address (r_nome r) = false)
    (fst (PdfGeometricOcr.page_loop (firstn (Z.to_nat n) pages) 0 []))).
  { apply geometric_loop_invariant; [|constructor].
    intros k nome email Hk Hlen Haddr. cbn [r_pagina r_fonte r_site r_nome].
    rewrite length_firstn in Hk. repeat split; try assumption; lia. }
  rewrite Forall_forall in Hall. now apply Hall, list_elem_of_In.
Qed.

Lemma geometric_records_well_formed_witness :
  r_fonte (mk_registro "PEDRO ALVES" "pedro@alvesleiloes.com.br" None 1
             "pdf_geometric_ocr") = "pdf_geometric_ocr".
Proof.
  apply (geometric_records_well_formed
           [Returns ("PEDRO ALVES", "pedro@alvesleiloes.com.br")] 5).
  vm_compute. left. reflexivity.
Defined.

Lemma name_step_names (page_num : Z) (emails names : list string)
  (acc : list registro) (count : nat) :
  List.map r_nome
    (fst (fold_left (PdfGeometricOcr.name_step page_num emails) names
            (acc, count)))
  = (List.map r_nome acc
       ++ List.filter Forma.geometric_valid
            (List.map PdfGeometricOcr.clean_name names))%list.
Proof.
  revert acc count.
  induction names as [|name names IH]; intros acc count.
  - cbn. now rewrite app_nil_r.
  - cbn [fold_left List.map List.filter].
    unfold PdfGeometricOcr.name_step at 2. fold (Forma.geometric_valid
      (PdfGeometricOcr.clean_name name)).
    destruct (Forma.geometric_valid (PdfGeometricOcr.clean_name name)).
    + rewrite IH, List.map_app. cbn [List.map r_nome].
      now rewrite <- app_assoc.
    + apply IH.
Qed.

Lemma name_step_emails (page_num : Z) (emails names : list string)
  (acc : list registro) (i : nat) (r : registro) :
  nth_error
    (fst (fold_left (PdfGeometricOcr.name_step page_num emails) names
            (acc, List.length acc))) i = Some r ->
  nth_error acc i = Some r
  \/ ((List.length acc <= i)%nat
      /\ r_email r
         = match emails with
           | [] => ""
           | _ => List.nth (i mod List.length emails) emails ""
           end).
Proof.
  revert acc.
  induction names as [|name names IH]; intros acc Hi.
  - now left.
  - cbn [fold_left] in Hi.
    unfold PdfGeometricOcr.name_step at 2 in Hi.
    match type of Hi with
    | context [if ?b then _ else _] => destruct b
    end; [|now apply IH].
    replace (S (List.length acc))
      with (List.length
              (acc ++ [mk_registro (PdfGeometricOcr.clean_name name)
                         match emails with
                         | [] => ""
                         | _ :: _ =>
                             List.nth (List.length acc mod List.length emails)
                               emails ""
                         end None (page_num + 1) "pdf_geometric_ocr"]))
      in Hi by (rewrite List.length_app; cbn; lia).
    apply IH in Hi as [Hi | [Hlen Hmail]].
    + destruct (Nat.lt_ge_cases i (List.length acc)) as [Hlt|Hge].
      * left. now rewrite nth_error_app1 in Hi.
      * right. split; [exact Hge|].
        rewrite nth_error_app2 in Hi by exact Hge.
        destruct (i - List.length acc)%nat as [|k] eqn:Hk.
        -- cbn in Hi. injection Hi as <-. cbn [r_email].
           replace i with (List.length acc) by lia. reflexivity.
        -- destruct k; discriminate Hi.
    + right. split; [|exact Hmail].
      rewrite List.length_app in Hlen. cbn in Hlen. lia.
Qed.

(** X13: on one page the geometric extractor keeps the cleaned names that
    pass its test, in their order, and gives the i-th kept name the email
    number [i mod n] of the [n] emails of the page (none when the page has
    no email); so when the page has as many emails as kept names, names
    and emails are paired position by position. *)
Theorem geometric_round_robin (page_num : Z) (names emails : list string) :
  let rs :=
    fst (fold_left (PdfGeometricOcr.name_step page_num emails) names
           ([], O)) in
  List.map r_nome rs
  = List.filter Forma.geometric_valid
      (List.map PdfGeometricOcr.clean_name names)
  /\ (forall (i : nat) (r : registro),
         nth_error rs i = Some r ->
         r_email r
         = match emails with
           | [] => ""
           | _ => List.nth (i mod List.length emails) emails ""
           end)
  /\ (List.length rs = List.length emails -> List.map r_email rs = emails).
Proof.
  cbv zeta.
  set (rs := fst (fold_left (PdfGeometricOcr.name_step page_num emails) names
                    ([], O))).
  assert (Hmail : forall (i : nat) (r : registro),
             nth_error rs i = Some r ->
             r_email r
             = match emails with
               | [] => ""
               | _ => List.nth (i mod List.length emails) emails ""
               end).
  { intros i r Hi.
    apply (name_step_emails page_num emails names [] i r) in Hi
      as [Hi | [_ Hi]]; [|exact Hi].
    destruct i; discriminate Hi. }
  split; [apply (name_step_names page_num emails names [] O)|].
  split; [exact Hmail|].
  intros Hlen. apply nth_error_ext. intros i.
  rewrite nth_error_map.
  destruct (nth_error rs i) as [r|] eqn:Hi; cbn [option_map].
  - assert (Hlt : (i < List.length emails)%nat).
    { rewrite <- Hlen. apply nth_error_Some. congruence. }
    rewrite (Hmail i r Hi).
    destruct emails as [|e es]; [cbn in Hlt; lia|].
    rewrite Nat.mod_small by exact Hlt.
    symmetry. now apply nth_error_nth'.
  - symmetry. apply nth_error_None. rewrite <- Hlen.
    now apply nth_error_None.
Qed.

Lemma geometric_round_robin_witness :
  List.map r_email
    (fst (fold_left
            (PdfGeometricOcr.name_step 0
               ["joao@meudominio.com.br"; "pedro@alvesleiloes.com.br"])
            ["JOAO DA SILVA"; "RUA DAS FLORES"; "PEDRO ALVES"] ([], O)))
  = ["joao@meudominio.com.br"; "pedro@alvesleiloes.com.br"].
Proof.
  apply (proj2 (proj2 (geometric_round_robin 0
                         ["JOAO DA SILVA"; "RUA DAS FLORES"; "PEDRO ALVES"]
                         ["joao@meudominio.com.br";
                          "pedro@alvesleiloes.com.br"]))).
  vm_compute. reflexivity.
Defined.

(** ** The OCR line reader *)

Lemma process_line_invariant (page_num : Z)
  (st : list registro * string * string) (line : string) :
  let Q (r : registro) :=
    r_pagina r = page_num /\ r_fonte r = "pdf_ocr_extractor"
    /\ r_site r = None /\ (3 < Py.len (r_nome r))%nat /\ r_email r <> "" in
  Forall Q (fst (fst st)) ->
  Forall Q (fst (fst (LimpezaFinalOcr.process_line page_num st line))).
Proof.
  cbv zeta. destruct st as [[rows cn] ce]. cbn [fst]. intros Hrows.
  unfold LimpezaFinalOcr.process_line.
  destruct (negb (Py.nonempty (Py.strip line))); [exact Hrows|].
  destruct (LimpezaFinalOcr.is_noise (Py.strip line)); [exact Hrows|].
  destruct (LimpezaFinalOcr.is_address (Py.strip line)); [exact Hrows|].
  cbv zeta.
  destruct (Py.nonempty (LimpezaFinalOcr.extract_email (Py.strip line)))
    eqn:Hemail.
  - apply nonempty_true in Hemail.
    destruct (Py.nonempty cn).
    + cbn [fst].
      match goal with
      | |- context [if ?b then _ else _] => destruct b eqn:Hb
      end; [|exact Hrows].
      apply Forall_app. split; [exact Hrows|].
      apply andb_true_iff in Hb as [_ Hlen]. apply Nat.ltb_lt in Hlen.
      constructor; [|constructor]. cbn. repeat split; assumption.
    + cbn [fst].
      match goal with
      | |- Forall _ (if ?b then _ else _) => destruct b eqn:Hb
      end; [|exact Hrows].
      apply Forall_app. split; [exact Hrows|].
      apply andb_true_iff in Hb as [_ Hlen]. apply Nat.ltb_lt in Hlen.
      constructor; [|constructor]. cbn. repeat split; assumption.
  - match goal with
    | |- context [if ?b then _ else _] => destruct b
    end; exact Hrows.
Qed.

Lemma process_lines_invariant (page_num : Z) (ls : list string)
  (st : list registro * string * string) :
  let Q (r : registro) :=
    r_pagina r = page_num /\ r_fonte r = "pdf_ocr_extractor"
    /\ r_site r = None /\ (3 < Py.len (r_nome r))%nat /\ r_email r <> "" in
  Forall Q (fst (fst st)) ->
  Forall Q (fst (fst (fold_left (LimpezaFinalOcr.process_line page_num) ls
                        st))).
Proof.
  cbv zeta. revert st. induction ls as [|l ls IH]; intros st Hst.
  - exact Hst.
  - cbn [fold_left]. apply IH. now apply process_line_invariant.
Qed.

Lemma process_ocr_text_page (text : string) (page_num : Z)
  (r : registro) :
  In r (LimpezaFinalOcr.process_ocr_text text page_num) ->
  r_pagina r = page_num /\ r_fonte r = "pdf_ocr_extractor"
  /\ (3 < Py.len (r_nome r))%nat.
Proof.
  unfold LimpezaFinalOcr.process_ocr_text.
  destruct (negb (Py.nonempty text)); [intros []|].
  pose proof (process_lines_invariant page_num (lines text) ([], "", ""))
    as Hinv. cbv zeta in Hinv.
  destruct (fold_left (LimpezaFinalOcr.process_line page_num) (lines text)
              ([], "", "")) as [[rows cn] ce].
  cbn [fst] in Hinv. specialize (Hinv ltac:(constructor)).
  rewrite Forall_forall in Hinv.
  assert (Hrows : forall x : registro,
             In x rows ->
             r_pagina x = page_num /\ r_fonte x = "pdf_ocr_extractor"
             /\ (3 < Py.len (r_nome x))%nat).
  { intros x Hx. apply list_elem_of_In, Hinv in Hx. tauto. }
  destruct (Py.nonempty cn && negb (Py.nonempty ce)); [|apply Hrows].
  destruct (Py.nonempty (LimpezaFinalOcr.clean_name cn)
            && (3 <? Py.len (LimpezaFinalOcr.clean_name cn))%nat) eqn:Hb;
    [|apply Hrows].
  apply andb_true_iff in Hb as [_ Hlen]. apply Nat.ltb_lt in Hlen.
  intros [Hr|[<-|[]]]%in_app_iff; [now apply Hrows|].
  cbn. auto.
Qed.

(** X14: every record [process_ocr_text] builds from the text of a page
    carries the page number it was given, the source
    ['pdf_ocr_extractor'], no site, and a name of more than three
    characters; and only the last record can be without an email (the name
    still pending when the text ends). *)
Theorem process_ocr_text_records (text : string) (page_num : Z) :
  let out := LimpezaFinalOcr.process_ocr_text text page_num in
  (forall r : registro,
      In r out ->
      r_pagina r = page_num /\ r_fonte r = "pdf_ocr_extractor"
      /\ r_site r = None /\ (3 < Py.len (r_nome r))%nat)
  /\ (forall (i : nat) (r : registro),
         nth_error out i = Some r -> r_email r = "" ->
         S i = List.length out).
Proof.
  cbv zeta. unfold LimpezaFinalOcr.process_ocr_text.
  destruct (negb (Py.nonempty text)).
  { split; [intros r []|]. intros [|i] r Hi; discriminate Hi. }
  pose proof (process_lines_invariant page_num (lines text) ([], "", ""))
    as Hinv. cbv zeta in Hinv.
  destruct (fold_left (LimpezaFinalOcr.process_line page_num) (lines text)
              ([], "", "")) as [[rows cn] ce].
  cbn [fst] in Hinv. specialize (Hinv ltac:(constructor)).
  rewrite Forall_forall in Hinv.
  assert (Hrows : forall (i : nat) (r : registro),
             nth_error rows i = Some r -> r_email r <> "").
  { intros i r Hi. apply nth_error_In, list_elem_of_In, Hinv in Hi. tauto. }
  destruct (Py.nonempty cn && negb (Py.nonempty ce)).
  - destruct (Py.nonempty (LimpezaFinalOcr.clean_name cn)
              && (3 <? Py.len (LimpezaFinalOcr.clean_name cn))%nat) eqn:Hb.
    + apply andb_true_iff in Hb as [_ Hlen]. apply Nat.ltb_lt in Hlen.
      split.
      * intros r Hr. apply in_app_iff in Hr as [Hr|[<-|[]]].
        -- apply list_elem_of_In, Hinv in Hr. tauto.
        -- cbn. auto.
      * intros i r Hi Hmail. rewrite List.length_app. cbn [List.length].
        destruct (Nat.lt_ge_cases i (List.length rows)) as [Hlt|Hge].
        -- rewrite nth_error_app1 in Hi by exact Hlt.
           now destruct (Hrows i r Hi).
        -- rewrite nth_error_app2 in Hi by exact Hge.
           destruct (i - List.length rows)%nat as [|k] eqn:Hk;
             [lia | destruct k; discriminate Hi].
    + split.
      * intros r Hr. apply list_elem_of_In, Hinv in Hr. tauto.
      * intros i r Hi Hmail. now destruct (Hrows i r Hi).
  - split.
    + intros r Hr. apply list_elem_of_In, Hinv in Hr. tauto.
    + intros i r Hi Hmail. now destruct (Hrows i r Hi).
Qed.

Lemma process_ocr_text_records_witness :
  r_pagina (mk_registro "JOAO DA SILVA" "joao@meudominio.com.br" None 1
              "pdf_ocr_extractor") = 1
  /\ r_fonte (mk_registro "JOAO DA SILVA" "joao@meudominio.com.br" None 1
                "pdf_ocr_extractor") = "pdf_ocr_extractor"
  /\ r_site (mk_registro "JOAO DA SILVA" "joao@meudominio.com.br" None 1
               "pdf_ocr_extractor") = None
  /\ (3 < Py.len (r_nome (mk_registro "JOAO DA SILVA"
                             "joao@meudominio.com.br" None 1
                             "pdf_ocr_extractor")))%nat.
Proof.
  apply (proj1 (process_ocr_text_records Exemplos.linha_joao 1)).
  vm_compute. left. reflexivity.
Defined.

(** ** The clean OCR extractor *)

Lemma names_of_text_length (text name : string) :
  In name (PdfCleanOcr.names_of_text text) -> (3 < Py.len name)%nat.
Proof.
  unfold PdfCleanOcr.names_of_text. intros Hin.
  apply in_concat in Hin as (l & Hl & Hin).
  apply in_map_iff in Hl as (line & <- & _).
  unfold PdfCleanOcr.names_of_line in Hin.
  repeat match type of Hin with
         | In _ (if ?b then _ else _) => destruct b eqn:?
         | In _ (let _ := _ in _) => cbv zeta in Hin
         end; try now destruct Hin.
  destruct Hin as [<-|[]].
  match goal with
  | H : _ && (3 <? Py.len ?x)%nat = true |- (3 < Py.len ?x)%nat =>
      apply andb_true_iff in H as [_ H]; now apply Nat.ltb_lt
  end.
Qed.

Lemma fallback_lines_kept (text line : string) :
  In line (PdfCleanOcr.fallback_lines text) ->
  (3 < Py.len line)%nat /\ PdfCleanOcr.is_noise line = false
  /\ Re.search Patterns.a_digit line = None.
Proof.
  unfold PdfCleanOcr.fallback_lines. intros Hin.
  apply filter_In in Hin as [_ Hb].
  apply andb_true_iff in Hb as [Hb Hdig].
  apply andb_true_iff in Hb as [Hlen Hnoise].
  apply Nat.ltb_lt in Hlen. apply negb_true_iff in Hnoise, Hdig.
  repeat split; try assumption.
  destruct (Re.search Patterns.a_digit line) eqn:Hs; [|reflexivity].
  apply bool_decide_eq_false in Hdig. destruct Hdig. eauto.
Qed.

Lemma ocr_loop_invariant (P : registro -> Prop)
  (pages : list PdfCleanOcr.page) (page_num : Z) (all_data : list registro) :
  (forall (k : Z) (nome : string),
      page_num < k <= page_num + Z.of_nat (List.length pages) ->
      (3 < Py.len nome)%nat -> P (PdfCleanOcr.ocr_record k nome)) ->
  Forall P all_data ->
  Forall P (fst (PdfCleanOcr.ocr_loop pages page_num all_data)).
Proof.
  revert page_num all_data.
  induction pages as [|p pages IH]; intros page_num all_data HP Hacc.
  - exact Hacc.
  - cbn [PdfCleanOcr.ocr_loop]. unfold PdfCleanOcr.extract_names_with_ocr.
    destruct (PdfCleanOcr.ocr_text p) as [text|]; [|exact Hacc].
    apply IH.
    + intros k nome Hk. apply HP. cbn [List.length]. lia.
    + apply Forall_app. split; [exact Hacc|].
      apply Forall_forall. intros r Hr.
      apply list_elem_of_In, in_map_iff in Hr as (nome & <- & Hn).
      apply HP; [cbn [List.length]; lia|].
      now apply (names_of_text_length text).
Qed.

Lemma fallback_loop_invariant (P : registro -> Prop)
  (pages : list PdfCleanOcr.page) (page_num : Z) (all_data : list registro) :
  (forall (k : Z) (line : string),
      page_num < k <= page_num + Z.of_nat (List.length pages) ->
      (3 < Py.len line)%nat -> PdfCleanOcr.is_noise line = false ->
      Re.search Patterns.a_digit line = None ->
      P (PdfCleanOcr.fallback_record k line)) ->
  Forall P all_data ->
  Forall P (PdfCleanOcr.fallback_loop pages page_num all_data).
Proof.
  revert page_num all_data.
  induction pages as [|p pages IH]; intros page_num all_data HP Hacc.
  - exact Hacc.
  - cbn [PdfCleanOcr.fallback_loop].
    destruct (PdfCleanOcr.text_layer p) as [t|]; [|exact Hacc].
    cbv zeta. apply IH.
    + intros k nome Hk. apply HP. cbn [List.length]. lia.
    + apply Forall_app. split; [exact Hacc|].
      apply Forall_forall. intros r Hr.
      apply list_elem_of_In, in_map_iff in Hr as (line & <- & Hl).
      apply fallback_lines_kept in Hl as (Hlen & Hnoise & Hdig).
      apply HP; try assumption. cbn [List.length]. lia.
Qed.

(** X15: the clean OCR extractor never yields an email or a site: every
    record has an empty email, no site and a name of more than three
    characters.  A record of the OCR pass carries a page number between 1
    and the smaller of the page limit and the page count; a record of the
    text-layer fallback carries one between 1 and 5, and its name is a line
    the noise test accepts and that holds no digit. *)
Theorem clean_ocr_records_well_formed
  (pages : list PdfCleanOcr.page) (page_limit : Z) (r : registro) :
  In r (PdfCleanOcr.extract_all_pages (Pdf pages) page_limit) ->
  r_email r = "" /\ r_site r = None /\ (3 < Py.len (r_nome r))%nat
  /\ ((r_fonte r = "pdf_clean_ocr"
       /\ 1 <= r_pagina r
          <= Z.min page_limit (Z.of_nat (List.length pages)))
      \/ (r_fonte r = "pdf_text_fallback"
          /\ 1 <= r_pagina r <= Z.min 5 (Z.of_nat (List.length pages))
          /\ PdfCleanOcr.is_noise (r_nome r) = false
          /\ Re.search Patterns.a_digit (r_nome r) = None)).
Proof.
  unfold PdfCleanOcr.extract_all_pages. cbv zeta.
  set (n := Z.min page_limit (Z.of_nat (List.length pages))).
  set (m := Z.min 5 (Z.of_nat (List.length pages))).
  set (P := fun r : registro =>
    r_email r = "" /\ r_site r = None /\ (3 < Py.len (r_nome r))%nat
    /\ ((r_fonte r = "pdf_clean_ocr" /\ 1 <= r_pagina r <= n)
        \/ (r_fonte r = "pdf_text_fallback" /\ 1 <= r_pagina r <= m
            /\ PdfCleanOcr.is_noise (r_nome r) = false
            /\ Re.search Patterns.a_digit (r_nome r) = None))).
  assert (Hocr : Forall P
            (fst (PdfCleanOcr.ocr_loop (firstn (Z.to_nat n) pages) 0 []))).
  { apply ocr_loop_invariant; [|constructor].
    intros k nome Hk Hlen. rewrite length_firstn in Hk.
    unfold P. cbn. repeat split; try assumption. left. split; [reflexivity|].
    lia. }
  destruct (PdfCleanOcr.ocr_loop (firstn (Z.to_nat n) pages) 0 [])
    as [all_data raised].
  cbn [fst] in Hocr. intros Hin.
  assert (Hall : Forall P
            (if raised
             then PdfCleanOcr.fallback_loop (firstn (Z.to_nat m) pages) 0
                    all_data
             else all_data)).
  { destruct raised; [|exact Hocr].
    apply fallback_loop_invariant; [|exact Hocr].
    intros k line Hk Hlen Hnoise Hdig. rewrite length_firstn in Hk.
    unfold P. cbn. repeat split; try assumption. right.
    repeat split; try assumption; lia. }
  rewrite Forall_forall in Hall. now apply Hall, list_elem_of_In.
Qed.

Lemma clean_ocr_records_well_formed_witness :
  r_email (mk_registro "Pedro Alves" "" None 1 "pdf_clean_ocr") = "".
Proof.
  apply (clean_ocr_records_well_formed
           [PdfCleanOcr.mk_page (Returns "PEDRO ALVES") (Returns None)] 10).
  vm_compute. left. reflexivity.
Defined.

(** ** Reading the text layer *)

(** X16: [extract_all_text] never reads past the third page: the result
    depends on the first three pages only.  When none of them raises it is
    their non-empty texts joined by line feeds; when one of them raises,
    the texts already collected are discarded and the result is empty. *)
Theorem extract_all_text_first_three (pages : list PdfDirectExtractor.page) :
  PdfDirectExtractor.extract_all_text (Pdf pages)
  = PdfDirectExtractor.extract_all_text (Pdf (firstn 3 pages))
  /\ (In Raises (firstn 3 pages) ->
      PdfDirectExtractor.extract_all_text (Pdf pages) = "")
  /\ (~ In Raises (firstn 3 pages) ->
      PdfDirectExtractor.extract_all_text (Pdf pages)
      = Py.join (String "010" "") (Pagina.page_texts (firstn 3 pages))).
Proof.
  unfold PdfDirectExtractor.extract_all_text, Pagina.page_texts.
  destruct pages as [|p1 [|p2 [|p3 rest]]];
    cbn [firstn PdfDirectExtractor.text_loop List.map List.concat];
    repeat match goal with
           | p : PdfDirectExtractor.page |- _ => destruct p as [[?t|]|]
           end;
    cbn [PdfDirectExtractor.text_loop Z.leb Z.add Z.compare Pos.compare
         Pos.compare_cont Pos.add Pos.succ app];
    repeat match goal with
           | |- context [Py.nonempty ?t] => destruct (Py.nonempty t)
           end;
    cbn [app];
    (split; [reflexivity|]); split; intros H; try reflexivity;
    try (exfalso; cbn [In] in H; intuition congruence).
Qed.

Lemma extract_all_text_first_three_witness :
  PdfDirectExtractor.extract_all_text
    (Pdf [Returns (Some Exemplos.linha_joao); Raises; Returns None]) = "".
Proof.
  apply (proj1 (proj2 (extract_all_text_first_three
                         [Returns (Some Exemplos.linha_joao); Raises;
                          Returns None]))).
  right. left. reflexivity.
Defined.

(** ** The OCR extraction pipeline of [limpeza_final_ocr.py] *)

Lemma limpeza_loop_invariant (P : registro -> Prop)
  (pages : list LimpezaFinalOcr.page) (page_num : Z)
  (all_data : list registro) :
  Forall P all_data ->
  (forall (k : Z) (text : string) (r : registro),
      page_num < k <= page_num + Z.of_nat (List.length pages) ->
      In r (LimpezaFinalOcr.process_ocr_text text k) -> P r) ->
  Forall P (fst (LimpezaFinalOcr.page_loop pages page_num all_data)).
Proof.
  revert page_num all_data.
  induction pages as [|p pages IH]; intros page_num all_data Hacc Hstep.
  - exact Hacc.
  - cbn [LimpezaFinalOcr.page_loop]. destruct p as [text|]; [|exact Hacc].
    apply IH.
    + destruct (Py.nonempty text); [|exact Hacc].
      apply Forall_app. split; [exact Hacc|].
      apply Forall_forall. intros r Hr%list_elem_of_In.
      apply (Hstep (page_num + 1) text r); [|exact Hr].
      cbn [List.length]. lia.
    + intros k text' r Hk. apply Hstep. cbn [List.length]. lia.
Qed.

Lemma limpeza_loop_raises (before after : list LimpezaFinalOcr.page)
  (page_num : Z) (all_data : list registro) :
  Forall Pagina.limpeza_ok before ->
  LimpezaFinalOcr.page_loop (before ++ Raises :: after) page_num all_data
  = (fst (LimpezaFinalOcr.page_loop before page_num all_data), true).
Proof.
  revert page_num all_data.
  induction before as [|p before IH]; intros page_num all_data Hok.
  - reflexivity.
  - apply Forall_cons in Hok as [Hp Hok].
    cbn [app LimpezaFinalOcr.page_loop].
    destruct p as [text|]; [|now destruct Hp].
    now apply IH.
Qed.

(** X17: the records [extract_all_pages] of the OCR extractor returns come
    from a readable document, carry a page number between 1 and the number
    of pages processed, the source ['pdf_ocr_extractor'] and a name of more
    than three characters.  [run_extraction] stops with [None] exactly when
    nothing was extracted; otherwise it hands over a non-empty batch with
    one record per key [nome_email], in the order of extraction, whose
    first record is the first one extracted and which still holds every
    extracted key. *)
Theorem limpeza_run_extraction
  (arq : arquivo LimpezaFinalOcr.page) (page_limit : Z) :
  let raw := LimpezaFinalOcr.extract_all_pages arq page_limit in
  (forall r : registro,
      In r raw ->
      exists pages : list LimpezaFinalOcr.page,
        arq = Pdf pages
        /\ 1 <= r_pagina r <= Z.min page_limit (Z.of_nat (List.length pages))
        /\ r_fonte r = "pdf_ocr_extractor"
        /\ (3 < Py.len (r_nome r))%nat)
  /\ (LimpezaFinalOcr.run_extraction arq page_limit = None <-> raw = [])
  /\ (forall data : list registro,
         LimpezaFinalOcr.run_extraction arq page_limit = Some data ->
         data <> []
         /\ NoDup (List.map LimpezaFinalOcr.record_key data)
         /\ sublist data raw
         /\ List.hd_error data = List.hd_error raw
         /\ (forall r : registro,
                In r raw ->
                exists r' : registro,
                  In r' data
                  /\ LimpezaFinalOcr.record_key r'
                     = LimpezaFinalOcr.record_key r)).
Proof.
  cbv zeta. split; [|split].
  - destruct arq as [| |pages]; [intros r []|intros r []|].
    intros r Hr. exists pages. split; [reflexivity|].
    unfold LimpezaFinalOcr.extract_all_pages in Hr. cbv zeta in Hr.
    set (n := Z.to_nat (Z.min page_limit (Z.of_nat (List.length pages))))
      in Hr.
    pose proof (limpeza_loop_invariant
                  (fun r =>
                     1 <= r_pagina r
                       <= Z.min page_limit (Z.of_nat (List.length pages))
                     /\ r_fonte r = "pdf_ocr_extractor"
                     /\ (3 < Py.len (r_nome r))%nat)
                  (firstn n pages) 0 []) as Hinv.
    assert (Hall : Forall
                     (fun r =>
                        1 <= r_pagina r
                          <= Z.min page_limit (Z.of_nat (List.length pages))
                        /\ r_fonte r = "pdf_ocr_extractor"
                        /\ (3 < Py.len (r_nome r))%nat)
                     (fst (LimpezaFinalOcr.page_loop (firstn n pages) 0 []))).
    2: { rewrite Forall_forall in Hall. now apply Hall, list_elem_of_In. }
    apply Hinv; [constructor|].
    intros k text r' Hk Hin.
    destruct (process_ocr_text_page text k r' Hin)
      as (Hpag & Hfonte & Hlen).
    rewrite Hpag. split; [|tauto].
    rewrite List.length_firstn in Hk. unfold n in Hk. lia.
  - unfold LimpezaFinalOcr.run_extraction. cbv zeta.
    destruct (LimpezaFinalOcr.extract_all_pages arq page_limit);
      split; intros H; try reflexivity; discriminate H.
  - intros data. unfold LimpezaFinalOcr.run_extraction. cbv zeta.
    destruct (LimpezaFinalOcr.extract_all_pages arq page_limit)
      as [|r0 raw] eqn:Hraw; [discriminate|].
    intros [= <-]. rewrite deduplicate_data_keep_first.
    split; [|split; [|split; [|split]]].
    + cbn [keep_first]. destruct (decide _) as [Hin|_]; [inversion Hin|].
      discriminate.
    + apply keep_first_NoDup.
    + apply keep_first_sublist.
    + cbn [keep_first]. destruct (decide _) as [Hin|_]; [inversion Hin|].
      reflexivity.
    + intros r Hr.
      destruct (keep_first_covers LimpezaFinalOcr.record_key (r0 :: raw) []
                  r) as (y & Hy & Hkey).
      * now apply list_elem_of_In.
      * intros Hin. inversion Hin.
      * exists y. split; [now apply list_elem_of_In | exact Hkey].
Qed.

Lemma limpeza_run_extraction_witness :
  exists pages : list LimpezaFinalOcr.page,
    Pdf [Returns Exemplos.linha_joao] = Pdf pages
    /\ 1 <= r_pagina (mk_registro "JOAO DA SILVA" "joao@meudominio.com.br"
                        None 1 "pdf_ocr_extractor")
         <= Z.min 10 (Z.of_nat (List.length pages))
    /\ r_fonte (mk_registro "JOAO DA SILVA" "joao@meudominio.com.br" None 1
                  "pdf_ocr_extractor") = "pdf_ocr_extractor"
    /\ (3 < Py.len (r_nome (mk_registro "JOAO DA SILVA"
                               "joao@meudominio.com.br" None 1
                               "pdf_ocr_extractor")))%nat.
Proof.
  apply (proj1 (limpeza_run_extraction (Pdf [Returns Exemplos.linha_joao])
                  10)).
  vm_compute. left. reflexivity.
Defined.

(** X18: in the OCR extractor a page whose rendering or recognition raises
    ends the extraction: the records of the pages before it are kept and
    handed on, and the pages after it are never read, whatever they hold. *)
Theorem limpeza_page_failure_keeps_earlier
  (before after : list LimpezaFinalOcr.page) (page_limit : Z) :
  Forall Pagina.limpeza_ok before ->
  Z.of_nat (List.length before) < page_limit ->
  LimpezaFinalOcr.extract_all_pages (Pdf (before ++ Raises :: after))
    page_limit
  = LimpezaFinalOcr.extract_all_pages (Pdf before) page_limit
  /\ LimpezaFinalOcr.run_extraction (Pdf (before ++ Raises :: after))
       page_limit
     = LimpezaFinalOcr.run_extraction (Pdf before) page_limit.
Proof.
  intros Hok Hlim.
  assert (Heq : LimpezaFinalOcr.extract_all_pages
                  (Pdf (before ++ Raises :: after)) page_limit
                = LimpezaFinalOcr.extract_all_pages (Pdf before) page_limit).
  { unfold LimpezaFinalOcr.extract_all_pages. cbv zeta.
    rewrite List.length_app. cbn [List.length].
    replace (Z.to_nat (Z.min page_limit (Z.of_nat (List.length before))))
      with (List.length before) by lia.
    rewrite firstn_all.
    set (m := Z.to_nat
                (Z.min page_limit
                   (Z.of_nat (List.length before + S (List.length after))))).
    assert (Hm : (m = List.length before + S (m - S (List.length before)))
                 %nat) by (unfold m; lia).
    rewrite Hm, firstn_app_2. cbn [firstn].
    now rewrite limpeza_loop_raises. }
  split; [exact Heq|].
  unfold LimpezaFinalOcr.run_extraction. cbv zeta. now rewrite Heq.
Qed.

Lemma limpeza_page_failure_keeps_earlier_witness :
  LimpezaFinalOcr.extract_all_pages
    (Pdf ([Returns Exemplos.linha_joao]
            ++ Raises :: [Returns "PEDRO ALVES pedro@alvesleiloes.com.br"]))
    10
  = LimpezaFinalOcr.extract_all_pages (Pdf [Returns Exemplos.linha_joao]) 10.
Proof.
  apply (proj1 (limpeza_page_failure_keeps_earlier
                  [Returns Exemplos.linha_joao]
                  [Returns "PEDRO ALVES pedro@alvesleiloes.com.br"] 10
                  ltac:(repeat constructor; discriminate)
                  ltac:(cbn; lia))).
Defined.

(** ** What the matcher returns *)

Lemma backtrack_some (f : nat -> option nat) (lo n r : nat) :
  Re.backtrack f lo n = Some r ->
  exists k : nat, (lo <= k <= n)%nat /\ f k = Some r.
Proof.
  induction n as [|n IH]; cbn [Re.backtrack].
  - destruct (0 <? lo)%nat eqn:Hlo; [discriminate|].
    apply Nat.ltb_ge in Hlo.
    destruct (f O) eqn:Hf; [|discriminate].
    intros [= <-]. exists O. split; [lia | exact Hf].
  - destruct (S n <? lo)%nat eqn:Hlo; [discriminate|].
    apply Nat.ltb_ge in Hlo.
    destruct (f (S n)) eqn:Hf.
    + intros [= <-]. exists (S n). split; [lia | exact Hf].
    + intros Hb. destruct (IH Hb) as (k & Hk & Hfk).
      exists k. split; [lia | exact Hfk].
Qed.

Lemma run_take (cls : ascii -> bool) (hi : option nat) (s : string)
  (k : nat) :
  (k <= Re.run cls hi s)%nat ->
  Py.forall_chars cls (Py.take k s) = true
  /\ String.length (Py.take k s) = k
  /\ match hi with Some h => (k <= h)%nat | None => True end.
Proof.
  revert hi k. induction s as [|c s IH]; intros hi k Hk.
  - assert (k = O) as ->.
    { destruct hi as [[|h]|]; cbn in Hk; lia. }
    destruct hi as [h|]; repeat split; cbn; lia.
  - destruct k as [|k]; [destruct hi; repeat split; cbn; lia|].
    destruct hi as [[|h]|]; cbn [Re.run] in Hk; [lia| |].
    + destruct (cls c) eqn:Hc; [|lia].
      cbn [option_map Nat.pred] in Hk.
      destruct (IH (Some h) k ltac:(lia)) as (Hall & Hlen & Hhi).
      cbn [Py.take Py.forall_chars String.length].
      rewrite Hc, Hall, Hlen. repeat split. lia.
    + destruct (cls c) eqn:Hc; [|lia].
      cbn [option_map] in Hk.
      destruct (IH None k ltac:(lia)) as (Hall & Hlen & _).
      cbn [Py.take Py.forall_chars String.length].
      rewrite Hc, Hall, Hlen. repeat split.
Qed.

Lemma take_add (k n : nat) (s : string) :
  Py.take (k + n) s = Py.take k s ++ Py.take n (Py.drop k s).
Proof.
  revert s. induction k as [|k IH]; intros s.
  - cbn [Nat.add]. destruct s; destruct n; reflexivity.
  - destruct s as [|c s]; [destruct n; reflexivity|].
    cbn [Nat.add Py.take Py.drop]. rewrite app_cons. f_equal. apply IH.
Qed.

(** Whatever [match_here] returns is the length of a prefix of the text
    that the pattern accepts. *)
Lemma match_here_sound (r : Re.regex) (bol : bool) (s : string) (n : nat) :
  Re.match_here r bol s = Some n -> Forma.accepts r (Py.take n s).
Proof.
  revert bol s n. induction r as [|[cls lo hi| |] r IH]; intros bol s n.
  - intros [= <-]. destruct s; reflexivity.
  - cbn [Re.match_here]. intros Hb.
    apply backtrack_some in Hb as (k & Hk & Hf).
    destruct (Re.match_here r (bol && (k =? 0)%nat) (Py.drop k s)) as [m|]
      eqn:Hm; [|discriminate].
    injection Hf as <-.
    destruct (run_take cls hi s k ltac:(lia)) as (Hall & Hlen & Hhi).
    cbn [Forma.accepts].
    exists (Py.take k s), (Py.take m (Py.drop k s)).
    split; [apply take_add|]. split; [exact Hall|].
    split; [|exact (IH _ _ _ Hm)].
    unfold Forma.within. rewrite Hlen. split; [lia | exact Hhi].
  - cbn [Re.match_here Forma.accepts].
    destruct bol; [apply IH | discriminate].
  - cbn [Re.match_here Forma.accepts].
    destruct (Re.at_end s); [apply IH | discriminate].
Qed.

Lemma search_from_some (r : Re.regex) (bol : bool) (pos : nat) (s : string)
  (start n : nat) :
  Re.search_from r bol pos s = Some (start, n) ->
  exists (k : nat) (b : bool),
    start = (pos + k)%nat
    /\ Re.match_here r b (Py.drop k s) = Some n
    /\ s = Py.take k s ++ Py.drop k s.
Proof.
  revert bol pos. induction s as [|c s IH]; intros bol pos;
    cbn [Re.search_from].
  - destruct (Re.match_here r bol "") as [m|] eqn:Hm; [|discriminate].
    intros [= <- <-]. exists O, bol. repeat split; [lia | exact Hm].
  - destruct (Re.match_here r bol (String c s)) as [m|] eqn:Hm.
    + intros [= <- <-]. exists O, bol. repeat split; [lia | exact Hm].
    + intros Hs. destruct (IH _ _ Hs) as (k & b & -> & Hk & Heq).
      exists (S k), b. split; [lia|]. split; [exact Hk|].
      cbn [Py.take Py.drop]. rewrite app_cons. now f_equal.
Qed.

(** The text [re.search] finds is accepted by the pattern and is a part of
    the text searched. *)
Lemma search_sound (r : Re.regex) (s : string) (start n : nat) :
  Re.search r s = Some (start, n) ->
  Forma.accepts r (Py.take n (Py.drop start s))
  /\ exists before after : string,
       s = before ++ Py.take n (Py.drop start s) ++ after.
Proof.
  unfold Re.search. intros Hs.
  destruct (search_from_some _ _ _ _ _ _ Hs) as (k & b & -> & Hm & Heq).
  cbn [Nat.add]. split; [exact (match_here_sound _ _ _ _ Hm)|].
  exists (Py.take k s), (Py.drop n (Py.drop k s)).
  rewrite Heq at 1. f_equal.
  generalize (Py.drop k s). clear. intros t. revert t.
  induction n as [|n IH]; intros t; [destruct t; reflexivity|].
  destruct t as [|c t]; [reflexivity|].
  cbn [Py.take Py.drop]. rewrite app_cons. f_equal. apply IH.
Qed.

(** ** The direct extractor *)

Lemma str_app_assoc (a b c : string) : (a ++ b) ++ c = a ++ b ++ c.
Proof.
  induction a as [|x a IH]; [reflexivity|].
  rewrite !app_cons. now f_equal.
Qed.

Lemma forall_chars_impl (p q : ascii -> bool) (s : string) :
  (forall c : ascii, p c = true -> q c = true) ->
  Py.forall_chars p s = true -> Py.forall_chars q s = true.
Proof.
  intros Hpq. induction s as [|c s IH]; [reflexivity|].
  cbn [Py.forall_chars]. intros [Hc Hs]%andb_true_iff.
  now rewrite (Hpq c Hc), IH.
Qed.

Lemma email_char_facts (c : ascii) :
  Forma.email_char c = true ->
  N.eqb (Py.code c) 195 = false
  /\ Forma.email_char (Py.lower_char c) = true
  /\ Ascii.eqb (Py.lower_char c) "@" = false
  /\ Ascii.eqb c "@" = false.
Proof.
  destruct c as [[] [] [] [] [] [] [] []]; vm_compute;
    intuition congruence.
Qed.

Lemma email_classes (c : ascii) :
  (Re.union Py.is_alpha (Re.union Py.is_digit (Re.any_of ".-")) c = true ->
   Forma.email_char c = true)
  /\ (Py.is_alpha c = true -> Forma.email_char c = true)
  /\ (Re.union Py.is_alpha (Re.union Py.is_digit (Re.any_of "._%+-")) c
      = true -> Forma.email_char c = true).
Proof.
  destruct c as [[] [] [] [] [] [] [] []]; vm_compute;
    intuition congruence.
Qed.

Lemma lower_email_chars (u v : string) :
  Py.forall_chars Forma.email_char u = true ->
  Py.lower (u ++ v) = Py.lower u ++ Py.lower v
  /\ Py.forall_chars (fun c => negb (Ascii.eqb c "@")) (Py.lower u) = true.
Proof.
  induction u as [|c u IH]; [intros _; split; reflexivity|].
  cbn [Py.forall_chars]. intros [Hc Hu]%andb_true_iff.
  destruct (email_char_facts c Hc) as (H195 & _ & Hat & _).
  destruct (IH Hu) as [IH1 IH2].
  rewrite app_cons. cbn [Py.lower]. rewrite H195, IH1.
  split; [reflexivity|].
  cbn [Py.forall_chars]. now rewrite Hat, IH2.
Qed.

Lemma split_on_nonempty (sep : ascii) (s : string) :
  exists (h : string) (t : list string), Py.split_on sep s = h :: t.
Proof.
  destruct s as [|c s]; cbn [Py.split_on]; [now eexists _, _|].
  destruct (Ascii.eqb c sep); [now eexists _, _|].
  destruct (Py.split_on sep s); now eexists _, _.
Qed.

(** [(x + sep + y).split(sep) == x.split(sep) + y.split(sep)] *)
Lemma split_on_app (sep : ascii) (x y : string) :
  Py.split_on sep (x ++ String sep y)
  = (Py.split_on sep x ++ Py.split_on sep y)%list.
Proof.
  induction x as [|c x IH].
  - change ("" ++ String sep y) with (String sep y).
    cbn [Py.split_on]. now rewrite Ascii.eqb_refl.
  - rewrite app_cons. cbn [Py.split_on]. rewrite IH.
    destruct (Ascii.eqb c sep); [reflexivity|].
    destruct (split_on_nonempty sep x) as (h & t & ->). reflexivity.
Qed.

Lemma split_on_without (sep : ascii) (s : string) :
  Py.forall_chars (fun c => negb (Ascii.eqb c sep)) s = true ->
  Py.split_on sep s = [s].
Proof.
  induction s as [|c s IH]; [reflexivity|].
  cbn [Py.forall_chars Py.split_on]. intros [Hc Hs]%andb_true_iff.
  apply negb_true_iff in Hc. now rewrite Hc, IH.
Qed.

Lemma forall_chars_app (p : ascii -> bool) (u v : string) :
  Py.forall_chars p (u ++ v)
  = Py.forall_chars p u && Py.forall_chars p v.
Proof.
  induction u as [|c u IH]; [reflexivity|].
  rewrite app_cons. cbn [Py.forall_chars]. now rewrite IH, andb_assoc.
Qed.

Lemma contains_char_app (a : ascii) (x y : string) :
  Py.contains (String a "") (x ++ String a y) = true.
Proof.
  apply contains_true. exists x, y. reflexivity.
Qed.

(** The shape of a text the email pattern accepts. *)
Lemma accepts_email (w : string) :
  Forma.accepts Patterns.email w ->
  exists u1 u2 u3 : string,
    w = u1 ++ String "@" (u2 ++ String "." u3)
    /\ Py.forall_chars Forma.email_char u1 = true
    /\ Py.forall_chars Forma.email_char u2 = true
    /\ Py.forall_chars Forma.email_char u3 = true.
Proof.
  unfold Patterns.email, Re.plus, Re.one, Re.at_least.
  cbn [Forma.accepts].
  intros (u1 & v1 & -> & H1 & _ & a & v2 & -> & Ha & [Ha1 Ha2] & u2 & v3
          & -> & H2 & _ & d & v4 & -> & Hd & [Hd1 Hd2] & u3 & v5 & -> & H3
          & _ & ->).
  destruct a as [|ca [|? ?]]; cbn [String.length] in Ha1, Ha2; try lia.
  destruct d as [|cd [|? ?]]; cbn [String.length] in Hd1, Hd2; try lia.
  cbn [Py.forall_chars] in Ha, Hd. rewrite andb_true_r in Ha, Hd.
  apply Ascii.eqb_eq in Ha, Hd. subst ca cd.
  exists u1, u2, u3. split.
  - rewrite !app_cons, !app_empty.
    replace (u3 ++ "") with u3; [reflexivity|].
    clear. induction u3 as [|c u IH]; [reflexivity|].
    rewrite app_cons. now f_equal.
  - split; [|split].
    + eapply forall_chars_impl; [|exact H1]. apply email_classes.
    + eapply forall_chars_impl; [|exact H2]. apply email_classes.
    + eapply forall_chars_impl; [|exact H3]. apply email_classes.
Qed.

(** What follows for the lowered email: it holds an ['@'], its domain is
    the text after it, and the domain holds a dot. *)
Lemma lower_email_shape (w : string) :
  Forma.accepts Patterns.email w ->
  Py.contains "@" (Py.lower w) = true
  /\ (2 <= List.length
            (Py.split_on "." (Py.last_item (Py.split_on "@" (Py.lower w)))))
     %nat.
Proof.
  intros (u1 & u2 & u3 & -> & H1 & H2 & H3)%accepts_email.
  destruct (lower_email_chars u1 (String "@" (u2 ++ String "." u3)) H1)
    as [Hl1 _].
  destruct (lower_email_chars u2 (String "." u3) H2) as [Hl2 Hn2].
  destruct (lower_email_chars u3 "" H3) as [_ Hn3].
  assert (Hdom : Py.lower (String "@" (u2 ++ String "." u3))
                 = String "@" (Py.lower u2 ++ String "." (Py.lower u3))).
  { change (Py.lower (String "@" (u2 ++ String "." u3)))
      with (String "@" (Py.lower (u2 ++ String "." u3))).
    rewrite Hl2. reflexivity. }
  rewrite Hl1, Hdom. split; [apply contains_char_app|].
  rewrite split_on_app.
  rewrite (split_on_without "@" (Py.lower u2 ++ String "." (Py.lower u3))).
  2: { rewrite forall_chars_app. cbn [Py.forall_chars].
       now rewrite Hn2, Hn3. }
  unfold Py.last_item. rewrite List.last_last.
  rewrite split_on_app, List.length_app.
  destruct (split_on_nonempty "." (Py.lower u2)) as (h & t & ->).
  destruct (split_on_nonempty "." (Py.lower u3)) as (h' & t' & ->).
  cbn [List.length]. lia.
Qed.

Lemma split_ws_items (s : string) :
  Forall (fun w => w <> "") (Py.split_ws s).
Proof.
  induction s as [|c s IH]; [constructor|].
  cbn [Py.split_ws]. destruct (Py.is_space c); [exact IH|].
  destruct s as [|d s']; [repeat constructor; discriminate|].
  destruct (Py.is_space d).
  - constructor; [discriminate | exact IH].
  - destruct (Py.split_ws (String d s')) as [|w ws].
    + repeat constructor; discriminate.
    + apply Forall_cons in IH as [_ IH].
      constructor; [discriminate | exact IH].
Qed.

Lemma len_prefix_chars (n : nat) (s : string) :
  (Py.len (Py.prefix_chars n s) <= n)%nat.
Proof.
  revert n. induction s as [|c s IH]; intros n; [cbn; lia|].
  cbn [Py.prefix_chars]. destruct (Py.is_continuation c) eqn:Hc.
  - cbn [Py.len]. rewrite Hc. apply IH.
  - destruct n as [|n]; [cbn; lia|].
    cbn [Py.len]. rewrite Hc. specialize (IH n). lia.
Qed.

Lemma len_positive (s : string) : (0 < Py.len s)%nat -> s <> "".
Proof. destruct s; [cbn; lia | discriminate]. Qed.

(** A character of a line is a character of the text. *)
Lemma exists_chars_lstrip (p : ascii -> bool) (s : string) :
  Py.exists_chars p (Py.lstrip s) = true -> Py.exists_chars p s = true.
Proof.
  induction s as [|c s IH]; [auto|].
  cbn [Py.lstrip]. destruct (Py.is_space c); [|auto].
  intros H. cbn [Py.exists_chars]. rewrite (IH H). apply orb_true_r.
Qed.

Lemma exists_chars_rstrip (p : ascii -> bool) (s : string) :
  Py.exists_chars p (Py.rstrip s) = true -> Py.exists_chars p s = true.
Proof.
  induction s as [|c s IH]; [auto|].
  cbn [Py.rstrip]. cbv zeta.
  destruct (String.eqb (Py.rstrip s) "" && Py.is_space c);
    [discriminate|].
  cbn [Py.exists_chars]. intros [Hc|Hs]%orb_true_iff.
  - now rewrite Hc.
  - rewrite (IH Hs). apply orb_true_r.
Qed.

Lemma exists_chars_split_on (p : ascii -> bool) (sep : ascii)
  (s line : string) :
  In line (Py.split_on sep s) ->
  Py.exists_chars p line = true -> Py.exists_chars p s = true.
Proof.
  revert line. induction s as [|c s IH]; intros line.
  - intros [<-|[]]. auto.
  - cbn [Py.split_on]. destruct (Ascii.eqb c sep).
    + intros [<-|Hin]; [discriminate|]. intros H.
      cbn [Py.exists_chars]. rewrite (IH line Hin H). apply orb_true_r.
    + destruct (split_on_nonempty sep s) as (h & t & Heq).
      rewrite Heq in *. intros [<-|Hin].
      * cbn [Py.exists_chars]. intros [Hc|Hh]%orb_true_iff.
        -- now rewrite Hc.
        -- rewrite (IH h (or_introl eq_refl) Hh). apply orb_true_r.
      * intros H. cbn [Py.exists_chars].
        rewrite (IH line (or_intror Hin) H). apply orb_true_r.
Qed.

Lemma contains_char (a : ascii) (s : string) :
  Py.contains (String a "") s = Py.exists_chars (Ascii.eqb a) s.
Proof.
  induction s as [|c s IH]; [reflexivity|].
  cbn [Py.contains Py.exists_chars]. rewrite IH. f_equal.
  cbn. destruct (Ascii.eqb_spec a c) as [->|Hne].
  - destruct (ascii_dec c c); [now destruct s | contradiction].
  - destruct (ascii_dec a c); [contradiction | reflexivity].
Qed.

Lemma search_email_at (line : string) (start n : nat) :
  Re.search Patterns.email line = Some (start, n) ->
  Py.contains "@" line = true
  /\ Forma.accepts Patterns.email (Py.take n (Py.drop start line)).
Proof.
  intros [Hacc (before & after & Heq)]%search_sound.
  split; [|exact Hacc].
  destruct (accepts_email _ Hacc) as (u1 & u2 & u3 & Hw & _).
  rewrite Heq, Hw. apply contains_true.
  exists (before ++ u1), ((u2 ++ String "." u3) ++ after).
  repeat (rewrite str_app_assoc || rewrite app_cons || rewrite app_empty).
  reflexivity.
Qed.

Lemma leiloeiros_of_line_spec (line : string) (c : candidato) :
  In c (PdfDirectExtractor.leiloeiros_of_line line) ->
  Py.contains "@" (Py.strip line) = true
  /\ c_fonte c = "pdf_direto"
  /\ c_nome c <> ""
  /\ Py.contains "@" (c_email c) = true
  /\ c_email_corporativo c
     = PdfDirectExtractor.is_corporate_email (c_email c)
  /\ (if c_email_corporativo c
      then Py.startswith (c_site c) "https://www." = true
      else c_site c = "")
  /\ (Py.len (c_linha_original c) <= 100)%nat.
Proof.
  unfold PdfDirectExtractor.leiloeiros_of_line. cbv zeta.
  destruct (negb (Py.nonempty (Py.strip line))
            || (Py.len (Py.strip line) <? 5)%nat); [intros []|].
  destruct (Re.search Patterns.email (Py.strip line)) as [[start n]|]
    eqn:Hs; [|intros []].
  apply search_email_at in Hs as [Hat Hacc].
  destruct (lower_email_shape _ Hacc) as [Hemail Hparts].
  intros [<-|[]].
  cbn [c_fonte c_nome c_email c_email_corporativo c_site c_linha_original].
  split; [exact Hat|]. split; [reflexivity|]. split; [|split; [exact Hemail|]].
  - match goal with
    | |- (if ?b then _ else _) <> "" => destruct b eqn:Hb
    end.
    + pose proof (split_ws_items (Py.strip line)) as Hws.
      destruct (Py.split_ws (Py.strip line)) as [|w ws];
        [discriminate|].
      apply Forall_cons in Hws as [Hw _]. exact Hw.
    + apply orb_false_iff in Hb as [Hlen _]. apply Nat.ltb_ge in Hlen.
      apply len_positive. lia.
  - split; [reflexivity|]. split; [|apply len_prefix_chars].
    destruct (PdfDirectExtractor.is_corporate_email _) eqn:Hcorp;
      [|reflexivity].
    unfold PdfDirectExtractor.extract_site_from_email. cbv zeta.
    rewrite Hcorp. cbn [negb].
    apply Nat.leb_le in Hparts. rewrite Hparts.
    apply prefix_true. eexists. reflexivity.
Qed.

Lemma concat_nil {A : Type} (ls : list (list A)) :
  (forall l : list A, In l ls -> l = []) -> List.concat ls = [].
Proof.
  induction ls as [|l ls IH]; [reflexivity|].
  intros H. cbn [List.concat].
  rewrite (H l (or_introl eq_refl)), IH; [reflexivity|].
  intros l' Hl'. apply H. now right.
Qed.

Lemma concat_length_le {A B : Type} (f : A -> list B) (l : list A) :
  (forall a : A, (List.length (f a) <= 1)%nat) ->
  (List.length (List.concat (List.map f l)) <= List.length l)%nat.
Proof.
  intros Hf. induction l as [|a l IH]; [cbn; lia|].
  cbn [List.map List.concat]. rewrite List.length_app.
  cbn [List.length]. specialize (Hf a). lia.
Qed.

(** X19: every candidate the direct extractor reads from a text has the
    source ['pdf_direto'], a name that is not empty, an email with an
    ['@'], at most 100 characters of its line, and a corporate flag that
    is [is_corporate_email] of its email; its site starts with
    ['https://www.'] when the flag is set and is empty otherwise.  A line
    gives at most one candidate. *)
Theorem extract_leiloeiros_candidates (text : string) :
  let out := PdfDirectExtractor.extract_leiloeiros_from_text text in
  (List.length out <= List.length (lines text))%nat
  /\ forall c : candidato,
       In c out ->
       c_fonte c = "pdf_direto"
       /\ c_nome c <> ""
       /\ Py.contains "@" (c_email c) = true
       /\ c_email_corporativo c
          = PdfDirectExtractor.is_corporate_email (c_email c)
       /\ (if c_email_corporativo c
           then Py.startswith (c_site c) "https://www." = true
           else c_site c = "")
       /\ (Py.len (c_linha_original c) <= 100)%nat.
Proof.
  cbv zeta. unfold PdfDirectExtractor.extract_leiloeiros_from_text. split.
  - apply concat_length_le. intros line.
    unfold PdfDirectExtractor.leiloeiros_of_line. cbv zeta.
    destruct (_ || _); [cbn; lia|].
    destruct (Re.search _ _) as [[? ?]|]; cbn; lia.
  - intros c Hc. apply in_concat in Hc as (l & Hl & Hc).
    apply in_map_iff in Hl as (line & <- & _).
    apply leiloeiros_of_line_spec in Hc. tauto.
Qed.

Lemma extract_leiloeiros_candidates_witness :
  c_fonte (mk_candidato "JOAO DA SILVA" "joao@meudominio.com.br" true
             "https://www.meudominio.com.br" "pdf_direto"
             Exemplos.linha_joao) = "pdf_direto".
Proof.
  apply (proj2 (extract_leiloeiros_candidates Exemplos.linha_joao)).
  vm_compute. left. reflexivity.
Defined.

(** X20: a text without an ['@'] gives the direct extractor no candidate,
    and [run_extraction] then stops with [None]; when it does hand over
    candidates, there is at least one. *)
Theorem extract_leiloeiros_needs_at :
  (forall text : string,
      Py.contains "@" text = false ->
      PdfDirectExtractor.extract_leiloeiros_from_text text = [])
  /\ (forall arq : arquivo PdfDirectExtractor.page,
         Py.contains "@" (PdfDirectExtractor.extract_all_text arq) = false ->
         PdfDirectExtractor.run_extraction arq = None)
  /\ (forall (arq : arquivo PdfDirectExtractor.page)
        (leiloeiros : list candidato),
         PdfDirectExtractor.run_extraction arq = Some leiloeiros ->
         leiloeiros
         = PdfDirectExtractor.extract_leiloeiros_from_text
             (PdfDirectExtractor.extract_all_text arq)
         /\ leiloeiros <> []).
Proof.
  assert (Hnone : forall text : string,
             Py.contains "@" text = false ->
             PdfDirectExtractor.extract_leiloeiros_from_text text = []).
  { intros text Hno.
    unfold PdfDirectExtractor.extract_leiloeiros_from_text.
    apply concat_nil. intros l Hl.
    apply in_map_iff in Hl as (line & <- & Hline).
    destruct (PdfDirectExtractor.leiloeiros_of_line line) as [|c cs] eqn:Hc;
      [reflexivity|].
    exfalso.
    destruct (leiloeiros_of_line_spec line c) as [Hat _].
    { rewrite Hc. now left. }
    change "@" with (String "@" "") in Hat, Hno.
    rewrite contains_char in Hat, Hno.
    apply exists_chars_rstrip, exists_chars_lstrip in Hat.
    apply (exists_chars_split_on _ _ _ _ Hline) in Hat. congruence. }
  split; [exact Hnone|]. split.
  - intros arq Hno. unfold PdfDirectExtractor.run_extraction. cbv zeta.
    destruct (negb _); [reflexivity|]. now rewrite (Hnone _ Hno).
  - intros arq ls. unfold PdfDirectExtractor.run_extraction. cbv zeta.
    destruct (negb _); [discriminate|].
    destruct (PdfDirectExtractor.extract_leiloeiros_from_text _);
      [discriminate|].
    intros [= <-]. split; [reflexivity | discriminate].
Qed.

Lemma extract_leiloeiros_needs_at_witness :
  PdfDirectExtractor.extract_leiloeiros_from_text "JOAO DA SILVA 1234" = [].
Proof.
  apply (proj1 extract_leiloeiros_needs_at). vm_compute. reflexivity.
Defined.

(** ** The report of the processors *)

Lemma quantos_cons (cat : string) (l : leiloeiro) (ls : list leiloeiro) :
  Relatorio.quantos cat (l :: ls)
  = (if bool_decide (categoria l = Some cat) then 1 else 0)
    + Relatorio.quantos cat ls.
Proof.
  unfold Relatorio.quantos. cbn [List.filter].
  destruct (bool_decide (categoria l = Some cat)); cbn [List.length]; lia.
Qed.

Lemma quantos_nonneg (cat : string) (ls : list leiloeiro) :
  0 <= Relatorio.quantos cat ls.
Proof. unfold Relatorio.quantos. lia. Qed.

(** The loop of the report counts, for each category, the records that
    carry it. *)
Lemma contar_categorias_fold (ls : list leiloeiro) (m0 : gmap string Z) :
  Forall (fun l => categoria l <> None) ls ->
  exists m : gmap string Z,
    fold_left
      (fun (acc : outcome (gmap string Z)) (l : leiloeiro) =>
         match acc with
         | Returns categorias =>
             match categoria l with
             | Some cat => Returns (Relatorio.contar categorias cat)
             | None => Raises
             end
         | Raises => Raises
         end)
      ls (Returns m0) = Returns m
    /\ forall k : string,
         m !! k = if Relatorio.quantos k ls =? 0 then m0 !! k
                  else Some (default 0 (m0 !! k) + Relatorio.quantos k ls).
Proof.
  revert m0. induction ls as [|l ls IH]; intros m0 Hall.
  - exists m0. split; [reflexivity|]. intros k. reflexivity.
  - apply Forall_cons in Hall as [Hl Hall]. cbn [fold_left].
    destruct (categoria l) as [c|] eqn:Hc; [|contradiction].
    destruct (IH (Relatorio.contar m0 c) Hall) as (m & Hm & Hk).
    exists m. split; [exact Hm|]. intros k. rewrite Hk, quantos_cons, Hc.
    pose proof (quantos_nonneg k ls) as Hpos.
    unfold Relatorio.contar.
    destruct (decide (c = k)) as [->|Hne].
    + rewrite lookup_insert_eq, bool_decide_eq_true_2 by reflexivity.
      cbn [default from_option id].
      destruct (Relatorio.quantos k ls =? 0) eqn:Hq.
      * apply Z.eqb_eq in Hq. rewrite Hq.
        destruct (1 + 0 =? 0) eqn:H1; [apply Z.eqb_eq in H1; lia|].
        f_equal; lia.
      * apply Z.eqb_neq in Hq.
        destruct (1 + Relatorio.quantos k ls =? 0) eqn:H1;
          [apply Z.eqb_eq in H1; lia|].
        f_equal; lia.
    + rewrite lookup_insert_ne by exact Hne.
      rewrite bool_decide_eq_false_2 by congruence.
      reflexivity.
Qed.

Lemma filter_split_length {A : Type} (p : A -> bool) (l : list A) :
  (List.length (List.filter p l)
   + List.length (List.filter (fun x => negb (p x)) l)
   = List.length l)%nat.
Proof.
  induction l as [|a l IH]; [reflexivity|].
  cbn [List.filter]. destruct (p a); cbn [negb List.length]; lia.
Qed.

Lemma quantos_classified (off : string) (ls : list leiloeiro) :
  off <> "Gigante (Portal)" -> off <> "Médio (Consolidado)" ->
  off <> "Pequeno (Com Site)" ->
  Forall (Forma.classified off) ls ->
  Relatorio.quantos off ls
  = Z.of_nat (List.length ls)
    - Z.of_nat
        (List.length (List.filter (fun l => Py.truthy (site l)) ls))
  /\ Relatorio.quantos "Gigante (Portal)" ls
     + Relatorio.quantos "Médio (Consolidado)" ls
     = Z.of_nat
         (List.length (List.filter (fun l => Py.truthy (site l)) ls))
  /\ Relatorio.quantos "Pequeno (Com Site)" ls = 0.
Proof.
  intros Hg Hm Hp. induction 1 as [|x ls Hx Hall IH].
  - repeat split.
  - destruct IH as (IH1 & IH2 & IH3).
    rewrite !quantos_cons, IH1, IH3. cbn [List.filter].
    destruct Hx as [[Hs Hc]|[Hs [Hc|Hc]]]; rewrite Hs, Hc;
      repeat match goal with
             | |- context [bool_decide (Some ?a = Some ?b)] =>
                 first [ rewrite (bool_decide_eq_true_2 (Some a = Some b))
                           by reflexivity
                       | rewrite (bool_decide_eq_false_2 (Some a = Some b))
                           by congruence ]
             end;
      cbn [List.length]; repeat split; lia.
Qed.

Lemma gerar_classified (off : string) (ls : list leiloeiro) :
  off <> "Gigante (Portal)" -> off <> "Médio (Consolidado)" ->
  off <> "Pequeno (Com Site)" ->
  Forall (Forma.classified off) ls -> ls <> [] ->
  exists r : Relatorio.relatorio,
    Relatorio.gerar ls = Returns r
    /\ Relatorio.total r = Z.of_nat (List.length ls)
    /\ (forall cat : string,
           default 0 (Relatorio.categorias r !! cat)
           = Relatorio.quantos cat ls)
    /\ default 0 (Relatorio.categorias r !! off) = Relatorio.offline r
    /\ default 0 (Relatorio.categorias r !! "Gigante (Portal)")
       + default 0 (Relatorio.categorias r !! "Médio (Consolidado)")
       = Relatorio.com_site r
    /\ Relatorio.categorias r !! "Pequeno (Com Site)" = None.
Proof.
  intros Hg Hm Hp Hall Hne.
  destruct (contar_categorias_fold ls ∅) as (m & Hfold & Hk).
  { eapply Forall_impl; [exact Hall|].
    intros x [[_ Hc]|[_ [Hc|Hc]]]; rewrite Hc; discriminate. }
  destruct (quantos_classified off ls Hg Hm Hp Hall) as (Hoff & Hsite & Hpeq).
  assert (Hcount : forall cat : string,
             default 0 (m !! cat) = Relatorio.quantos cat ls).
  { intros cat. rewrite Hk, lookup_empty.
    destruct (Relatorio.quantos cat ls =? 0) eqn:Hq.
    - apply Z.eqb_eq in Hq. now rewrite Hq.
    - cbn [default from_option id]. lia. }
  unfold Relatorio.gerar, Relatorio.contar_categorias. cbv zeta.
  rewrite Hfold.
  destruct (Z.of_nat (List.length ls) =? 0) eqn:Hz.
  { apply Z.eqb_eq in Hz. destruct ls; [contradiction | discriminate Hz]. }
  eexists. split; [reflexivity|].
  cbn [Relatorio.total Relatorio.categorias Relatorio.offline
       Relatorio.com_site].
  split; [reflexivity|]. split; [exact Hcount|].
  split; [now rewrite Hcount|]. split; [now rewrite !Hcount|].
  rewrite Hk, Hpeq. cbn. apply lookup_empty.
Qed.

Lemma processar_final_classified (ls : list leiloeiro) :
  Forall (Forma.classified "Offline (Sem Site)")
    (ProcessListaFinal.processar ls).
Proof.
  apply Forall_forall. intros x Hx%list_elem_of_In.
  unfold ProcessListaFinal.processar, ProcessListaFinal.classificar,
    ProcessListaFinal.limpar_sites in Hx.
  apply in_map_iff in Hx as (y & <- & Hy).
  apply in_map_iff in Hy as (p & <- & Hp).
  apply in_map_iff in Hp as (l & <- & _).
  set (y := ProcessListaFinal.limpar_site (ProcessListaFinal.pontuar l)).
  assert (Hts : tech_score y = Some (ProcessListaFinal.calcular_tech_score l)).
  { unfold y. now rewrite tech_score_limpar_site. }
  assert (Hsite : Py.truthy (site y) = true ->
                  50 <= ProcessListaFinal.calcular_tech_score l).
  { intros Ht. apply limpar_site_keeps_valid in Ht as [Hv Htok].
    change (site (ProcessListaFinal.pontuar l)) with (site l) in Hv, Htok.
    rewrite calcular_tech_score_final_eq.
    pose proof (pontos_with_site _ Tabela.markers_final l Hv Htok).
    pose proof (pontos_range ProcessListaFinal.email_domains
                  Tabela.markers_final l). lia. }
  unfold Forma.classified. rewrite site_classificar_um.
  unfold ProcessListaFinal.classificar_um. rewrite Hts.
  cbn [default from_option id].
  destruct (Py.truthy (site y)); cbn [negb]; [|left; split; reflexivity].
  right. split; [reflexivity|]. specialize (Hsite eq_refl).
  destruct (80 <? _); [left; reflexivity|].
  destruct (40 <=? _) eqn:H40; [right; reflexivity|].
  apply Z.leb_gt in H40. lia.
Qed.

Lemma processar_everyone_classified (ls : list leiloeiro) :
  Forall (Forma.classified "Offline/Sem Site") (RankEveryone.processar ls).
Proof.
  apply Forall_forall. intros x Hx%list_elem_of_In.
  unfold RankEveryone.processar, RankEveryone.classificar_inclusivo,
    RankEveryone.limpar_sites_falsos in Hx.
  apply in_map_iff in Hx as (y & <- & Hy).
  apply in_map_iff in Hy as (p & <- & Hp).
  apply in_map_iff in Hp as (l & <- & _).
  set (c := RankEveryone.limpar_site_falso l).
  set (y := RankEveryone.pontuar c).
  assert (Hts : tech_score y = Some (RankEveryone.calcular_tech_score c))
    by reflexivity.
  assert (Hsite : Py.truthy (site y) = true ->
                  50 <= RankEveryone.calcular_tech_score c).
  { change (site y) with (site c). intros Ht.
    destruct (site_limpo_truthy _ _ (limpar_site_falso_shape l) Ht)
      as [Hv Htok].
    rewrite calcular_tech_score_everyone_eq.
    pose proof (pontos_with_site _ Tabela.markers_everyone c Hv Htok).
    pose proof (pontos_range RankEveryone.email_domains
                  Tabela.markers_everyone c). lia. }
  unfold Forma.classified. rewrite site_classificar_inclusivo.
  unfold RankEveryone.classificar_um. rewrite Hts.
  cbn [default from_option id].
  destruct (Py.truthy (site y)); cbn [negb]; [|left; split; reflexivity].
  right. split; [reflexivity|]. specialize (Hsite eq_refl).
  destruct (80 <? _); [left; reflexivity|].
  destruct (40 <=? _) eqn:H40; [right; reflexivity|].
  apply Z.leb_gt in H40. lia.
Qed.

Lemma gerar_empty : Relatorio.gerar [] = Raises.
Proof. reflexivity. Qed.

(** X21: the report [main] computes agrees with itself, in both
    processors.  When at least one record is read, nobody is dropped (the
    total is the number of records read), the line for offline records
    (the total minus the records with a site) is the count of the offline
    category, the records with a site are the large and the medium ones
    together, every category shows the number of records that carry it,
    and the small category never shows.  When no record is read, the
    report ends in the [ZeroDivisionError] of its first percentage. *)
Theorem report_consistent (ls : list leiloeiro) :
  (ls = [] ->
   Relatorio.process_lista_final ls = Raises
   /\ Relatorio.rank_everyone ls = Raises)
  /\ (ls <> [] ->
      (exists r : Relatorio.relatorio,
          Relatorio.process_lista_final ls = Returns r
          /\ Relatorio.total r = Z.of_nat (List.length ls)
          /\ (forall cat : string,
                 default 0 (Relatorio.categorias r !! cat)
                 = Relatorio.quantos cat (ProcessListaFinal.processar ls))
          /\ default 0 (Relatorio.categorias r !! "Offline (Sem Site)")
             = Relatorio.offline r
          /\ default 0 (Relatorio.categorias r !! "Gigante (Portal)")
             + default 0 (Relatorio.categorias r !! "Médio (Consolidado)")
             = Relatorio.com_site r
          /\ Relatorio.categorias r !! "Pequeno (Com Site)" = None)
      /\ (exists r : Relatorio.relatorio,
             Relatorio.rank_everyone ls = Returns r
             /\ Relatorio.total r = Z.of_nat (List.length ls)
             /\ (forall cat : string,
                    default 0 (Relatorio.categorias r !! cat)
                    = Relatorio.quantos cat (RankEveryone.processar ls))
             /\ default 0 (Relatorio.categorias r !! "Offline/Sem Site")
                = Relatorio.offline r
             /\ default 0 (Relatorio.categorias r !! "Gigante (Portal)")
                + default 0
                    (Relatorio.categorias r !! "Médio (Consolidado)")
                = Relatorio.com_site r
             /\ Relatorio.categorias r !! "Pequeno (Com Site)" = None)).
Proof.
  split.
  - intros ->. split; apply gerar_empty.
  - intros Hne. split.
    + destruct (gerar_classified "Offline (Sem Site)"
                  (ProcessListaFinal.processar ls))
        as (r & Hr & Htot & Hrest);
        [discriminate | discriminate | discriminate
        | apply processar_final_classified
        | destruct ls; [contradiction | discriminate] |].
      exists r. split; [exact Hr|]. split; [|exact Hrest].
      rewrite Htot. unfold ProcessListaFinal.processar,
        ProcessListaFinal.classificar, ProcessListaFinal.limpar_sites.
      now rewrite !List.length_map.
    + destruct (gerar_classified "Offline/Sem Site"
                  (RankEveryone.processar ls))
        as (r & Hr & Htot & Hrest);
        [discriminate | discriminate | discriminate
        | apply processar_everyone_classified
        | destruct ls; [contradiction | discriminate] |].
      exists r. split; [exact Hr|]. split; [|exact Hrest].
      rewrite Htot. unfold RankEveryone.processar,
        RankEveryone.classificar_inclusivo, RankEveryone.limpar_sites_falsos.
      now rewrite !List.length_map.
Qed.

Lemma report_consistent_witness :
  (Relatorio.process_lista_final [] = Raises
   /\ Relatorio.rank_everyone [] = Raises)
  /\ exists r : Relatorio.relatorio,
       Relatorio.rank_everyone [Exemplos.zuk; Exemplos.sem_site] = Returns r
       /\ Relatorio.total r = 2
       /\ Relatorio.offline r = 1
       /\ Relatorio.com_site r = 1.
Proof.
  split.
  - apply (proj1 (report_consistent [])). reflexivity.
  - destruct (proj2 (proj2 (report_consistent
                              [Exemplos.zuk; Exemplos.sem_site])
                       ltac:(discriminate)))
      as (r & Hr & Htot & _).
    exists r. split; [exact Hr|].
    vm_compute in Hr. injection Hr as <-. repeat split.
Defined.

(** ** The emails the extractors find *)

Lemma exists_chars_app (p : ascii -> bool) (u v : string) :
  Py.exists_chars p (u ++ v) = Py.exists_chars p u || Py.exists_chars p v.
Proof.
  induction u as [|c u IH]; [reflexivity|].
  rewrite app_cons. cbn [Py.exists_chars]. now rewrite IH, orb_assoc.
Qed.

Lemma email_char_not_space (c : ascii) :
  Forma.email_char c = true -> Py.is_space (Py.lower_char c) = false.
Proof.
  destruct c as [[] [] [] [] [] [] [] []]; vm_compute; congruence.
Qed.

Lemma lower_email_chars_no_space (u : string) :
  Py.forall_chars Forma.email_char u = true ->
  Py.exists_chars Py.is_space (Py.lower u) = false.
Proof.
  induction u as [|c u IH]; [reflexivity|].
  cbn [Py.forall_chars]. intros [Hc Hu]%andb_true_iff.
  destruct (email_char_facts c Hc) as (H195 & _).
  cbn [Py.lower]. rewrite H195. cbn [Py.exists_chars].
  now rewrite (email_char_not_space c Hc), (IH Hu).
Qed.

(** A lowered address holds an ['@'] and no white space. *)
Lemma lower_email_clean (w : string) :
  Forma.accepts Patterns.email w ->
  Py.contains "@" (Py.lower w) = true
  /\ Py.exists_chars Py.is_space (Py.lower w) = false.
Proof.
  intros Hacc. split; [apply (lower_email_shape w Hacc)|].
  apply accepts_email in Hacc as (u1 & u2 & u3 & -> & H1 & H2 & H3).
  destruct (lower_email_chars u1 (String "@" (u2 ++ String "." u3)) H1)
    as [-> _].
  change (Py.lower (String "@" (u2 ++ String "." u3)))
    with (String "@" (Py.lower (u2 ++ String "." u3))).
  destruct (lower_email_chars u2 (String "." u3) H2) as [-> _].
  change (Py.lower (String "." u3)) with (String "." (Py.lower u3)).
  rewrite exists_chars_app. cbn [Py.exists_chars].
  rewrite exists_chars_app. cbn [Py.exists_chars].
  rewrite !lower_email_chars_no_space by assumption. reflexivity.
Qed.

(** Removing the white space of a text that has none changes nothing. *)
Lemma remove_spaces_id (s : string) (bol : bool) :
  Py.exists_chars Py.is_space s = false ->
  Re.sub_from Patterns.spaces "" bol 0 s = s.
Proof.
  revert bol. induction s as [|c s IH]; intros bol; [reflexivity|].
  cbn [Py.exists_chars]. intros [Hc Hs]%orb_false_iff.
  cbn [Re.sub_from]. unfold Patterns.spaces, Re.plus.
  cbn [Re.match_here Re.run]. unfold Re.space at 1. rewrite Hc.
  cbn [Re.backtrack Nat.ltb Nat.leb]. f_equal. now apply IH.
Qed.

Lemma findall_from_sound (r : Re.regex) (bol : bool) (skip : nat)
  (s e : string) :
  In e (Re.findall_from r bol skip s) -> Forma.accepts r e.
Proof.
  revert bol skip. induction s as [|c s IH]; intros bol skip; [intros []|].
  cbn [Re.findall_from]. destruct skip as [|k]; [|apply IH].
  destruct (Re.match_here r bol (String c s)) as [[|n]|] eqn:Hm;
    [apply IH | | apply IH].
  intros [<-|He]; [exact (match_here_sound _ _ _ _ Hm) | exact (IH _ _ He)].
Qed.

Lemma extract_email_cases (text : string) :
  LimpezaFinalOcr.extract_email text
  = match Re.search Patterns.email text with
    | Some (start, n) => Py.lower (Py.take n (Py.drop start text))
    | None => ""
    end
  /\ (LimpezaFinalOcr.extract_email text = ""
      \/ (Py.contains "@" text = true
          /\ Py.contains "@" (LimpezaFinalOcr.extract_email text) = true
          /\ Py.exists_chars Py.is_space (LimpezaFinalOcr.extract_email text)
             = false)).
Proof.
  unfold LimpezaFinalOcr.extract_email.
  destruct (Py.nonempty text) eqn:Hne; cbn [negb].
  - destruct (Re.search Patterns.email text) as [[start n]|] eqn:Hs;
      [|split; [reflexivity | now left]].
    apply search_email_at in Hs as [Hat Hacc].
    destruct (lower_email_clean _ Hacc) as [Hc Hsp].
    unfold Re.remove_all, Re.sub. rewrite (remove_spaces_id _ _ Hsp).
    split; [reflexivity|]. right. auto.
  - apply nonempty_false in Hne. subst text.
    split; [reflexivity | now left].
Qed.

Lemma process_line_emails (page_num : Z)
  (st : list registro * string * string) (line : string) :
  let Q (r : registro) :=
    r_email r = "" \/ Py.contains "@" (r_email r) = true in
  Forall Q (fst (fst st)) ->
  Forall Q (fst (fst (LimpezaFinalOcr.process_line page_num st line))).
Proof.
  cbv zeta. destruct st as [[rows cn] ce]. cbn [fst]. intros Hrows.
  unfold LimpezaFinalOcr.process_line.
  destruct (negb (Py.nonempty (Py.strip line))); [exact Hrows|].
  destruct (LimpezaFinalOcr.is_noise (Py.strip line)); [exact Hrows|].
  destruct (LimpezaFinalOcr.is_address (Py.strip line)); [exact Hrows|].
  cbv zeta.
  assert (Hmail : LimpezaFinalOcr.extract_email (Py.strip line) = ""
                  \/ Py.contains "@"
                       (LimpezaFinalOcr.extract_email (Py.strip line))
                     = true).
  { destruct (extract_email_cases (Py.strip line)) as [_ [H|H]]; tauto. }
  destruct (Py.nonempty (LimpezaFinalOcr.extract_email (Py.strip line))).
  - destruct (Py.nonempty cn); cbn [fst];
      match goal with
      | |- Forall _ (if ?b then _ else _) => destruct b
      end; try exact Hrows;
      (apply Forall_app; split; [exact Hrows|]);
      (constructor; [exact Hmail | constructor]).
  - match goal with
    | |- context [if ?b then _ else _] => destruct b
    end; exact Hrows.
Qed.

(** X22: [extract_email] returns the first address of the text in lower
    case, or the empty text when there is none, as for every text without
    an ['@']; a returned address holds an ['@'] and no white space, so the
    removal of white space that ends the function never changes it.  Every
    record [process_ocr_text] builds has an empty email or one with an
    ['@']. *)
Theorem extract_email_result (text : string) :
  LimpezaFinalOcr.extract_email text
  = match Re.search Patterns.email text with
    | Some (start, n) => Py.lower (Py.take n (Py.drop start text))
    | None => ""
    end
  /\ (LimpezaFinalOcr.extract_email text = ""
      \/ (Py.contains "@" (LimpezaFinalOcr.extract_email text) = true
          /\ Py.exists_chars Py.is_space (LimpezaFinalOcr.extract_email text)
             = false))
  /\ (Py.contains "@" text = false -> LimpezaFinalOcr.extract_email text = "")
  /\ (forall (page_num : Z) (r : registro),
         In r (LimpezaFinalOcr.process_ocr_text text page_num) ->
         r_email r = "" \/ Py.contains "@" (r_email r) = true).
Proof.
  destruct (extract_email_cases text) as [Heq Hcases].
  split; [exact Heq|]. split; [tauto|]. split.
  - intros Hno. destruct Hcases as [H|[H _]]; [exact H | congruence].
  - intros page_num r. unfold LimpezaFinalOcr.process_ocr_text.
    destruct (negb (Py.nonempty text)); [intros []|].
    assert (Hinv : Forall
                     (fun r => r_email r = ""
                               \/ Py.contains "@" (r_email r) = true)
                     (fst (fst (fold_left
                                  (LimpezaFinalOcr.process_line page_num)
                                  (lines text) ([], "", ""))))).
    { generalize (lines text). intros ls.
      assert (Hst : Forall
                      (fun r => r_email r = ""
                                \/ Py.contains "@" (r_email r) = true)
                      (fst (fst (([] : list registro), "", ""))))
        by constructor.
      revert Hst. generalize (([] : list registro), "", "").
      induction ls as [|l ls IH]; intros st Hst; [exact Hst|].
      cbn [fold_left]. apply IH. now apply process_line_emails. }
    destruct (fold_left (LimpezaFinalOcr.process_line page_num) (lines text)
                ([], "", "")) as [[rows cn] ce].
    cbn [fst] in Hinv. rewrite Forall_forall in Hinv.
    assert (Hrows : forall x : registro,
               In x rows ->
               r_email x = "" \/ Py.contains "@" (r_email x) = true).
    { intros x Hx. now apply Hinv, list_elem_of_In. }
    destruct (Py.nonempty cn && negb (Py.nonempty ce)); [|apply Hrows].
    destruct (Py.nonempty (LimpezaFinalOcr.clean_name cn) && _);
      [|apply Hrows].
    intros [Hr|[<-|[]]]%in_app_iff; [now apply Hrows | now left].
Qed.

Lemma extract_email_result_witness :
  LimpezaFinalOcr.extract_email "JOAO DA SILVA 1234" = "".
Proof.
  apply (proj1 (proj2 (proj2 (extract_email_result "JOAO DA SILVA 1234")))).
  vm_compute. reflexivity.
Defined.

(** X23: every email the geometric extractor finds in the right region of
    a page holds an ['@'] and no white space; so every record it returns
    has an email that is empty or holds an ['@']. *)
Theorem geometric_emails_are_addresses :
  (forall right_text e : string,
      In e (PdfGeometricOcr.emails_of_text right_text) ->
      Py.contains "@" e = true /\ Py.exists_chars Py.is_space e = false)
  /\ (forall (pages : list PdfGeometricOcr.page) (page_limit : Z)
        (r : registro),
         In r (PdfGeometricOcr.extract_all_pages (Pdf pages) page_limit) ->
         r_email r = "" \/ Py.contains "@" (r_email r) = true).
Proof.
  assert (Hemails : forall right_text e : string,
             In e (PdfGeometricOcr.emails_of_text right_text) ->
             Py.contains "@" e = true
             /\ Py.exists_chars Py.is_space e = false).
  { intros right_text e. unfold PdfGeometricOcr.emails_of_text, Re.findall.
    intros (w & <- & Hw)%in_map_iff.
    apply lower_email_clean. exact (findall_from_sound _ _ _ _ _ Hw). }
  split; [exact Hemails|].
  intros pages page_limit r.
  unfold PdfGeometricOcr.extract_all_pages. cbv zeta.
  generalize (firstn
                (Z.to_nat (Z.min page_limit (Z.of_nat (List.length pages))))
                pages).
  intros ps Hr.
  assert (Hall : Forall
                   (fun r => r_email r = ""
                             \/ Py.contains "@" (r_email r) = true)
                   (fst (PdfGeometricOcr.page_loop ps 0 []))).
  2: { rewrite Forall_forall in Hall. now apply Hall, list_elem_of_In. }
  assert (Hacc : Forall
                   (fun r => r_email r = ""
                             \/ Py.contains "@" (r_email r) = true)
                   ([] : list registro)) by constructor.
  revert Hacc. generalize ([] : list registro). generalize 0.
  clear Hr. induction ps as [|p ps IH]; intros page_num acc Hacc.
  - exact Hacc.
  - cbn [PdfGeometricOcr.page_loop].
    destruct p as [[left_text right_text]|]; [|exact Hacc].
    cbn [PdfGeometricOcr.extract_with_ocr_crop].
    apply IH. apply name_step_invariant; [|exact Hacc].
    intros nome email _ _ [->|Hin]; [now left | right].
    cbn [r_email]. apply (Hemails right_text email Hin).
Qed.

Lemma geometric_emails_are_addresses_witness :
  Py.contains "@" "pedro@alvesleiloes.com.br" = true
  /\ Py.exists_chars Py.is_space "pedro@alvesleiloes.com.br" = false.
Proof.
  apply (proj1 geometric_emails_are_addresses
           "PEDRO pedro@alvesleiloes.com.br").
  vm_compute. left. reflexivity.
Defined.
